(** * primrose-mcp-youtube: the HTTP client, the error taxonomy and the
    output formatters, embedded from [src/client.ts], [src/utils/errors.ts],
    [src/utils/formatters.ts] and [src/types/env.ts].

    Conventions of the embedding.
    - A JavaScript string is a [string]; every character stands for one
      UTF-16 code unit, so [String.length] is [str.length].
    - A JavaScript number is an integer or [NaN] ([number]); the code only
      handles status codes, counts and parsed header values.
    - JSON values and object literals are [jsval]s; an object keeps its
      properties in insertion order.
    - Entities coming from upstream are read at their declared TypeScript
      types ([as T] is unchecked in the source), so the embedding is exact on
      values of those types.
    - [fetch] is the only effect: it is modelled by explicit state passing
      over a script of upstream responses and a log of the requests sent. *)

From Stdlib Require Import String Ascii ZArith List Bool Lia DecimalString.
Import ListNotations.

Open Scope list_scope.
Open Scope string_scope.
Open Scope Z_scope.

(* ================================================================== *)
(** ** JavaScript strings *)
(* ================================================================== *)

(** [a + b] on strings. *)
Notation "a +++ b" := (String.append a b) (at level 60, right associativity).

(** [Array.prototype.join] on an array of strings. *)
Definition join (sep : string) (l : list string) : string := String.concat sep l.

Definition is_empty (s : string) : bool :=
  match s with EmptyString => true | String _ _ => false end.

(** [hay.includes(needle)]. *)
Fixpoint includes (hay needle : string) : bool :=
  if String.prefix needle hay then true
  else match hay with
       | EmptyString => false
       | String _ rest => includes rest needle
       end.

(** The first [n] code units of [s], and [s] without them. *)
Fixpoint take (n : nat) (s : string) : string :=
  match n, s with
  | S k, String c r => String c (take k r)
  | _, _ => EmptyString
  end.

Fixpoint drop (n : nat) (s : string) : string :=
  match n, s with
  | S k, String _ r => drop k r
  | _, _ => s
  end.

(** An index argument of [substring]: negative values count as 0, values
    past the end as the length. *)
Definition clamp_index (i : Z) (len : nat) : nat :=
  Z.to_nat (Z.min (Z.max i 0) (Z.of_nat len)).

(** [s.substring(start, end)]: both indices are clamped and swapped when
    [start > end]. *)
Definition substring (s : string) (start end_ : Z) : string :=
  let len := String.length s in
  let a := clamp_index start len in
  let b := clamp_index end_ len in
  take (Nat.max a b - Nat.min a b) (drop (Nat.min a b) s).

(** [s.replace(pat, by)] with a string pattern: the first occurrence only. *)
Fixpoint replace (s pat by_ : string) : string :=
  if String.prefix pat s then by_ +++ drop (String.length pat) s
  else match s with
       | EmptyString => EmptyString
       | String c rest => String c (replace rest pat by_)
       end.

(** [c.toUpperCase()] on the ASCII letters, which is what entity tags are
    made of. *)
Definition toUpperCase_ascii (c : ascii) : ascii :=
  let n := nat_of_ascii c in
  if (andb (Nat.leb 97 n) (Nat.leb n 122)) then ascii_of_nat (n - 32) else c.

(* ================================================================== *)
(** ** JavaScript values *)
(* ================================================================== *)

Inductive number : Type :=
| Int (z : Z)
| NaN.

#[local] Set Warnings "-register-all".

Inductive jsval : Type :=
| VUndef
| VNull
| VBool (b : bool)
| VNum (n : number)
| VStr (s : string)
| VArr (l : list jsval)
| VObj (fields : list (string * jsval)).

Definition Z_to_string (z : Z) : string := NilZero.string_of_int (Z.to_int z).

Definition number_to_string (n : number) : string :=
  match n with
  | Int z => Z_to_string z
  | NaN => "NaN"
  end.

(** [String(v)], also the conversion of template literals. *)
Fixpoint ToString (v : jsval) : string :=
  match v with
  | VUndef => "undefined"
  | VNull => "null"
  | VBool true => "true"
  | VBool false => "false"
  | VNum n => number_to_string n
  | VStr s => s
  | VArr l =>
      join ","
        (map (fun x => match x with
                       | VUndef | VNull => EmptyString
                       | _ => ToString x
                       end) l)
  | VObj _ => "[object Object]"
  end.

(** Truthiness, as used by [if], [!], [||] and [&&]. *)
Definition truthy (v : jsval) : bool :=
  match v with
  | VUndef | VNull => false
  | VBool b => b
  | VNum (Int z) => negb (z =? 0)
  | VNum NaN => false
  | VStr s => negb (is_empty s)
  | VArr _ | VObj _ => true
  end.

(** [a || b] and [a ?? b]. *)
Definition or_ (a b : jsval) : jsval := if truthy a then a else b.

Definition nullish (v : jsval) : bool :=
  match v with VUndef | VNull => true | _ => false end.

Definition coalesce (a b : jsval) : jsval := if nullish a then b else a.

(** Own properties of an object, in insertion order. *)
Fixpoint lookup (k : string) (fields : list (string * jsval)) : jsval :=
  match fields with
  | [] => VUndef
  | (k', v) :: rest => if String.eqb k k' then v else lookup k rest
  end.

Fixpoint has_key (k : string) (fields : list (string * jsval)) : bool :=
  match fields with
  | [] => false
  | (k', _) :: rest => if String.eqb k k' then true else has_key k rest
  end.

(** [o[k] = v]: an existing property keeps its place. *)
Fixpoint obj_set (k : string) (v : jsval) (fields : list (string * jsval))
  : list (string * jsval) :=
  match fields with
  | [] => [(k, v)]
  | (k', v') :: rest =>
      if String.eqb k k' then (k, v) :: rest else (k', v') :: obj_set k v rest
  end.

(** [{ ...a, ...b }]. *)
Definition spread (a b : list (string * jsval)) : list (string * jsval) :=
  fold_left (fun o kv => obj_set (fst kv) (snd kv) o) b a.

(** [v?.k]: [undefined] on [null] and [undefined], the property otherwise.
    Values that are not objects have none of the properties the code reads. *)
Definition opt (v : jsval) (k : string) : jsval :=
  match v with
  | VObj fields => lookup k fields
  | _ => VUndef
  end.

(** A string read out of a value, [undefined] read as absent. *)
Definition str_of (v : jsval) : option string :=
  match v with VStr s => Some s | _ => None end.

Definition int_of (v : jsval) : option Z :=
  match v with VNum (Int z) => Some z | _ => None end.

Definition of_opt_string (o : option string) : jsval :=
  match o with Some s => VStr s | None => VUndef end.

Definition of_opt_bool (o : option bool) : jsval :=
  match o with Some b => VBool b | None => VUndef end.

Definition of_opt_int (o : option Z) : jsval :=
  match o with Some z => VNum (Int z) | None => VUndef end.

(** [Number.parseInt(s, 10)]: leading white space, an optional sign, then
    the longest run of decimal digits; [NaN] when there is none. *)
Definition is_space (c : ascii) : bool :=
  let n := nat_of_ascii c in
  orb (andb (Nat.leb 9 n) (Nat.leb n 13)) (orb (Nat.eqb n 32) (Nat.eqb n 160)).

Definition digit_of (c : ascii) : option Z :=
  let n := nat_of_ascii c in
  if andb (Nat.leb 48 n) (Nat.leb n 57) then Some (Z.of_nat (n - 48)) else None.

Fixpoint skip_spaces (s : string) : string :=
  match s with
  | String c r => if is_space c then skip_spaces r else s
  | EmptyString => s
  end.

Fixpoint digits (acc : option Z) (s : string) : option Z :=
  match s with
  | String c r =>
      match digit_of c with
      | Some d => digits (Some (10 * match acc with Some a => a | None => 0 end + d)) r
      | None => acc
      end
  | EmptyString => acc
  end.

Definition parseInt10 (s : string) : number :=
  let signed :=
    match skip_spaces s with
    | String "-" r => (-1, r)
    | String "+" r => (1, r)
    | r => (1, r)
    end in
  match digits None (snd signed) with
  | Some n => Int (fst signed * n)
  | None => NaN
  end.

(* ================================================================== *)
(** ** utils/formatters.ts: [truncate] *)
(* ================================================================== *)

Definition truncate (str : string) (maxLength : Z) : string :=
  if Z.of_nat (String.length str) <=? maxLength then str
  else substring str 0 (maxLength - 3) +++ "...".

(* ================================================================== *)
(** ** utils/errors.ts: the error taxonomy *)
(* ================================================================== *)

(** The class of an error object, which [instanceof] inspects, with the
    fields the subclass adds. *)
Inductive ErrorClass : Type :=
| IsYouTubeApiError
| IsRateLimitError (retryAfterSeconds : number)
| IsAuthenticationError
| IsForbiddenError
| IsNotFoundError
| IsValidationError (details : list (string * list string))
| IsQuotaExceededError.

Record YouTubeApiError : Type := mkApiError {
  name : string;
  message : string;
  statusCode : option Z;
  code : string;
  retryable : bool;
  class : ErrorClass
}.

(** [new YouTubeApiError(message, statusCode?, code?, retryable = false)];
    [message] goes through [Error], which converts it to a string. *)
Definition new_YouTubeApiError (message : jsval) (statusCode : option Z)
  (code : option string) (retryable : option bool) : YouTubeApiError :=
  {| name := "YouTubeApiError";
     message := ToString message;
     statusCode := statusCode;
     code := match code with
             | Some c => if is_empty c then "YOUTUBE_ERROR" else c
             | None => "YOUTUBE_ERROR"
             end;
     retryable := match retryable with Some b => b | None => false end;
     class := IsYouTubeApiError |}.

(** A subclass constructor: [super(...)], then [this.name = ...] and the
    fields of its own. *)
Definition subclass (base : YouTubeApiError) (name' : string) (c : ErrorClass)
  : YouTubeApiError :=
  {| name := name';
     message := message base;
     statusCode := statusCode base;
     code := code base;
     retryable := retryable base;
     class := c |}.

Definition RateLimitError (message : string) (retryAfterSeconds : number)
  : YouTubeApiError :=
  subclass (new_YouTubeApiError (VStr message) (Some 429) (Some "RATE_LIMIT_EXCEEDED") (Some true))
    "RateLimitError" (IsRateLimitError retryAfterSeconds).

Definition AuthenticationError (message : string) : YouTubeApiError :=
  subclass (new_YouTubeApiError (VStr message) (Some 401) (Some "AUTHENTICATION_FAILED") (Some false))
    "AuthenticationError" IsAuthenticationError.

Definition ForbiddenError (message : string) : YouTubeApiError :=
  subclass (new_YouTubeApiError (VStr message) (Some 403) (Some "FORBIDDEN") (Some false))
    "ForbiddenError" IsForbiddenError.

Definition NotFoundError (entityType id : string) : YouTubeApiError :=
  subclass
    (new_YouTubeApiError (VStr (entityType +++ " with ID '" +++ id +++ "' not found"))
       (Some 404) (Some "NOT_FOUND") (Some false))
    "NotFoundError" IsNotFoundError.

Definition ValidationError (message : string) (details : list (string * list string))
  : YouTubeApiError :=
  subclass (new_YouTubeApiError (VStr message) (Some 400) (Some "VALIDATION_ERROR") (Some false))
    "ValidationError" (IsValidationError details).

Definition QuotaExceededError (message : string) : YouTubeApiError :=
  subclass (new_YouTubeApiError (VStr message) (Some 403) (Some "QUOTA_EXCEEDED") (Some false))
    "QuotaExceededError" IsQuotaExceededError.

(** What a [throw] can carry: an error of the taxonomy, another [Error]
    (the [TypeError] of a failed [fetch] or property read, the [SyntaxError]
    of [JSON.parse]), or any other value. *)
Inductive thrown : Type :=
| ThrownApi (e : YouTubeApiError)
| ThrownError (name message : string) (stack : option string)
| ThrownValue (v : jsval).

(** The result of running code that may throw. *)
Inductive outcome (A : Type) : Type :=
| Ok (a : A)
| Throw (e : thrown).

Arguments Ok {A} a.
Arguments Throw {A} e.

Definition TypeError (message : string) : thrown :=
  ThrownError "TypeError" message None.

(** [v.k]: reading a property of [null] or [undefined] throws. *)
Definition member (v : jsval) (k : string) : outcome jsval :=
  match v with
  | VUndef | VNull =>
      Throw (TypeError ("Cannot read properties of " +++ ToString v +++
                        " (reading '" +++ k +++ "')"))
  | _ => Ok (opt v k)
  end.

(** [formatErrorForLogging]: the details object, before serialization. *)
Definition details_to_value (details : list (string * list string)) : jsval :=
  VObj (map (fun kv => (fst kv, VArr (map VStr (snd kv)))) details).

Definition formatErrorForLogging (error : thrown) : list (string * jsval) :=
  match error with
  | ThrownApi e =>
      [ ("name", VStr (name e));
        ("message", VStr (message e));
        ("code", VStr (code e));
        ("statusCode", of_opt_int (statusCode e));
        ("retryable", VBool (retryable e)) ]
      ++ match class e with
         | IsRateLimitError secs => [("retryAfterSeconds", VNum secs)]
         | _ => []
         end
      ++ match class e with
         | IsValidationError details => [("details", details_to_value details)]
         | _ => []
         end
  | ThrownError name message stack =>
      [ ("name", VStr name);
        ("message", VStr message);
        ("stack", of_opt_string stack) ]
  | ThrownValue v => [ ("error", VStr (ToString v)) ]
  end%list.

(** [isRetryableError]. *)
Definition isRetryableError (error : thrown) : bool :=
  match error with
  | ThrownApi e => retryable e
  | ThrownError _ message _ =>
      includes message "network" || includes message "timeout"
      || includes message "ECONNRESET"
  | ThrownValue _ => false
  end.

(* ================================================================== *)
(** ** The platform: serialization and the network *)
(* ================================================================== *)

(** Built-ins of the runtime that the code calls and the repository does not
    define. [parse_json] gives the parsed value, or the message of the
    [SyntaxError] that [JSON.parse] and [response.json()] throw. *)
Class Platform : Type := {
  parse_json : string -> jsval + string;
  JSON_stringify : jsval -> string;
  JSON_stringify_pretty : jsval -> string;
  URLSearchParams_toString : list (string * string) -> string
}.

Definition JSON_parse `{Platform} (text : string) : outcome jsval :=
  match parse_json text with
  | inl v => Ok v
  | inr message => Throw (ThrownError "SyntaxError" message None)
  end.

Record Blob : Type := mkBlob {
  blob_content : string;
  blob_type : string
}.

Inductive Body : Type :=
| TextBody (text : string)
| FormData (parts : list (string * Blob)).

(** The arguments of one call of [fetch]. *)
Record HttpRequest : Type := mkRequest {
  req_url : string;
  req_method : option string;
  req_headers : list (string * jsval);
  req_body : option Body
}.

(** What the code reads of a [Response]. *)
Record HttpResponse : Type := mkResponse {
  status : Z;
  headers_get : string -> option string;
  text : string
}.

(** [response.ok]. *)
Definition ok (r : HttpResponse) : bool :=
  (200 <=? status r) && (status r <=? 299).

(** The network: the responses upstream is going to give, in order, and the
    requests sent so far. *)
Record Net : Type := mkNet {
  upstream : list HttpResponse;
  sent : list HttpRequest
}.

(** An [async] function: it may call [fetch] and it returns or throws. *)
Definition Async (A : Type) : Type := Net -> outcome A * Net.

Definition ret {A : Type} (a : A) : Async A := fun net => (Ok a, net).

Definition throw {A : Type} (e : thrown) : Async A := fun net => (Throw e, net).

Definition bind {A B : Type} (m : Async A) (k : A -> Async B) : Async B :=
  fun net =>
    match m net with
    | (Ok a, net') => k a net'
    | (Throw e, net') => (Throw e, net')
    end.

Definition lift {A : Type} (o : outcome A) : Async A := fun net => (o, net).

Notation "x <- m ;; k" := (bind m (fun x => k))
  (at level 61, m at next level, right associativity).

(** [await fetch(url, init)]: the request is sent; upstream answers with its
    next response, or the call fails as a network failure does. *)
Definition fetch (rq : HttpRequest) : Async HttpResponse :=
  fun net =>
    let log := (sent net ++ [rq])%list in
    match upstream net with
    | r :: rest => (Ok r, {| upstream := rest; sent := log |})
    | [] => (Throw (TypeError "fetch failed"), {| upstream := []; sent := log |})
    end.

(* ================================================================== *)
(** ** types/env.ts: tenant credentials *)
(* ================================================================== *)

Record TenantCredentials : Type := mkCredentials {
  accessToken : option string;
  apiKey : option string
}.

(** A credential field as a condition: [undefined] and the empty string are
    falsy. *)
Definition given (field : option string) : bool :=
  match field with
  | Some s => negb (is_empty s)
  | None => false
  end.

(** [headers.get(h) || undefined]. *)
Definition or_undefined (h : option string) : option string :=
  if given h then h else None.

(** [parseTenantCredentials], on the [get] of the request headers. *)
Definition parseTenantCredentials (get : string -> option string) : TenantCredentials :=
  {| accessToken := or_undefined (get "X-YouTube-Access-Token");
     apiKey := or_undefined (get "X-YouTube-API-Key") |}.

(** [validateCredentials] throws a plain [Error]. *)
Definition validateCredentials (credentials : TenantCredentials) : outcome unit :=
  if negb (given (accessToken credentials)) && negb (given (apiKey credentials))
  then Throw (ThrownError "Error"
                "Missing credentials. Provide either X-YouTube-Access-Token or X-YouTube-API-Key header."
                None)
  else Ok tt.

(* ================================================================== *)
(** ** client.ts: the request helper *)
(* ================================================================== *)

Definition API_BASE_URL : string := "https://www.googleapis.com/youtube/v3".

(** The [options] of [request]: the [RequestInit] fields the callers use and
    [params]. *)
Record RequestOptions : Type := mkOptions {
  method : option string;
  params : option (list (string * jsval));
  headers : option (list (string * jsval));
  body : option string
}.

Definition no_options : RequestOptions :=
  {| method := None; params := None; headers := None; body := None |}.

Definition getAuthParams (credentials : TenantCredentials)
  : outcome (list (string * jsval)) :=
  if given (accessToken credentials) then Ok []
  else if given (apiKey credentials)
       then Ok [("key", of_opt_string (apiKey credentials))]
       else Throw (ThrownApi (AuthenticationError
              "No credentials provided. Include X-YouTube-Access-Token or X-YouTube-API-Key header.")).

Definition getAuthHeaders (credentials : TenantCredentials) : list (string * jsval) :=
  let headers := [("Content-Type", VStr "application/json")] in
  if given (accessToken credentials)
  then obj_set "Authorization"
         (VStr ("Bearer " +++ ToString (of_opt_string (accessToken credentials))))
         headers
  else headers.

(** [Object.entries(allParams).filter(([, v]) => v !== undefined)
      .map(([k, v]) => [k, String(v)])]. *)
Definition filteredParams (allParams : list (string * jsval)) : list (string * string) :=
  map (fun kv => (fst kv, ToString (snd kv)))
    (filter (fun kv => match snd kv with VUndef => false | _ => true end) allParams).

Definition url_of `{Platform} (endpoint : string) (query : list (string * string)) : string :=
  let queryString := URLSearchParams_toString query in
  API_BASE_URL +++ endpoint +++
  (if is_empty queryString then EmptyString else "?" +++ queryString).

(** Sequencing of code that may throw, outside [async] functions. *)
Definition and_then {A B : Type} (o : outcome A) (k : A -> outcome B) : outcome B :=
  match o with
  | Ok a => k a
  | Throw e => Throw e
  end.

(** The message of the generic error: the [try] block around [JSON.parse]
    and [errorJson.error?.message || errorJson.message || message]; whatever
    it throws leaves the default in place. *)
Definition error_message `{Platform} (errorBody : string) (status : Z) : jsval :=
  let message := VStr ("API error: " +++ Z_to_string status) in
  match and_then (JSON_parse errorBody) (fun errorJson =>
        and_then (member errorJson "error") (fun error =>
        and_then (member errorJson "message") (fun message' =>
          Ok (or_ (or_ (opt error "message") message') message)))) with
  | Ok m => m
  | Throw _ => message
  end.

(** The part of [request] after [await fetch]: the mapping of the response. *)
Definition respond `{Platform} (response : HttpResponse) : outcome jsval :=
  if status response =? 429 then
    let retryAfter := headers_get response "Retry-After" in
    Throw (ThrownApi (RateLimitError "Rate limit exceeded"
      (if given retryAfter
       then parseInt10 (ToString (of_opt_string retryAfter))
       else Int 60)))
  else if status response =? 401 then
    Throw (ThrownApi (AuthenticationError
      "Authentication failed. Check your OAuth token or API key."))
  else if status response =? 403 then
    let errorBody := text response in
    if includes errorBody "quotaExceeded"
    then Throw (ThrownApi (QuotaExceededError "YouTube API quota exceeded."))
    else Throw (ThrownApi (ForbiddenError
           "Access forbidden. You may lack required permissions."))
  else if status response =? 404 then
    Throw (ThrownApi (NotFoundError "Resource" "unknown"))
  else if negb (ok response) then
    let errorBody := text response in
    Throw (ThrownApi (new_YouTubeApiError (error_message errorBody (status response))
                        (Some (status response)) None None))
  else if status response =? 204 then Ok VUndef
  else JSON_parse (text response).

Definition or_empty (o : option (list (string * jsval))) : list (string * jsval) :=
  match o with Some l => l | None => [] end.

(** The arguments [request] gives to [fetch]. *)
Definition request_sent `{Platform} (credentials : TenantCredentials)
  (authParams : list (string * jsval)) (endpoint : string) (options : RequestOptions)
  : HttpRequest :=
  let params := or_empty (params options) in
  let allParams := spread authParams params in
  let url := url_of endpoint (filteredParams allParams) in
  {| req_url := url;
     req_method := method options;
     req_headers := spread (getAuthHeaders credentials) (or_empty (headers options));
     req_body := option_map TextBody (body options) |}.

Definition request `{Platform} (credentials : TenantCredentials)
  (endpoint : string) (options : RequestOptions) : Async jsval :=
  authParams <- lift (getAuthParams credentials) ;;
  response <- fetch (request_sent credentials authParams endpoint options) ;;
  lift (respond response).

(* ================================================================== *)
(** ** client.ts: the response normalizer *)
(* ================================================================== *)

(** [YouTubeListResponse<T>], the fields the code reads. *)
Module ListResponse.

Record PageInfo : Type := mkPageInfo {
  totalResults : Z;
  resultsPerPage : Z
}.

Record t (T : Type) : Type := mk {
  nextPageToken : option string;
  prevPageToken : option string;
  pageInfo : option PageInfo;
  items : option (list T)
}.

Arguments mk {T} _ _ _ _.
Arguments nextPageToken {T} _.
Arguments prevPageToken {T} _.
Arguments pageInfo {T} _.
Arguments items {T} _.

End ListResponse.

(** [PaginatedResponse<T>]. *)
Record PaginatedResponse (T : Type) : Type := mkPaginated {
  items : list T;
  count : Z;
  totalResults : option Z;
  resultsPerPage : option Z;
  hasMore : bool;
  nextPageToken : option string;
  prevPageToken : option string
}.

Arguments mkPaginated {T} _ _ _ _ _ _ _.
Arguments items {T} _.
Arguments count {T} _.
Arguments totalResults {T} _.
Arguments resultsPerPage {T} _.
Arguments hasMore {T} _.
Arguments nextPageToken {T} _.
Arguments prevPageToken {T} _.

(** [n || 0] on an optional number. *)
Definition or_zero (n : option Z) : Z :=
  match n with
  | Some z => if z =? 0 then 0 else z
  | None => 0
  end.

Definition toPaginatedResponse {T : Type} (response : ListResponse.t T)
  : PaginatedResponse T :=
  {| items := match ListResponse.items response with Some l => l | None => [] end;
     count := or_zero (option_map (fun l => Z.of_nat (List.length l))
                         (ListResponse.items response));
     totalResults := option_map ListResponse.totalResults (ListResponse.pageInfo response);
     resultsPerPage := option_map ListResponse.resultsPerPage (ListResponse.pageInfo response);
     hasMore := given (ListResponse.nextPageToken response);
     nextPageToken := ListResponse.nextPageToken response;
     prevPageToken := ListResponse.prevPageToken response |}.

(** The parsed body at the type [YouTubeListResponse<T>], entities kept as
    JSON objects. *)
Definition as_list_response (v : jsval) : ListResponse.t jsval :=
  {| ListResponse.nextPageToken := str_of (opt v "nextPageToken");
     ListResponse.prevPageToken := str_of (opt v "prevPageToken");
     ListResponse.pageInfo :=
       match int_of (opt (opt v "pageInfo") "totalResults"),
             int_of (opt (opt v "pageInfo") "resultsPerPage") with
       | Some total, Some perPage =>
           Some {| ListResponse.totalResults := total;
                   ListResponse.resultsPerPage := perPage |}
       | _, _ => None
       end;
     ListResponse.items :=
       match opt v "items" with VArr l => Some l | _ => None end |}.

(** The first read of a property of the response: [request] returns
    [undefined] on 204, and reading [response.items] then throws. *)
Definition read_list (response : jsval) : outcome (ListResponse.t jsval) :=
  and_then (member response "items") (fun _ => Ok (as_list_response response)).

(* ================================================================== *)
(** ** client.ts: the operations *)
(* ================================================================== *)

Definition default {A : Type} (d : A) (o : option A) : A :=
  match o with Some a => a | None => d end.

Definition get_params (params : list (string * jsval)) : RequestOptions :=
  {| method := None; params := Some params; headers := None; body := None |}.

Definition put_json `{Platform} (params : list (string * jsval)) (body : jsval)
  : RequestOptions :=
  {| method := Some "PUT"; params := Some params; headers := None;
     body := Some (JSON_stringify body) |}.

(** [items[0]]. *)
Definition first (items : list jsval) : jsval :=
  match items with
  | x :: _ => x
  | [] => VUndef
  end.

Section Operations.

Context `{Platform}.
Variable credentials : TenantCredentials.

Definition listVideos (ids : list string) (parts : option (list string))
  : Async (PaginatedResponse jsval) :=
  let parts := default ["snippet"; "contentDetails"; "statistics"] parts in
  response <- request credentials "/videos"
                (get_params [("part", VStr (join "," parts));
                             ("id", VStr (join "," ids))]) ;;
  list <- lift (read_list response) ;;
  ret (toPaginatedResponse list).

Definition getVideo (videoId : string) (parts : option (list string)) : Async jsval :=
  let parts := default ["snippet"; "contentDetails"; "statistics"; "status"] parts in
  result <- listVideos [videoId] (Some parts) ;;
  if Nat.eqb (List.length (items result)) 0
  then throw (ThrownApi (NotFoundError "Video" videoId))
  else ret (first (items result)).

Definition listChannels (ids : list string) (parts : option (list string))
  : Async (PaginatedResponse jsval) :=
  let parts := default ["snippet"; "contentDetails"; "statistics"] parts in
  response <- request credentials "/channels"
                (get_params [("part", VStr (join "," parts));
                             ("id", VStr (join "," ids))]) ;;
  list <- lift (read_list response) ;;
  ret (toPaginatedResponse list).

Definition getChannel (channelId : string) (parts : option (list string)) : Async jsval :=
  let parts := default ["snippet"; "contentDetails"; "statistics"] parts in
  result <- listChannels [channelId] (Some parts) ;;
  if Nat.eqb (List.length (items result)) 0
  then throw (ThrownApi (NotFoundError "Channel" channelId))
  else ret (first (items result)).

(** [!response.items?.length]. *)
Definition no_items (response : ListResponse.t jsval) : bool :=
  match ListResponse.items response with
  | Some l => Nat.eqb (List.length l) 0
  | None => true
  end.

Definition getPlaylist (playlistId : string) (parts : option (list string)) : Async jsval :=
  let parts := default ["snippet"; "contentDetails"; "status"] parts in
  response <- request credentials "/playlists"
                (get_params [("part", VStr (join "," parts));
                             ("id", VStr playlistId)]) ;;
  response <- lift (read_list response) ;;
  if no_items response
  then throw (ThrownApi (NotFoundError "Playlist" playlistId))
  else ret (first (default [] (ListResponse.items response))).

Definition getCommentThread (commentThreadId : string) (parts : option (list string))
  : Async jsval :=
  let parts := default ["snippet"; "replies"] parts in
  response <- request credentials "/commentThreads"
                (get_params [("part", VStr (join "," parts));
                             ("id", VStr commentThreadId)]) ;;
  response <- lift (read_list response) ;;
  if no_items response
  then throw (ThrownApi (NotFoundError "CommentThread" commentThreadId))
  else ret (first (default [] (ListResponse.items response))).

End Operations.

(** ['private' | 'public' | 'unlisted']. *)
Inductive PrivacyStatus : Type := private | public | unlisted.

Definition privacy_string (p : PrivacyStatus) : string :=
  match p with
  | private => "private"
  | public => "public"
  | unlisted => "unlisted"
  end.

Definition of_opt_privacy (o : option PrivacyStatus) : jsval :=
  of_opt_string (option_map privacy_string o).

Definition of_opt_tags (o : option (list string)) : jsval :=
  match o with Some tags => VArr (map VStr tags) | None => VUndef end.

Module VideoUpdateInput.
Record t : Type := mk {
  title : option string;
  description : option string;
  tags : option (list string);
  categoryId : option string;
  privacyStatus : option PrivacyStatus;
  embeddable : option bool;
  publicStatsViewable : option bool;
  madeForKids : option bool;
  defaultLanguage : option string
}.
End VideoUpdateInput.

Module ChannelUpdateInput.
Record t : Type := mk {
  description : option string;
  keywords : option string;
  defaultLanguage : option string;
  country : option string;
  unsubscribedTrailer : option string
}.
End ChannelUpdateInput.

Module PlaylistUpdateInput.
Record t : Type := mk {
  title : option string;
  description : option string;
  privacyStatus : option PrivacyStatus;
  defaultLanguage : option string
}.
End PlaylistUpdateInput.

Module CaptionInsertInput.
Record t : Type := mk {
  language : string;
  name : string;
  isDraft : option bool;
  captionData : string
}.
End CaptionInsertInput.

Module CaptionUpdateInput.
Record t : Type := mk {
  isDraft : option bool;
  captionData : option string
}.
End CaptionUpdateInput.

Definition is_some {A : Type} (o : option A) : bool :=
  match o with Some _ => true | None => false end.

(** The body [updateVideo] builds from the fetched video. *)
Definition updateVideo_body (videoId : string) (updates : VideoUpdateInput.t)
  (current : jsval) : jsval :=
  let snippet := opt current "snippet" in
  let status := opt current "status" in
  let body :=
    [ ("id", VStr videoId);
      ("snippet", VObj
         [ ("title", coalesce (of_opt_string (VideoUpdateInput.title updates))
                       (opt snippet "title"));
           ("description", coalesce (of_opt_string (VideoUpdateInput.description updates))
                             (opt snippet "description"));
           ("tags", coalesce (of_opt_tags (VideoUpdateInput.tags updates))
                      (opt snippet "tags"));
           ("categoryId", coalesce (of_opt_string (VideoUpdateInput.categoryId updates))
                            (opt snippet "categoryId"));
           ("defaultLanguage",
             coalesce (of_opt_string (VideoUpdateInput.defaultLanguage updates))
               (opt snippet "defaultLanguage")) ]) ] in
  if truthy (of_opt_privacy (VideoUpdateInput.privacyStatus updates))
     || is_some (VideoUpdateInput.embeddable updates)
     || is_some (VideoUpdateInput.publicStatsViewable updates)
     || is_some (VideoUpdateInput.madeForKids updates)
  then
    VObj (obj_set "status" (VObj
      [ ("privacyStatus", coalesce (of_opt_privacy (VideoUpdateInput.privacyStatus updates))
                            (opt status "privacyStatus"));
        ("embeddable", coalesce (of_opt_bool (VideoUpdateInput.embeddable updates))
                         (opt status "embeddable"));
        ("publicStatsViewable",
          coalesce (of_opt_bool (VideoUpdateInput.publicStatsViewable updates))
            (opt status "publicStatsViewable"));
        ("madeForKids", coalesce (of_opt_bool (VideoUpdateInput.madeForKids updates))
                          (opt status "madeForKids")) ]) body)
  else VObj body.

Definition updateChannel_body (channelId : string) (updates : ChannelUpdateInput.t)
  : jsval :=
  VObj
    [ ("id", VStr channelId);
      ("brandingSettings", VObj
         [ ("channel", VObj
              [ ("description", of_opt_string (ChannelUpdateInput.description updates));
                ("keywords", of_opt_string (ChannelUpdateInput.keywords updates));
                ("defaultLanguage",
                  of_opt_string (ChannelUpdateInput.defaultLanguage updates));
                ("country", of_opt_string (ChannelUpdateInput.country updates));
                ("unsubscribedTrailer",
                  of_opt_string (ChannelUpdateInput.unsubscribedTrailer updates)) ]) ]) ].

Definition updatePlaylist_body (playlistId : string) (updates : PlaylistUpdateInput.t)
  (current : jsval) : jsval :=
  let snippet := opt current "snippet" in
  let status := opt current "status" in
  VObj
    [ ("id", VStr playlistId);
      ("snippet", VObj
         [ ("title", coalesce (of_opt_string (PlaylistUpdateInput.title updates))
                       (opt snippet "title"));
           ("description",
             coalesce (of_opt_string (PlaylistUpdateInput.description updates))
               (opt snippet "description"));
           ("defaultLanguage",
             coalesce (of_opt_string (PlaylistUpdateInput.defaultLanguage updates))
               (opt snippet "defaultLanguage")) ]);
      ("status", VObj
         [ ("privacyStatus",
             coalesce (of_opt_privacy (PlaylistUpdateInput.privacyStatus updates))
               (opt status "privacyStatus")) ]) ].

Definition UPLOAD_URL : string :=
  "https://www.googleapis.com/upload/youtube/v3/captions?uploadType=multipart&part=snippet".

Section Updates.

Context `{Platform}.
Variable credentials : TenantCredentials.

Definition updateVideo (videoId : string) (updates : VideoUpdateInput.t) : Async jsval :=
  current <- getVideo credentials videoId (Some ["snippet"; "status"]) ;;
  let body := updateVideo_body videoId updates current in
  request credentials "/videos" (put_json [("part", VStr "snippet,status")] body).

Definition updateChannel (channelId : string) (updates : ChannelUpdateInput.t)
  : Async jsval :=
  let body := updateChannel_body channelId updates in
  request credentials "/channels" (put_json [("part", VStr "brandingSettings")] body).

Definition updatePlaylist (playlistId : string) (updates : PlaylistUpdateInput.t)
  : Async jsval :=
  current <- getPlaylist credentials playlistId (Some ["snippet"; "status"]) ;;
  let body := updatePlaylist_body playlistId updates current in
  request credentials "/playlists" (put_json [("part", VStr "snippet,status")] body).

(** The [Authorization] header of the caption uploads:
    [`Bearer ${this.credentials.accessToken}`]. *)
Definition upload_headers : list (string * jsval) :=
  [("Authorization",
     VStr ("Bearer " +++ ToString (of_opt_string (accessToken credentials))))].

Definition insertCaption (videoId : string) (caption : CaptionInsertInput.t)
  : Async jsval :=
  let metadata :=
    VObj [("snippet", VObj
      [ ("videoId", VStr videoId);
        ("language", VStr (CaptionInsertInput.language caption));
        ("name", VStr (CaptionInsertInput.name caption));
        ("isDraft", coalesce (of_opt_bool (CaptionInsertInput.isDraft caption))
                      (VBool false)) ])] in
  let formData :=
    [ ("metadata", {| blob_content := JSON_stringify metadata;
                      blob_type := "application/json" |});
      ("media", {| blob_content := CaptionInsertInput.captionData caption;
                   blob_type := "text/plain" |}) ] in
  response <- fetch {| req_url := UPLOAD_URL;
                       req_method := Some "POST";
                       req_headers := upload_headers;
                       req_body := Some (FormData formData) |} ;;
  if negb (ok response) then
    let errorBody := text response in
    throw (ThrownApi (new_YouTubeApiError
             (VStr ("Failed to insert caption: " +++ errorBody))
             (Some (status response)) None None))
  else lift (JSON_parse (text response)).

Definition updateCaption (captionId : string) (updates : CaptionUpdateInput.t)
  : Async jsval :=
  let body := [("id", VStr captionId)] in
  let body :=
    match CaptionUpdateInput.isDraft updates with
    | Some isDraft => obj_set "snippet" (VObj [("isDraft", VBool isDraft)]) body
    | None => body
    end in
  if given (CaptionUpdateInput.captionData updates) then
    let formData :=
      [ ("metadata", {| blob_content := JSON_stringify (VObj body);
                        blob_type := "application/json" |});
        ("media", {| blob_content :=
                       ToString (of_opt_string (CaptionUpdateInput.captionData updates));
                     blob_type := "text/plain" |}) ] in
    response <- fetch {| req_url := UPLOAD_URL;
                         req_method := Some "PUT";
                         req_headers := upload_headers;
                         req_body := Some (FormData formData) |} ;;
    if negb (ok response) then
      let errorBody := text response in
      throw (ThrownApi (new_YouTubeApiError
               (VStr ("Failed to update caption: " +++ errorBody))
               (Some (status response)) None None))
    else lift (JSON_parse (text response))
  else
    request credentials "/captions" (put_json [("part", VStr "snippet")] (VObj body)).

End Updates.

(* ================================================================== *)
(** ** utils/formatters.ts *)
(* ================================================================== *)

Module ToolResponse.

Record item : Type := mkItem {
  type : string;
  text : string
}.

Record t : Type := mk {
  content : list item;
  isError : option bool
}.

End ToolResponse.

(** The [message] of [formatError]. *)
Definition formatError_message (error : thrown) : string :=
  match error with
  | ThrownApi e =>
      let message := "Error: " +++ message e in
      if retryable e then message +++ " (retryable)" else message
  | ThrownError _ message _ => "Error: " +++ message
  | ThrownValue v => "Error: " +++ ToString v
  end.

(** The object [formatError] serializes. *)
Definition formatError_payload (error : thrown) : jsval :=
  let errorInfo := formatErrorForLogging error in
  VObj [ ("error", VStr (formatError_message error));
         ("details", VObj errorInfo) ].

Definition formatError `{Platform} (error : thrown) : ToolResponse.t :=
  {| ToolResponse.content :=
       [ {| ToolResponse.type := "text";
            ToolResponse.text := JSON_stringify_pretty (formatError_payload error) |} ];
     ToolResponse.isError := Some true |}.

Definition newline : string := String (ascii_of_nat 10) EmptyString.

Definition capitalize (str : string) : string :=
  match str with
  | EmptyString => EmptyString
  | String c rest => String (toUpperCase_ascii c) rest
  end.

(** A table row: the template literal [`| ${a} | ${b} | ... |`]. *)
Definition row (cells : list string) : string :=
  "| " +++ join " | " cells +++ " |".

Definition dash : jsval := VStr "-".

Definition formatVideosTable (videos : list jsval) : string :=
  join newline
    ([ "| ID | Title | Channel | Views | Duration |"; "|---|---|---|---|---|" ]
     ++ map (fun video =>
          let title := truncate (ToString (or_ (opt (opt video "snippet") "title") dash)) 40 in
          let channel := or_ (opt (opt video "snippet") "channelTitle") dash in
          let views := or_ (opt (opt video "statistics") "viewCount") dash in
          let duration := or_ (opt (opt video "contentDetails") "duration") dash in
          row [ ToString (opt video "id"); title; ToString channel; ToString views;
                ToString duration ]) videos)%list.

Definition formatChannelsTable (channels : list jsval) : string :=
  join newline
    ([ "| ID | Title | Subscribers | Videos |"; "|---|---|---|---|" ]
     ++ map (fun channel =>
          let title := truncate (ToString (or_ (opt (opt channel "snippet") "title") dash)) 40 in
          let subs := or_ (opt (opt channel "statistics") "subscriberCount") dash in
          let videos := or_ (opt (opt channel "statistics") "videoCount") dash in
          row [ ToString (opt channel "id"); title; ToString subs; ToString videos ])
         channels)%list.

Definition formatPlaylistsTable (playlists : list jsval) : string :=
  join newline
    ([ "| ID | Title | Items | Privacy |"; "|---|---|---|---|" ]
     ++ map (fun playlist =>
          let title := truncate (ToString (or_ (opt (opt playlist "snippet") "title") dash)) 40 in
          let items := coalesce (opt (opt playlist "contentDetails") "itemCount") dash in
          let privacy := or_ (opt (opt playlist "status") "privacyStatus") dash in
          row [ ToString (opt playlist "id"); title; ToString items; ToString privacy ])
         playlists)%list.

Definition formatPlaylistItemsTable (items : list jsval) : string :=
  join newline
    ([ "| ID | Position | Video Title | Video ID |"; "|---|---|---|---|" ]
     ++ map (fun item =>
          let title := truncate (ToString (or_ (opt (opt item "snippet") "title") dash)) 40 in
          let position := coalesce (opt (opt item "snippet") "position") dash in
          let videoId :=
            or_ (or_ (opt (opt item "contentDetails") "videoId")
                     (opt (opt (opt item "snippet") "resourceId") "videoId")) dash in
          row [ ToString (opt item "id"); ToString position; title; ToString videoId ])
         items)%list.

Definition formatSearchResultsTable (results : list jsval) : string :=
  join newline
    ([ "| Type | ID | Title | Channel |"; "|---|---|---|---|" ]
     ++ map (fun result =>
          let type := replace (ToString (opt (opt result "id") "kind")) "youtube#" EmptyString in
          let id :=
            or_ (or_ (or_ (opt (opt result "id") "videoId") (opt (opt result "id") "channelId"))
                     (opt (opt result "id") "playlistId")) dash in
          let title := truncate (ToString (or_ (opt (opt result "snippet") "title") dash)) 40 in
          let channel := or_ (opt (opt result "snippet") "channelTitle") dash in
          row [ type; ToString id; title; ToString channel ]) results)%list.

Definition formatCommentsTable (comments : list jsval) : string :=
  join newline
    ([ "| ID | Author | Comment | Likes |"; "|---|---|---|---|" ]
     ++ map (fun comment =>
          let author := or_ (opt (opt comment "snippet") "authorDisplayName") dash in
          let text := truncate (ToString (or_ (opt (opt comment "snippet") "textDisplay") dash)) 50 in
          let likes := coalesce (opt (opt comment "snippet") "likeCount") dash in
          row [ ToString (opt comment "id"); ToString author; text; ToString likes ])
         comments)%list.

Definition formatCommentThreadsTable (threads : list jsval) : string :=
  join newline
    ([ "| ID | Author | Comment | Replies |"; "|---|---|---|---|" ]
     ++ map (fun thread =>
          let comment := opt (opt thread "snippet") "topLevelComment" in
          let author := or_ (opt (opt comment "snippet") "authorDisplayName") dash in
          let text := truncate (ToString (or_ (opt (opt comment "snippet") "textDisplay") dash)) 50 in
          let replies := coalesce (opt (opt thread "snippet") "totalReplyCount") dash in
          row [ ToString (opt thread "id"); ToString author; text; ToString replies ])
         threads)%list.

Definition formatSubscriptionsTable (subscriptions : list jsval) : string :=
  join newline
    ([ "| ID | Channel | New Items |"; "|---|---|---|" ]
     ++ map (fun sub =>
          let title := truncate (ToString (or_ (opt (opt sub "snippet") "title") dash)) 40 in
          let newItems := coalesce (opt (opt sub "contentDetails") "newItemCount") dash in
          row [ ToString (opt sub "id"); title; ToString newItems ]) subscriptions)%list.

(** [Object.keys(o)] of an object. *)
Definition Object_keys (o : jsval) : list string :=
  match o with
  | VObj fields => map fst fields
  | _ => []
  end.

Definition formatGenericTable (items : list jsval) : string :=
  if Nat.eqb (List.length items) 0 then "_No items_"
  else
    let keys := firstn 5 (Object_keys (first items)) in
    join newline
      ([ row keys; "|" +++ join "|" (map (fun _ => "---") keys) +++ "|" ]
       ++ map (fun record =>
            let values := map (fun k => ToString (coalesce (opt record k) dash)) keys in
            row values) items)%list.

(** The line of the counts. *)
Definition counts_line (data : PaginatedResponse jsval) : string :=
  match totalResults data with
  | Some total =>
      "**Total:** " +++ Z_to_string total +++ " | **Showing:** " +++
      Z_to_string (count data)
  | None => "**Showing:** " +++ Z_to_string (count data)
  end.

(** The lines [formatPaginatedAsMarkdown] pushes before it looks at the
    items: title, counts, continuation note. *)
Definition header_lines (data : PaginatedResponse jsval) (entityType : string)
  : list string :=
  ([ "## " +++ capitalize entityType; EmptyString ]
   ++ [ counts_line data ]
   ++ (if hasMore data && given (nextPageToken data)
       then [ "**More available:** Yes (nextPageToken: `" +++
              ToString (of_opt_string (nextPageToken data)) +++ "`)" ]
       else [])
   ++ [ EmptyString ])%list.

(** The [switch] on the entity type. *)
Definition table_for (entityType : string) (items : list jsval) : string :=
  if String.eqb entityType "videos" then formatVideosTable items
  else if String.eqb entityType "channels" then formatChannelsTable items
  else if String.eqb entityType "playlists" then formatPlaylistsTable items
  else if String.eqb entityType "playlistItems" then formatPlaylistItemsTable items
  else if String.eqb entityType "searchResults" then formatSearchResultsTable items
  else if String.eqb entityType "comments" then formatCommentsTable items
  else if String.eqb entityType "commentThreads" then formatCommentThreadsTable items
  else if String.eqb entityType "subscriptions" then formatSubscriptionsTable items
  else formatGenericTable items.

Definition formatPaginatedAsMarkdown (data : PaginatedResponse jsval)
  (entityType : string) : string :=
  let lines := header_lines data entityType in
  if Nat.eqb (List.length (items data)) 0
  then join newline (lines ++ [ "_No items found._" ])%list
  else join newline (lines ++ [ table_for entityType (items data) ])%list.

(* ================================================================== *)
(** ** The error taxonomy of the specification *)
(* ================================================================== *)

(** Section 4.6 of the specification: the status and the retryable flag of
    each kind of error; the generic kind carries the upstream status. *)
Definition taxonomy (kind : ErrorClass) (upstream_status : Z) : Z * bool :=
  match kind with
  | IsAuthenticationError => (401, false)
  | IsForbiddenError => (403, false)
  | IsQuotaExceededError => (403, false)
  | IsNotFoundError => (404, false)
  | IsRateLimitError _ => (429, true)
  | IsValidationError _ => (400, false)
  | IsYouTubeApiError => (upstream_status, false)
  end.

(* ================================================================== *)
(** ** A platform to run the model on *)
(* ================================================================== *)

Module Demo.

Definition quote : string := String (ascii_of_nat 34) EmptyString.

Definition quoted (s : string) : string := quote +++ s +++ quote.

(** [JSON.stringify] without escapes: [undefined] properties are left
    out. *)
Fixpoint stringify (v : jsval) : string :=
  match v with
  | VUndef | VNull => "null"
  | VBool true => "true"
  | VBool false => "false"
  | VNum (Int z) => Z_to_string z
  | VNum NaN => "null"
  | VStr s => quoted s
  | VArr l => "[" +++ join "," (map stringify l) +++ "]"
  | VObj fields =>
      "{" +++
      join ","
        ((fix props (fields : list (string * jsval)) : list string :=
            match fields with
            | [] => []
            | (_, VUndef) :: rest => props rest
            | (k, v) :: rest => (quoted k +++ ":" +++ stringify v) :: props rest
            end) fields)
      +++ "}"
  end.

(** A video and a playlist upstream could list, and the bodies it answers
    with. *)
Definition video : jsval :=
  VObj [ ("id", VStr "v1");
         ("snippet", VObj [ ("title", VStr "First upload");
                            ("description", VStr "Hello");
                            ("categoryId", VStr "22") ]);
         ("status", VObj [ ("privacyStatus", VStr "public");
                           ("embeddable", VBool true) ]) ].

Definition playlist : jsval :=
  VObj [ ("id", VStr "p1");
         ("snippet", VObj [ ("title", VStr "Favourites");
                            ("description", VStr "Best of") ]);
         ("status", VObj [ ("privacyStatus", VStr "private") ]) ].

Definition list_of (items : list jsval) : jsval :=
  VObj [ ("kind", VStr "youtube#listResponse");
         ("etag", VStr "e");
         ("nextPageToken", VStr "ABC");
         ("pageInfo", VObj [ ("totalResults", VNum (Int 120));
                             ("resultsPerPage", VNum (Int 25)) ]);
         ("items", VArr items) ].

Definition upstream_error : jsval :=
  VObj [ ("error", VObj [ ("code", VNum (Int 500));
                          ("message", VStr "Backend Error") ]) ].

Definition bodies : list jsval :=
  [ VObj []; list_of []; list_of [video]; list_of [playlist]; upstream_error ].

(** [JSON.parse] on the texts of [bodies]; anything else is refused. *)
Definition parse (text : string) : jsval + string :=
  match find (fun v => String.eqb (stringify v) text) bodies with
  | Some v => inl v
  | None => inr "Unexpected token"
  end.

Definition encode (query : list (string * string)) : string :=
  join "&" (map (fun kv => fst kv +++ "=" +++ snd kv) query).

Definition platform : Platform :=
  {| parse_json := parse;
     JSON_stringify := stringify;
     JSON_stringify_pretty := stringify;
     URLSearchParams_toString := encode |}.

Definition respond_with (code : Z) (body : string) : HttpResponse :=
  {| status := code; headers_get := fun _ => None; text := body |}.

Definition idle (responses : list HttpResponse) : Net :=
  {| upstream := responses; sent := [] |}.

Definition oauth : TenantCredentials :=
  {| accessToken := Some "ya29.token"; apiKey := None |}.

Definition key_only : TenantCredentials :=
  {| accessToken := None; apiKey := Some "AIza-key" |}.

Definition anonymous : TenantCredentials :=
  {| accessToken := None; apiKey := None |}.

(** Upstream lists [video] and accepts what comes next. *)
Definition lists_video : Net :=
  idle [ respond_with 200 (stringify (list_of [video])); respond_with 200 "{}" ].

Definition no_video_updates : VideoUpdateInput.t :=
  VideoUpdateInput.mk None None None None None None None None None.

Definition no_channel_updates : ChannelUpdateInput.t :=
  ChannelUpdateInput.mk None None None None None.

Definition retitle (title : string) : PlaylistUpdateInput.t :=
  PlaylistUpdateInput.mk (Some title) None None None.

Definition subtitles : CaptionInsertInput.t :=
  CaptionInsertInput.mk "en" "English" None "1\n00:00:00,000 --> 00:00:01,000\nHi".

Definition new_subtitles : CaptionUpdateInput.t :=
  CaptionUpdateInput.mk None (Some "1\n00:00:00,000 --> 00:00:01,000\nHello").

End Demo.

(* ================================================================== *)
(** ** Statements about the operations *)
(* ================================================================== *)

(** Upstream answers a request with a success that has a JSON body. *)
Definition answers_with `{Platform} (response : HttpResponse) (v : jsval) : Prop :=
  ok response = true /\ status response <> 204 /\
  parse_json (text response) = inl v /\ nullish v = false.

(** The not-found error of the taxonomy, field by field: kind, status 404,
    code, not retryable, and the message that names the entity and the id. *)
Definition not_found (entityType id : string) : YouTubeApiError :=
  {| name := "NotFoundError";
     message := entityType +++ " with ID '" +++ id +++ "' not found";
     statusCode := Some 404;
     code := "NOT_FOUND";
     retryable := false;
     class := IsNotFoundError |}.

(** What a get-by-id operation makes of the list upstream returned: the
    first item, or the not-found error that names the entity and the id. *)
Definition found_or_not_found (entityType id : string) (list : ListResponse.t jsval)
  (result : outcome jsval) : Prop :=
  match ListResponse.items list with
  | Some (x :: _) => result = Ok x
  | Some [] | None =>
      result = Throw (ThrownApi (not_found entityType id)) /\
      class (not_found entityType id) = IsNotFoundError /\
      statusCode (not_found entityType id) = Some 404 /\
      includes (message (not_found entityType id)) entityType = true /\
      includes (message (not_found entityType id)) id = true
  end.

(** A line that is a row of a markdown table. *)
Definition starts_row (line : string) : bool := String.prefix "| " line.

(** A markdown table: the row of the column titles, the separator row with
    one [---] per column, then one row per item, with the item's cells. *)
Definition is_table (columns : list string) (cells : jsval -> list string)
  (items : list jsval) (table : string) : Prop :=
  table
  = join newline
      (("| " +++ join " | " columns +++ " |")
       :: ("|" +++ join "|" (map (fun _ => "---") columns) +++ "|")
       :: map (fun item => "| " +++ join " | " (cells item) +++ " |") items).

(** The entity types that have a table layout of their own. *)
Definition entity_types : list string :=
  [ "videos"; "channels"; "playlists"; "playlistItems"; "searchResults"; "comments";
    "commentThreads"; "subscriptions" ].

(** The table of each entity type: its columns and, for each item, its
    cells. A text cell that is missing or empty shows ["-"] (a count shows
    ["-"] only when missing); titles are cut at 40 code units and comment
    texts at 50. Any other entity type gets the columns of the first item's
    first five keys. *)
Definition entity_table (entityType : string) (items : list jsval) (table : string)
  : Prop :=
  let text_of (v : jsval) := ToString (or_ v dash) in
  let count_of (v : jsval) := ToString (coalesce v dash) in
  let snippet (item : jsval) := opt (opt item "snippet") in
  (entityType = "videos" ->
   is_table [ "ID"; "Title"; "Channel"; "Views"; "Duration" ]
     (fun video =>
        [ ToString (opt video "id");
          truncate (text_of (snippet video "title")) 40;
          text_of (snippet video "channelTitle");
          text_of (opt (opt video "statistics") "viewCount");
          text_of (opt (opt video "contentDetails") "duration") ])
     items table) /\
  (entityType = "channels" ->
   is_table [ "ID"; "Title"; "Subscribers"; "Videos" ]
     (fun channel =>
        [ ToString (opt channel "id");
          truncate (text_of (snippet channel "title")) 40;
          text_of (opt (opt channel "statistics") "subscriberCount");
          text_of (opt (opt channel "statistics") "videoCount") ])
     items table) /\
  (entityType = "playlists" ->
   is_table [ "ID"; "Title"; "Items"; "Privacy" ]
     (fun playlist =>
        [ ToString (opt playlist "id");
          truncate (text_of (snippet playlist "title")) 40;
          count_of (opt (opt playlist "contentDetails") "itemCount");
          text_of (opt (opt playlist "status") "privacyStatus") ])
     items table) /\
  (entityType = "playlistItems" ->
   is_table [ "ID"; "Position"; "Video Title"; "Video ID" ]
     (fun item =>
        [ ToString (opt item "id");
          count_of (snippet item "position");
          truncate (text_of (snippet item "title")) 40;
          text_of (or_ (opt (opt item "contentDetails") "videoId")
                       (opt (snippet item "resourceId") "videoId")) ])
     items table) /\
  (entityType = "searchResults" ->
   is_table [ "Type"; "ID"; "Title"; "Channel" ]
     (fun result =>
        [ replace (ToString (opt (opt result "id") "kind")) "youtube#" EmptyString;
          text_of (or_ (or_ (opt (opt result "id") "videoId")
                            (opt (opt result "id") "channelId"))
                       (opt (opt result "id") "playlistId"));
          truncate (text_of (snippet result "title")) 40;
          text_of (snippet result "channelTitle") ])
     items table) /\
  (entityType = "comments" ->
   is_table [ "ID"; "Author"; "Comment"; "Likes" ]
     (fun comment =>
        [ ToString (opt comment "id");
          text_of (snippet comment "authorDisplayName");
          truncate (text_of (snippet comment "textDisplay")) 50;
          count_of (snippet comment "likeCount") ])
     items table) /\
  (entityType = "commentThreads" ->
   is_table [ "ID"; "Author"; "Comment"; "Replies" ]
     (fun thread =>
        [ ToString (opt thread "id");
          text_of (snippet (snippet thread "topLevelComment") "authorDisplayName");
          truncate (text_of (snippet (snippet thread "topLevelComment") "textDisplay")) 50;
          count_of (snippet thread "totalReplyCount") ])
     items table) /\
  (entityType = "subscriptions" ->
   is_table [ "ID"; "Channel"; "New Items" ]
     (fun sub =>
        [ ToString (opt sub "id");
          truncate (text_of (snippet sub "title")) 40;
          count_of (opt (opt sub "contentDetails") "newItemCount") ])
     items table) /\
  (~ In entityType entity_types ->
   forall item others, items = item :: others ->
     is_table (firstn 5 (Object_keys item))
       (fun record => map (fun k => count_of (opt record k)) (firstn 5 (Object_keys item)))
       items table).

(** The value an update sends for a field: the caller's when supplied, the
    current one otherwise. *)
Definition merged {A : Type} (to_value : A -> jsval) (supplied : option A)
  (current : jsval) : jsval :=
  match supplied with
  | Some a => to_value a
  | None => current
  end.

(** A request with a multipart body to the upload endpoint. *)
Definition is_upload (rq : HttpRequest) : Prop :=
  req_url rq = UPLOAD_URL /\
  exists metadata media, req_body rq = Some (FormData [("metadata", metadata); ("media", media)]).

(** The body of a video update against the video fetched before: every
    snippet field is merged; the status fields are merged when the caller
    supplies one of them, and the body has no status otherwise. *)
Definition video_fields_merged (updates : VideoUpdateInput.t) (current body : jsval)
  : Prop :=
  let sent_snippet := opt (opt body "snippet") in
  let sent_status := opt (opt body "status") in
  let snippet := opt (opt current "snippet") in
  let status := opt (opt current "status") in
  sent_snippet "title" = merged VStr (VideoUpdateInput.title updates) (snippet "title") /\
  sent_snippet "description"
  = merged VStr (VideoUpdateInput.description updates) (snippet "description") /\
  sent_snippet "tags"
  = merged (fun tags => VArr (map VStr tags)) (VideoUpdateInput.tags updates)
      (snippet "tags") /\
  sent_snippet "categoryId"
  = merged VStr (VideoUpdateInput.categoryId updates) (snippet "categoryId") /\
  sent_snippet "defaultLanguage"
  = merged VStr (VideoUpdateInput.defaultLanguage updates) (snippet "defaultLanguage") /\
  if is_some (VideoUpdateInput.privacyStatus updates)
     || is_some (VideoUpdateInput.embeddable updates)
     || is_some (VideoUpdateInput.publicStatsViewable updates)
     || is_some (VideoUpdateInput.madeForKids updates)
  then
    sent_status "privacyStatus"
    = merged (fun p => VStr (privacy_string p)) (VideoUpdateInput.privacyStatus updates)
        (status "privacyStatus") /\
    sent_status "embeddable"
    = merged VBool (VideoUpdateInput.embeddable updates) (status "embeddable") /\
    sent_status "publicStatsViewable"
    = merged VBool (VideoUpdateInput.publicStatsViewable updates)
        (status "publicStatsViewable") /\
    sent_status "madeForKids"
    = merged VBool (VideoUpdateInput.madeForKids updates) (status "madeForKids")
  else opt body "status" = VUndef.

(** The body of a playlist update against the playlist fetched before. *)
Definition playlist_fields_merged (updates : PlaylistUpdateInput.t)
  (current body : jsval) : Prop :=
  let sent_snippet := opt (opt body "snippet") in
  let snippet := opt (opt current "snippet") in
  sent_snippet "title" = merged VStr (PlaylistUpdateInput.title updates) (snippet "title") /\
  sent_snippet "description"
  = merged VStr (PlaylistUpdateInput.description updates) (snippet "description") /\
  sent_snippet "defaultLanguage"
  = merged VStr (PlaylistUpdateInput.defaultLanguage updates)
      (snippet "defaultLanguage") /\
  opt (opt body "status") "privacyStatus"
  = merged (fun p => VStr (privacy_string p)) (PlaylistUpdateInput.privacyStatus updates)
      (opt (opt current "status") "privacyStatus").

(* ================================================================== *)
(** ** types/env.ts: numeric settings *)
(* ================================================================== *)

(** [Env]: three variables, typed as strings but read defensively, and two
    optional bindings. *)
Module Env.

Record t : Type := mk {
  CHARACTER_LIMIT : jsval;
  DEFAULT_PAGE_SIZE : jsval;
  MAX_PAGE_SIZE : jsval;
  CACHE_KV : jsval;
  MCP_SESSIONS : jsval
}.

(** [keyof Env]. *)
Inductive key : Type :=
| character_limit
| default_page_size
| max_page_size
| cache_kv
| mcp_sessions.

(** [env[key]]. *)
Definition get (env : t) (k : key) : jsval :=
  match k with
  | character_limit => CHARACTER_LIMIT env
  | default_page_size => DEFAULT_PAGE_SIZE env
  | max_page_size => MAX_PAGE_SIZE env
  | cache_kv => CACHE_KV env
  | mcp_sessions => MCP_SESSIONS env
  end.

End Env.

Definition getEnvNumber (env : Env.t) (key : Env.key) (defaultValue : number) : number :=
  match Env.get env key with
  | VStr value =>
      let parsed := parseInt10 value in
      match parsed with
      | NaN => defaultValue
      | Int _ => parsed
      end
  | _ => defaultValue
  end.

Definition getCharacterLimit (env : Env.t) : number :=
  getEnvNumber env Env.character_limit (Int 50000).

Definition getDefaultPageSize (env : Env.t) : number :=
  getEnvNumber env Env.default_page_size (Int 25).

Definition getMaxPageSize (env : Env.t) : number :=
  getEnvNumber env Env.max_page_size (Int 50).

(* ================================================================== *)
(** ** client.ts: the remaining operations *)
(* ================================================================== *)

Module PaginationParams.
Record t : Type := mk {
  maxResults : option Z;
  pageToken : option string
}.
Definition none : t := mk None None.
End PaginationParams.

(** [params.maxResults || 25]. *)
Definition page_size (maxResults : option Z) : jsval :=
  VNum (Int (match maxResults with
             | Some n => if n =? 0 then 25 else n
             | None => 25
             end)).

Module CommentThreadListParams.
Record t : Type := mk {
  maxResults : option Z;
  pageToken : option string;
  videoId : option string;
  channelId : option string;
  allThreadsRelatedToChannelId : option string;
  order : option string;
  searchTerms : option string;
  moderationStatus : option string
}.
End CommentThreadListParams.

Module ActivityListParams.
Record t : Type := mk {
  maxResults : option Z;
  pageToken : option string;
  channelId : option string;
  mine : option bool;
  publishedAfter : option string;
  publishedBefore : option string;
  regionCode : option string
}.
End ActivityListParams.

Module SearchParams.
Record t : Type := mk {
  maxResults : option Z;
  pageToken : option string;
  q : option string;
  type : option string;
  channelId : option string;
  order : option string;
  publishedAfter : option string;
  publishedBefore : option string;
  regionCode : option string;
  relevanceLanguage : option string;
  safeSearch : option string;
  videoCategoryId : option string;
  videoDefinition : option string;
  videoDimension : option string;
  videoDuration : option string;
  videoEmbeddable : option string;
  videoLicense : option string;
  videoType : option string;
  eventType : option string;
  forMine : option bool;
  forContentOwner : option bool;
  location : option string;
  locationRadius : option string;
  topicId : option string
}.

(** [{ ...params, type }]. *)
Definition with_type (params : t) (type' : string) : t :=
  mk (maxResults params) (pageToken params) (q params) (Some type')
     (channelId params) (order params) (publishedAfter params)
     (publishedBefore params) (regionCode params) (relevanceLanguage params)
     (safeSearch params) (videoCategoryId params) (videoDefinition params)
     (videoDimension params) (videoDuration params) (videoEmbeddable params)
     (videoLicense params) (videoType params) (eventType params) (forMine params)
     (forContentOwner params) (location params) (locationRadius params)
     (topicId params).
End SearchParams.

Module ChannelSectionInput.
Record t : Type := mk {
  type : string;
  title : option string;
  position : option Z;
  playlistIds : option (list string);
  channelIds : option (list string)
}.
End ChannelSectionInput.

(** The [requestParams] of [listCommentThreads]: one filter at most. *)
Definition listCommentThreads_params (params : CommentThreadListParams.t)
  : list (string * jsval) :=
  let requestParams :=
    [ ("part", VStr "snippet,replies");
      ("maxResults", page_size (CommentThreadListParams.maxResults params));
      ("pageToken", of_opt_string (CommentThreadListParams.pageToken params));
      ("order", of_opt_string (CommentThreadListParams.order params));
      ("searchTerms", of_opt_string (CommentThreadListParams.searchTerms params));
      ("moderationStatus",
        of_opt_string (CommentThreadListParams.moderationStatus params)) ] in
  if given (CommentThreadListParams.videoId params) then
    obj_set "videoId" (of_opt_string (CommentThreadListParams.videoId params))
      requestParams
  else if given (CommentThreadListParams.channelId params) then
    obj_set "channelId" (of_opt_string (CommentThreadListParams.channelId params))
      requestParams
  else if given (CommentThreadListParams.allThreadsRelatedToChannelId params) then
    obj_set "allThreadsRelatedToChannelId"
      (of_opt_string (CommentThreadListParams.allThreadsRelatedToChannelId params))
      requestParams
  else requestParams.

(** The [requestParams] of [listActivities]. *)
Definition listActivities_params (params : ActivityListParams.t)
  : list (string * jsval) :=
  let requestParams :=
    [ ("part", VStr "snippet,contentDetails");
      ("maxResults", page_size (ActivityListParams.maxResults params));
      ("pageToken", of_opt_string (ActivityListParams.pageToken params));
      ("publishedAfter", of_opt_string (ActivityListParams.publishedAfter params));
      ("publishedBefore", of_opt_string (ActivityListParams.publishedBefore params));
      ("regionCode", of_opt_string (ActivityListParams.regionCode params)) ] in
  if truthy (of_opt_bool (ActivityListParams.mine params)) then
    obj_set "mine" (VBool true) requestParams
  else if given (ActivityListParams.channelId params) then
    obj_set "channelId" (of_opt_string (ActivityListParams.channelId params))
      requestParams
  else requestParams.

(** The [requestParams] of [search]. *)
Definition search_params (params : SearchParams.t) : list (string * jsval) :=
  [ ("part", VStr "snippet");
    ("q", of_opt_string (SearchParams.q params));
    ("type", of_opt_string (SearchParams.type params));
    ("channelId", of_opt_string (SearchParams.channelId params));
    ("order", of_opt_string (SearchParams.order params));
    ("maxResults", page_size (SearchParams.maxResults params));
    ("pageToken", of_opt_string (SearchParams.pageToken params));
    ("publishedAfter", of_opt_string (SearchParams.publishedAfter params));
    ("publishedBefore", of_opt_string (SearchParams.publishedBefore params));
    ("regionCode", of_opt_string (SearchParams.regionCode params));
    ("relevanceLanguage", of_opt_string (SearchParams.relevanceLanguage params));
    ("safeSearch", of_opt_string (SearchParams.safeSearch params));
    ("videoCategoryId", of_opt_string (SearchParams.videoCategoryId params));
    ("videoDefinition", of_opt_string (SearchParams.videoDefinition params));
    ("videoDimension", of_opt_string (SearchParams.videoDimension params));
    ("videoDuration", of_opt_string (SearchParams.videoDuration params));
    ("videoEmbeddable", of_opt_string (SearchParams.videoEmbeddable params));
    ("videoLicense", of_opt_string (SearchParams.videoLicense params));
    ("videoType", of_opt_string (SearchParams.videoType params));
    ("eventType", of_opt_string (SearchParams.eventType params));
    ("forMine", of_opt_bool (SearchParams.forMine params));
    ("forContentOwner", of_opt_bool (SearchParams.forContentOwner params));
    ("location", of_opt_string (SearchParams.location params));
    ("locationRadius", of_opt_string (SearchParams.locationRadius params));
    ("topicId", of_opt_string (SearchParams.topicId params)) ].

(** The body of [addVideoToPlaylist]: [position] is set when it is not
    [undefined]. *)
Definition addVideoToPlaylist_body (playlistId videoId : string) (position : option Z)
  : jsval :=
  let snippet :=
    [ ("playlistId", VStr playlistId);
      ("resourceId", VObj [ ("kind", VStr "youtube#video"); ("videoId", VStr videoId) ]) ] in
  VObj [ ("snippet",
          VObj (match position with
                | Some p => obj_set "position" (VNum (Int p)) snippet
                | None => snippet
                end)) ].

(** The body of [reportVideoAbuse]: the optional fields are set when
    truthy. *)
Definition reportVideoAbuse_body (videoId reasonId : string)
  (secondaryReasonId comments : option string) : jsval :=
  let body := [ ("videoId", VStr videoId); ("reasonId", VStr reasonId) ] in
  let body :=
    if given secondaryReasonId
    then obj_set "secondaryReasonId" (of_opt_string secondaryReasonId) body
    else body in
  let body :=
    if given comments then obj_set "comments" (of_opt_string comments) body else body in
  VObj body.

(** The body of [insertChannelSection] and, after an [id], of
    [updateChannelSection]. *)
Definition channelSection_body (id : option string) (input : ChannelSectionInput.t)
  : jsval :=
  let body :=
    (match id with Some sectionId => [ ("id", VStr sectionId) ] | None => [] end
     ++ [ ("snippet", VObj
            [ ("type", VStr (ChannelSectionInput.type input));
              ("title", of_opt_string (ChannelSectionInput.title input));
              ("position", of_opt_int (ChannelSectionInput.position input)) ]) ])%list in
  if is_some (ChannelSectionInput.playlistIds input)
     || is_some (ChannelSectionInput.channelIds input)
  then VObj (obj_set "contentDetails"
               (VObj [ ("playlists", of_opt_tags (ChannelSectionInput.playlistIds input));
                       ("channels", of_opt_tags (ChannelSectionInput.channelIds input)) ])
               body)
  else VObj body.

Definition send_json `{Platform} (method' : string) (params : list (string * jsval))
  (body : jsval) : RequestOptions :=
  {| method := Some method'; params := Some params; headers := None;
     body := Some (JSON_stringify body) |}.

(** [try { ... } catch (error) { ... }] around asynchronous code. *)
Definition try_catch {A : Type} (block : Async A) (handler : thrown -> Async A)
  : Async A :=
  fun net =>
    match block net with
    | (Ok a, net') => (Ok a, net')
    | (Throw error, net') => handler error net'
    end.

(** [error instanceof Error ? error.message : fallback]. *)
Definition message_or (error : thrown) (fallback : string) : string :=
  match error with
  | ThrownApi e => message e
  | ThrownError _ message _ => message
  | ThrownValue _ => fallback
  end.

Module ConnectionStatus.
Record t : Type := mk {
  connected : bool;
  message : string
}.
End ConnectionStatus.

Section MoreOperations.

Context `{Platform}.
Variable credentials : TenantCredentials.

Definition testConnection : Async ConnectionStatus.t :=
  try_catch
    (if given (accessToken credentials) then
       _ <- request credentials "/channels"
              (get_params [ ("part", VStr "id"); ("mine", VBool true) ]) ;;
       ret {| ConnectionStatus.connected := true;
              ConnectionStatus.message :=
                "Successfully connected to YouTube API (OAuth)" |}
     else
       _ <- request credentials "/videoCategories"
              (get_params [ ("part", VStr "snippet"); ("regionCode", VStr "US") ]) ;;
       ret {| ConnectionStatus.connected := true;
              ConnectionStatus.message :=
                "Successfully connected to YouTube API (API Key)" |})
    (fun error =>
       ret {| ConnectionStatus.connected := false;
              ConnectionStatus.message := message_or error "Connection failed" |}).

Definition getMyChannel (parts : option (list string)) : Async jsval :=
  let parts := default ["snippet"; "contentDetails"; "statistics"] parts in
  response <- request credentials "/channels"
                (get_params [ ("part", VStr (join "," parts)); ("mine", VBool true) ]) ;;
  response <- lift (read_list response) ;;
  if no_items response
  then throw (ThrownApi (NotFoundError "Channel" "mine"))
  else ret (first (default [] (ListResponse.items response))).

Definition listChannelsByUsername (username : string) (parts : option (list string))
  : Async (PaginatedResponse jsval) :=
  let parts := default ["snippet"; "contentDetails"; "statistics"] parts in
  response <- request credentials "/channels"
                (get_params [ ("part", VStr (join "," parts));
                              ("forUsername", VStr username) ]) ;;
  list <- lift (read_list response) ;;
  ret (toPaginatedResponse list).

Definition deleteVideo (videoId : string) : Async unit :=
  _ <- request credentials "/videos"
         {| method := Some "DELETE"; params := Some [ ("id", VStr videoId) ];
            headers := None; body := None |} ;;
  ret tt.

Definition getVideoRating (videoIds : list string) : Async (list jsval) :=
  response <- request credentials "/videos/getRating"
                (get_params [ ("id", VStr (join "," videoIds)) ]) ;;
  response <- lift (read_list response) ;;
  ret (default [] (ListResponse.items response)).

Definition reportVideoAbuse (videoId reasonId : string)
  (secondaryReasonId comments : option string) : Async unit :=
  let body := reportVideoAbuse_body videoId reasonId secondaryReasonId comments in
  _ <- request credentials "/videos/reportAbuse"
         {| method := Some "POST"; params := None; headers := None;
            body := Some (JSON_stringify body) |} ;;
  ret tt.

Definition addVideoToPlaylist (playlistId videoId : string) (position : option Z)
  : Async jsval :=
  let body := addVideoToPlaylist_body playlistId videoId position in
  request credentials "/playlistItems"
    (send_json "POST" [ ("part", VStr "snippet") ] body).

Definition listCommentThreads (params : CommentThreadListParams.t)
  : Async (PaginatedResponse jsval) :=
  let requestParams := listCommentThreads_params params in
  response <- request credentials "/commentThreads" (get_params requestParams) ;;
  list <- lift (read_list response) ;;
  ret (toPaginatedResponse list).

Definition listMySubscriptions (params : option PaginationParams.t)
  (parts : option (list string)) : Async (PaginatedResponse jsval) :=
  let params := default PaginationParams.none params in
  let parts := default ["snippet"; "contentDetails"] parts in
  response <- request credentials "/subscriptions"
                (get_params [ ("part", VStr (join "," parts));
                              ("mine", VBool true);
                              ("maxResults", page_size (PaginationParams.maxResults params));
                              ("pageToken", of_opt_string (PaginationParams.pageToken params)) ]) ;;
  list <- lift (read_list response) ;;
  ret (toPaginatedResponse list).

Definition listChannelSubscribers (channelId : string)
  (params : option PaginationParams.t) (parts : option (list string))
  : Async (PaginatedResponse jsval) :=
  let params := default PaginationParams.none params in
  let parts := default ["snippet"; "subscriberSnippet"] parts in
  response <- request credentials "/subscriptions"
                (get_params [ ("part", VStr (join "," parts));
                              ("mySubscribers", VBool true);
                              ("maxResults", page_size (PaginationParams.maxResults params));
                              ("pageToken", of_opt_string (PaginationParams.pageToken params)) ]) ;;
  list <- lift (read_list response) ;;
  ret (toPaginatedResponse list).

Definition listCaptions (videoId : string) (parts : option (list string))
  : Async (list jsval) :=
  let parts := default ["snippet"] parts in
  response <- request credentials "/captions"
                (get_params [ ("part", VStr (join "," parts)); ("videoId", VStr videoId) ]) ;;
  response <- lift (read_list response) ;;
  ret (default [] (ListResponse.items response)).

(** The object [downloadCaption] gives to [URLSearchParams]. *)
Definition downloadCaption_params (format language : option string)
  : list (string * jsval) :=
  let params := [] in
  let params :=
    if given format then obj_set "tfmt" (of_opt_string format) params else params in
  if given language then obj_set "tlang" (of_opt_string language) params else params.

Definition downloadCaption_sent (captionId : string) (format language : option string)
  : HttpRequest :=
  {| req_url := API_BASE_URL +++ "/captions/" +++ captionId +++ "?" +++
                URLSearchParams_toString
                  (filteredParams (downloadCaption_params format language));
     req_method := None;
     req_headers := getAuthHeaders credentials;
     req_body := None |}.

Definition downloadCaption (captionId : string) (format language : option string)
  : Async string :=
  response <- fetch (downloadCaption_sent captionId format language) ;;
  if negb (ok response) then
    throw (ThrownApi (new_YouTubeApiError
             (VStr ("Failed to download caption: " +++ Z_to_string (status response)))
             (Some (status response)) None None))
  else ret (text response).

Definition listActivities (params : ActivityListParams.t)
  : Async (PaginatedResponse jsval) :=
  let requestParams := listActivities_params params in
  response <- request credentials "/activities" (get_params requestParams) ;;
  list <- lift (read_list response) ;;
  ret (toPaginatedResponse list).

Definition insertChannelSection (input : ChannelSectionInput.t) : Async jsval :=
  let body := channelSection_body None input in
  request credentials "/channelSections"
    (send_json "POST" [ ("part", VStr "snippet,contentDetails") ] body).

Definition updateChannelSection (sectionId : string) (input : ChannelSectionInput.t)
  : Async jsval :=
  let body := channelSection_body (Some sectionId) input in
  request credentials "/channelSections"
    (send_json "PUT" [ ("part", VStr "snippet,contentDetails") ] body).

Definition search (params : SearchParams.t) : Async (PaginatedResponse jsval) :=
  let requestParams := search_params params in
  response <- request credentials "/search" (get_params requestParams) ;;
  list <- lift (read_list response) ;;
  ret (toPaginatedResponse list).

Definition searchVideos (params : SearchParams.t) : Async (PaginatedResponse jsval) :=
  search (SearchParams.with_type params "video").

End MoreOperations.

(* ================================================================== *)
(** ** utils/formatters.ts: the remaining renderers *)
(* ================================================================== *)

(** ['json' | 'markdown']. *)
Inductive ResponseFormat : Type := json | markdown.

Definition is_upper (c : ascii) : bool :=
  let n := nat_of_ascii c in andb (Nat.leb 65 n) (Nat.leb n 90).

(** [s.replace(/([A-Z])/g, ' $1')]. *)
Fixpoint space_capitals (s : string) : string :=
  match s with
  | EmptyString => EmptyString
  | String c rest =>
      if is_upper c then String " " (String c (space_capitals rest))
      else String c (space_capitals rest)
  end.

(** [s.replace(/^./, (str) => str.toUpperCase())]: the dot does not match a
    line terminator. *)
Definition upper_first (s : string) : string :=
  match s with
  | EmptyString => EmptyString
  | String c rest =>
      if orb (Nat.eqb (nat_of_ascii c) 10) (Nat.eqb (nat_of_ascii c) 13) then s
      else String (toUpperCase_ascii c) rest
  end.

Fixpoint trim_end (s : string) : string :=
  match s with
  | EmptyString => EmptyString
  | String c rest =>
      match trim_end rest with
      | EmptyString => if is_space c then EmptyString else String c EmptyString
      | kept => String c kept
      end
  end.

(** [s.trim()]. *)
Definition trim (s : string) : string := trim_end (skip_spaces s).

Definition formatKey (key : string) : string :=
  trim (upper_first (space_capitals key)).

(** [s.replace(/s$/, '')]. *)
Fixpoint strip_final_s (s : string) : string :=
  match s with
  | EmptyString => EmptyString
  | String c rest =>
      match rest with
      | EmptyString => if Ascii.eqb c "s" then EmptyString else s
      | String _ _ => String c (strip_final_s rest)
      end
  end.

(** The lines [formatObjectAsMarkdown] pushes for one entry. *)
Definition entry_lines `{Platform} (entry : string * jsval) : list string :=
  let (key, value) := entry in
  match value with
  | VUndef | VNull => []
  | VArr _ | VObj _ =>
      [ "**" +++ formatKey key +++ ":**";
        "```json";
        JSON_stringify_pretty value;
        "```" ]
  | _ => [ "**" +++ formatKey key +++ ":** " +++ ToString value ]
  end.

Definition formatObjectAsMarkdown `{Platform} (data : list (string * jsval))
  (entityType : string) : string :=
  join newline
    ([ "## " +++ capitalize (strip_final_s entityType); EmptyString ]
     ++ flat_map entry_lines data)%list.

Definition formatArrayAsMarkdown (data : list jsval) (entityType : string) : string :=
  formatGenericTable data.

Definition isPaginatedResponse (data : jsval) : bool :=
  match data with
  | VObj fields =>
      has_key "items" fields
      && match lookup "items" fields with VArr _ => true | _ => false end
  | _ => false
  end.

(** A [PaginatedResponse] as the object it is. *)
Definition paginated_value (page : PaginatedResponse jsval) : jsval :=
  VObj [ ("items", VArr (items page));
         ("count", VNum (Int (count page)));
         ("totalResults", of_opt_int (totalResults page));
         ("resultsPerPage", of_opt_int (resultsPerPage page));
         ("hasMore", VBool (hasMore page));
         ("nextPageToken", of_opt_string (nextPageToken page));
         ("prevPageToken", of_opt_string (prevPageToken page)) ].

(** An object that passed [isPaginatedResponse], at the type
    [PaginatedResponse<unknown>]. *)
Definition as_paginated (data : jsval) : PaginatedResponse jsval :=
  {| items := match opt data "items" with VArr l => l | _ => [] end;
     count := default 0 (int_of (opt data "count"));
     totalResults := int_of (opt data "totalResults");
     resultsPerPage := int_of (opt data "resultsPerPage");
     hasMore := match opt data "hasMore" with VBool b => b | _ => false end;
     nextPageToken := str_of (opt data "nextPageToken");
     prevPageToken := str_of (opt data "prevPageToken") |}.

Definition formatAsMarkdown `{Platform} (data : jsval) (entityType : string) : string :=
  if isPaginatedResponse data
  then formatPaginatedAsMarkdown (as_paginated data) entityType
  else match data with
       | VArr l => formatArrayAsMarkdown l entityType
       | VObj fields => formatObjectAsMarkdown fields entityType
       | _ => ToString data
       end.

Definition text_response (text : string) (isError : option bool) : ToolResponse.t :=
  {| ToolResponse.content :=
       [ {| ToolResponse.type := "text"; ToolResponse.text := text |} ];
     ToolResponse.isError := isError |}.

Definition formatResponse `{Platform} (data : jsval) (format : ResponseFormat)
  (entityType : string) : ToolResponse.t :=
  match format with
  | markdown => text_response (formatAsMarkdown data entityType) None
  | json => text_response (JSON_stringify_pretty data) None
  end.

(* ================================================================== *)
(** ** tools/channels.ts: two tool handlers *)
(* ================================================================== *)

Section Tools.

Context `{Platform}.
Variable credentials : TenantCredentials.

(** The handler of [youtube_get_channel]. *)
Definition youtube_get_channel (channelId : string) (parts : list string)
  (format : ResponseFormat) : Async ToolResponse.t :=
  try_catch
    (channel <- getChannel credentials channelId (Some parts) ;;
     ret (formatResponse channel format "channel"))
    (fun error => ret (formatError error)).

(** The handler of [youtube_list_channels]. *)
Definition youtube_list_channels (channelIds : list string) (parts : list string)
  (format : ResponseFormat) : Async ToolResponse.t :=
  try_catch
    (result <- listChannels credentials channelIds (Some parts) ;;
     ret (formatResponse (paginated_value result) format "channels"))
    (fun error => ret (formatError error)).

(** The handler of [youtube_get_channel_by_username]. *)
Definition youtube_get_channel_by_username (username : string) (parts : list string)
  (format : ResponseFormat) : Async ToolResponse.t :=
  try_catch
    (result <- listChannelsByUsername credentials username (Some parts) ;;
     if Nat.eqb (List.length (items result)) 0
     then ret (text_response
                 (JSON_stringify_pretty
                    (VObj [ ("error",
                             VStr ("Channel not found for username: " +++ username)) ]))
                 (Some true))
     else ret (formatResponse (first (items result)) format "channel"))
    (fun error => ret (formatError error)).

End Tools.

(* ================================================================== *)
(** ** Statements about queries *)
(* ================================================================== *)

(** The filters of a comment-thread listing and of an activity listing. *)
Definition thread_filters : list string :=
  [ "videoId"; "channelId"; "allThreadsRelatedToChannelId" ].

Definition activity_filters : list string := [ "mine"; "channelId" ].

(** A query entry under one of the keys. *)
Definition mentions (keys : list string) (entry : string * string) : bool :=
  existsb (String.eqb (fst entry)) keys.

(** The first field that is given, as the one query entry it makes. *)
Fixpoint first_given (fields : list (string * option string)) : list (string * string) :=
  match fields with
  | [] => []
  | (k, v) :: rest =>
      if given v then [ (k, ToString (of_opt_string v)) ] else first_given rest
  end.

(** A record without the properties outside [keys]. *)
Definition restrict (keys : list string) (record : jsval) : jsval :=
  match record with
  | VObj fields =>
      VObj (filter (fun entry => existsb (String.eqb (fst entry)) keys) fields)
  | _ => record
  end.

(** A result that is a thrown [TypeError]. *)
Definition throws_TypeError {A : Type} (result : outcome A) : Prop :=
  exists message, result = Throw (ThrownError "TypeError" message None).

(* ================================================================== *)
(** * Properties *)
(* ================================================================== *)

(** ** Strings *)

Lemma length_take (n : nat) (s : string) :
  (n <= String.length s)%nat -> String.length (take n s) = n.
Proof.
  revert s; induction n as [|n IH]; intros [|c s] Hle; simpl in *; try lia.
  rewrite IH; lia.
Qed.

Lemma take_drop (n : nat) (s : string) : take n s +++ drop n s = s.
Proof.
  revert s; induction n as [|n IH]; intros [|c s]; simpl; try reflexivity.
  now rewrite IH.
Qed.

Lemma length_append (a b : string) :
  String.length (a +++ b) = (String.length a + String.length b)%nat.
Proof.
  induction a as [|c a IH]; simpl; [reflexivity | now rewrite IH].
Qed.

Lemma substring_from_start (s : string) (n : Z) :
  0 <= n <= Z.of_nat (String.length s) ->
  substring s 0 n = take (Z.to_nat n) s.
Proof.
  intros Hn. unfold substring, clamp_index.
  replace (Z.min (Z.max 0 0) (Z.of_nat (String.length s))) with 0 by lia.
  replace (Z.min (Z.max n 0) (Z.of_nat (String.length s))) with n by lia.
  change (Z.to_nat 0) with 0%nat.
  rewrite Nat.max_0_l, Nat.min_0_l, Nat.sub_0_r.
  destruct s; reflexivity.
Qed.

Lemma prefix_append (n t : string) : String.prefix n (n +++ t) = true.
Proof.
  induction n as [|c n IH]; simpl.
  - destruct t; reflexivity.
  - destruct (ascii_dec c c); [exact IH | congruence].
Qed.

Lemma includes_unfold (hay needle : string) :
  includes hay needle
  = if String.prefix needle hay then true
    else match hay with
         | EmptyString => false
         | String _ rest => includes rest needle
         end.
Proof. destruct hay; reflexivity. Qed.

Lemma includes_prefix (n t : string) : includes (n +++ t) n = true.
Proof. now rewrite includes_unfold, prefix_append. Qed.

Lemma includes_append_r (p s n : string) :
  includes s n = true -> includes (p +++ s) n = true.
Proof.
  intros Hs. induction p as [|c p IH]; [exact Hs|].
  rewrite includes_unfold. change (String c p +++ s) with (String c (p +++ s)).
  destruct (String.prefix n (String c (p +++ s))); [reflexivity | exact IH].
Qed.

Lemma includes_infix (p n t : string) : includes (p +++ n +++ t) n = true.
Proof. apply includes_append_r, includes_prefix. Qed.

Lemma append_empty_r (s : string) : s +++ EmptyString = s.
Proof. induction s as [|c s IH]; simpl; [reflexivity | now rewrite IH]. Qed.

Lemma includes_self (s : string) : includes s s = true.
Proof. rewrite <- (append_empty_r s) at 1. apply includes_prefix. Qed.

Lemma prefix_append_l (n s t : string) :
  String.prefix n s = true -> String.prefix n (s +++ t) = true.
Proof.
  revert s; induction n as [|c n IH]; intros [|d s] Hp; simpl in *;
    try discriminate; try (now destruct t).
  destruct (ascii_dec c d); [now apply IH | discriminate].
Qed.

Lemma includes_append_l (s t n : string) :
  includes s n = true -> includes (s +++ t) n = true.
Proof.
  induction s as [|c s IH]; intros Hs.
  - rewrite includes_unfold in Hs.
    destruct (String.prefix n EmptyString) eqn:Hp; [|discriminate].
    rewrite includes_unfold, (prefix_append_l _ _ _ Hp). reflexivity.
  - rewrite includes_unfold in Hs. rewrite includes_unfold.
    destruct (String.prefix n (String c s)) eqn:Hp.
    + now rewrite (prefix_append_l _ _ _ Hp).
    + change (String c s +++ t) with (String c (s +++ t)).
      destruct (String.prefix n (String c (s +++ t))); [reflexivity | now apply IH].
Qed.

Lemma includes_join (sep : string) (lines : list string) (line needle : string) :
  In line lines -> includes line needle = true ->
  includes (join sep lines) needle = true.
Proof.
  intros Hin Hline. unfold join.
  induction lines as [|x [|y rest] IH]; simpl in *.
  - contradiction.
  - destruct Hin as [->|[]]. exact Hline.
  - destruct Hin as [->|Hin].
    + now apply includes_append_l.
    + apply includes_append_r, includes_append_r, IH, Hin.
Qed.

(** ** C9: table-cell truncation *)

(** C9. A string longer than the maximum cell length is cut to its first
    [maxLength - 3] code units and suffixed with ["..."], so that the result
    is exactly [maxLength] long; a string that is not longer is returned
    unchanged. Every call site configures 40 or 50; the property needs
    [3 <= maxLength], room for the ellipsis. *)
Theorem truncate_fits_budget (str : string) (maxLength : Z) :
  3 <= maxLength ->
  (Z.of_nat (String.length str) <= maxLength -> truncate str maxLength = str) /\
  (maxLength < Z.of_nat (String.length str) ->
   truncate str maxLength = take (Z.to_nat (maxLength - 3)) str +++ "..." /\
   str = take (Z.to_nat (maxLength - 3)) str +++ drop (Z.to_nat (maxLength - 3)) str /\
   Z.of_nat (String.length (truncate str maxLength)) = maxLength).
Proof.
  intros Hmax. unfold truncate. split; intros Hlen.
  - apply Z.leb_le in Hlen. now rewrite Hlen.
  - assert (Hgt : (Z.of_nat (String.length str) <=? maxLength) = false)
      by (apply Z.leb_gt; lia).
    rewrite Hgt, substring_from_start by lia.
    repeat split.
    + symmetry; apply take_drop.
    + rewrite length_append, length_take by lia. simpl. lia.
Qed.

Lemma truncate_fits_budget_witness :
  truncate "A very long video title that does not fit the cell" 40
  = "A very long video title that does not..." /\
  Z.of_nat (String.length
    (truncate "A very long video title that does not fit the cell" 40)) = 40.
Proof.
  destruct (truncate_fits_budget
              "A very long video title that does not fit the cell" 40) as [_ Hcut].
  - lia.
  - destruct Hcut as (Heq & _ & Hlen); [simpl; lia|].
    split; [exact Heq | exact Hlen].
Defined.

(** ** C4, C5: the response normalizer *)

(** C4. [hasMore] is true exactly when the upstream envelope carries a
    continuation token, that is a non-empty [nextPageToken] (the code tests
    the token's truthiness, under which the empty string is no token); the
    token is always handed on unchanged, in particular when [hasMore] is
    true. *)
Theorem hasMore_iff_token {T : Type} (response : ListResponse.t T) :
  (hasMore (toPaginatedResponse response) = true <->
   exists token, ListResponse.nextPageToken response = Some token /\
                 token <> EmptyString) /\
  nextPageToken (toPaginatedResponse response) = ListResponse.nextPageToken response.
Proof.
  split; [|reflexivity].
  unfold toPaginatedResponse; simpl. unfold given.
  destruct (ListResponse.nextPageToken response) as [[|c s]|]; simpl; split;
    try discriminate; try reflexivity.
  - intros (token & Heq & Hne). inversion Heq; subst. now elim Hne.
  - intros _. exists (String c s). split; [reflexivity | discriminate].
  - now intros (token & Heq & _).
Qed.

(** C5. [count] is the length of the returned [items], and an absent
    upstream [items] becomes the empty sequence with [count] 0. *)
Theorem count_is_length {T : Type} (response : ListResponse.t T)
  (next prev : option string) (page : option ListResponse.PageInfo) :
  count (toPaginatedResponse response)
  = Z.of_nat (List.length (items (toPaginatedResponse response))) /\
  items (toPaginatedResponse (ListResponse.mk (T := T) next prev page None)) = [] /\
  count (toPaginatedResponse (ListResponse.mk (T := T) next prev page None)) = 0.
Proof.
  split; [|split; reflexivity].
  unfold toPaginatedResponse; simpl.
  destruct (ListResponse.items response) as [l|]; simpl; [|reflexivity].
  destruct (Z.eqb_spec (Z.of_nat (List.length l)) 0) as [E|]; [now rewrite E | reflexivity].
Qed.

(** The example of the specification: 25 items, 120 results in total and
    the continuation token ["ABC"]. *)
Example normalizes_example :
  let page := toPaginatedResponse
                (ListResponse.mk (Some "ABC") None
                   (Some (ListResponse.mkPageInfo 120 25))
                   (Some (repeat Demo.video 25))) in
  count page = 25 /\ totalResults page = Some 120 /\
  hasMore page = true /\ nextPageToken page = Some "ABC".
Proof. repeat split. Qed.

(** ** Objects *)

Lemma lookup_obj_set (k k' : string) (v : jsval) (o : list (string * jsval)) :
  lookup k (obj_set k' v o) = if String.eqb k k' then v else lookup k o.
Proof.
  induction o as [|[k0 v0] o IH]; simpl.
  - reflexivity.
  - destruct (String.eqb_spec k' k0) as [->|Hne]; simpl.
    + now destruct (String.eqb k k0).
    + rewrite IH. destruct (String.eqb_spec k k0) as [->|]; [|reflexivity].
      destruct (String.eqb_spec k0 k'); [congruence | reflexivity].
Qed.

Lemma has_key_obj_set (k k' : string) (v : jsval) (o : list (string * jsval)) :
  has_key k (obj_set k' v o) = String.eqb k k' || has_key k o.
Proof.
  induction o as [|[k0 v0] o IH]; simpl.
  - now destruct (String.eqb k k').
  - destruct (String.eqb_spec k' k0) as [->|Hne]; simpl.
    + now destruct (String.eqb k k0).
    + rewrite IH. destruct (String.eqb k k0), (String.eqb k k'); reflexivity.
Qed.

Lemma lookup_spread_fresh (k : string) (a b : list (string * jsval)) :
  has_key k b = false -> lookup k (spread a b) = lookup k a.
Proof.
  unfold spread. revert a; induction b as [|[k0 v0] b IH]; intros a Hb; simpl in *.
  - reflexivity.
  - destruct (String.eqb_spec k k0) as [|Hne]; [discriminate|].
    rewrite IH by exact Hb. rewrite lookup_obj_set.
    destruct (String.eqb_spec k k0); [contradiction | reflexivity].
Qed.

Lemma has_key_spread_fresh (k : string) (a b : list (string * jsval)) :
  has_key k b = false -> has_key k (spread a b) = has_key k a.
Proof.
  unfold spread. revert a; induction b as [|[k0 v0] b IH]; intros a Hb; simpl in *.
  - reflexivity.
  - destruct (String.eqb_spec k k0) as [|Hne]; [discriminate|].
    rewrite IH by exact Hb. rewrite has_key_obj_set.
    destruct (String.eqb_spec k k0); [contradiction | reflexivity].
Qed.

Lemma spread_cons_fresh (k : string) (v : jsval) (a b : list (string * jsval)) :
  has_key k b = false -> spread ((k, v) :: a) b = (k, v) :: spread a b.
Proof.
  unfold spread. revert a; induction b as [|[k0 v0] b IH]; intros a Hb; simpl in *.
  - reflexivity.
  - destruct (String.eqb_spec k k0) as [|Hne]; [discriminate|].
    destruct (String.eqb_spec k0 k) as [|_]; [congruence|].
    apply IH, Hb.
Qed.

(** ** The request helper *)

Section RequestProperties.

Context `{Platform}.

Lemma request_answered (credentials : TenantCredentials) (endpoint : string)
  (options : RequestOptions) (net : Net) authParams response rest :
  getAuthParams credentials = Ok authParams ->
  upstream net = response :: rest ->
  request credentials endpoint options net
  = (respond response,
     {| upstream := rest;
        sent := sent net ++ [request_sent credentials authParams endpoint options] |}).
Proof.
  intros Hauth Hup. unfold request, bind, lift, fetch.
  rewrite Hauth, Hup. reflexivity.
Qed.

Lemma request_sends (credentials : TenantCredentials) (endpoint : string)
  (options : RequestOptions) (net : Net) authParams :
  getAuthParams credentials = Ok authParams ->
  sent (snd (request credentials endpoint options net))
  = (sent net ++ [request_sent credentials authParams endpoint options])%list.
Proof.
  intros Hauth. unfold request, bind, lift, fetch. rewrite Hauth.
  destruct (upstream net); reflexivity.
Qed.

Lemma request_refused (credentials : TenantCredentials) (endpoint : string)
  (options : RequestOptions) (net : Net) e :
  getAuthParams credentials = Throw e ->
  request credentials endpoint options net = (Throw e, net).
Proof.
  intros Hauth. unfold request, bind, lift. now rewrite Hauth.
Qed.

End RequestProperties.

(** ** C1: the status-code mapping *)

Section StatusMapping.

Context `{Platform}.

Lemma JSON_parse_not_api (body : string) (e : YouTubeApiError) :
  JSON_parse body <> Throw (ThrownApi e).
Proof. unfold JSON_parse. destruct (parse_json body); discriminate. Qed.

(** The generic error carries the upstream message when the body has
    one at [error.message]. *)
Lemma error_message_upstream (body : string) (code : Z) errorJson error m :
  parse_json body = inl (VObj errorJson) ->
  lookup "error" errorJson = VObj error ->
  lookup "message" error = VStr m ->
  m <> EmptyString ->
  ToString (error_message body code) = m.
Proof.
  intros Hparse Herror Hm Hne. unfold error_message, JSON_parse.
  rewrite Hparse. simpl. rewrite Herror. simpl. rewrite Hm.
  unfold or_. simpl. destruct m; [contradiction | reflexivity].
Qed.

(** C1. What [request] does with the response upstream gives, by status:
    429, 401, 403 (by body), 404, 204, any other status outside 200..299,
    and the remaining successes. Each error is given field by field, with
    its kind: the rate-limit error is retryable and carries the seconds of
    [Retry-After] (60 without the header), the other kinds are not
    retryable. The cases cover every status and exclude each other, every
    error of the taxonomy that comes out has the status and retryable flag
    of its row in the table, and it is retryable exactly for status 429. *)
Theorem status_mapping (credentials : TenantCredentials) (endpoint : string)
  (options : RequestOptions) (net : Net) authParams response rest :
  getAuthParams credentials = Ok authParams ->
  upstream net = response :: rest ->
  let result := fst (request credentials endpoint options net) in
  let upstream_status := status response in
  (upstream_status = 429 ->
   result = Throw (ThrownApi
     {| name := "RateLimitError";
        message := "Rate limit exceeded";
        statusCode := Some 429;
        code := "RATE_LIMIT_EXCEEDED";
        retryable := true;
        class := IsRateLimitError
                   (match headers_get response "Retry-After" with
                    | Some h => if is_empty h then Int 60 else parseInt10 h
                    | None => Int 60
                    end) |})) /\
  (upstream_status = 401 ->
   result = Throw (ThrownApi
     {| name := "AuthenticationError";
        message := "Authentication failed. Check your OAuth token or API key.";
        statusCode := Some 401;
        code := "AUTHENTICATION_FAILED";
        retryable := false;
        class := IsAuthenticationError |})) /\
  (upstream_status = 403 ->
   result = if includes (text response) "quotaExceeded"
            then Throw (ThrownApi
                   {| name := "QuotaExceededError";
                      message := "YouTube API quota exceeded.";
                      statusCode := Some 403;
                      code := "QUOTA_EXCEEDED";
                      retryable := false;
                      class := IsQuotaExceededError |})
            else Throw (ThrownApi
                   {| name := "ForbiddenError";
                      message := "Access forbidden. You may lack required permissions.";
                      statusCode := Some 403;
                      code := "FORBIDDEN";
                      retryable := false;
                      class := IsForbiddenError |})) /\
  (upstream_status = 404 ->
   result = Throw (ThrownApi
     {| name := "NotFoundError";
        message := "Resource with ID 'unknown' not found";
        statusCode := Some 404;
        code := "NOT_FOUND";
        retryable := false;
        class := IsNotFoundError |})) /\
  (upstream_status = 204 -> result = Ok VUndef) /\
  (upstream_status <> 429 -> upstream_status <> 401 -> upstream_status <> 403 ->
   upstream_status <> 404 -> ok response = false ->
   result = Throw (ThrownApi
     {| name := "YouTubeApiError";
        message := ToString (error_message (text response) upstream_status);
        statusCode := Some upstream_status;
        code := "YOUTUBE_ERROR";
        retryable := false;
        class := IsYouTubeApiError |}) /\
   forall errorJson error m,
     parse_json (text response) = inl (VObj errorJson) ->
     lookup "error" errorJson = VObj error ->
     lookup "message" error = VStr m ->
     m <> EmptyString ->
     ToString (error_message (text response) upstream_status) = m) /\
  (ok response = true -> upstream_status <> 204 ->
   result = JSON_parse (text response)) /\
  (upstream_status = 429 \/ upstream_status = 401 \/ upstream_status = 403 \/
   upstream_status = 404 \/ upstream_status = 204 \/
   (upstream_status <> 429 /\ upstream_status <> 401 /\ upstream_status <> 403 /\
    upstream_status <> 404 /\ ok response = false) \/
   (ok response = true /\ upstream_status <> 204)) /\
  (forall e, result = Throw (ThrownApi e) ->
             statusCode e = Some (fst (taxonomy (class e) upstream_status)) /\
             retryable e = snd (taxonomy (class e) upstream_status) /\
             (retryable e = true <-> exists secs, class e = IsRateLimitError secs) /\
             (retryable e = true <-> upstream_status = 429)).
Proof.
  intros Hauth Hup result upstream_status. subst result upstream_status.
  rewrite (request_answered _ _ _ _ _ _ _ Hauth Hup). cbn [fst].
  unfold respond, ok.
  repeat match goal with |- _ /\ _ => split end.
  - intros ->. simpl.
    destruct (headers_get response "Retry-After") as [[|c h]|]; reflexivity.
  - intros ->. reflexivity.
  - intros ->. simpl. destruct (includes (text response) "quotaExceeded"); reflexivity.
  - intros ->. reflexivity.
  - intros ->. reflexivity.
  - intros H429 H401 H403 H404 Hok.
    apply Z.eqb_neq in H429, H401, H403, H404.
    rewrite H429, H401, H403, H404. unfold ok in Hok. rewrite Hok. simpl.
    split; [reflexivity|].
    intros errorJson error m Hparse Herror Hm Hne.
    eapply error_message_upstream; eassumption.
  - intros Hok H204. unfold ok in Hok.
    destruct (Z.eqb_spec (status response) 429) as [E|_]; [rewrite E in Hok; discriminate|].
    destruct (Z.eqb_spec (status response) 401) as [E|_]; [rewrite E in Hok; discriminate|].
    destruct (Z.eqb_spec (status response) 403) as [E|_]; [rewrite E in Hok; discriminate|].
    destruct (Z.eqb_spec (status response) 404) as [E|_]; [rewrite E in Hok; discriminate|].
    rewrite Hok. simpl.
    destruct (Z.eqb_spec (status response) 204); [contradiction | reflexivity].
  - destruct ((200 <=? status response) && (status response <=? 299)) eqn:Hok.
    + destruct (Z.eq_dec (status response) 204); [tauto|]. do 6 right. tauto.
    + destruct (Z.eq_dec (status response) 429); [tauto|].
      destruct (Z.eq_dec (status response) 401); [tauto|].
      destruct (Z.eq_dec (status response) 403); [tauto|].
      destruct (Z.eq_dec (status response) 404); [tauto|].
      do 5 right. left. tauto.
  - intros e.
    destruct (Z.eqb_spec (status response) 429) as [E|N429].
    { intros [= <-]. rewrite E. simpl. repeat split; eauto. }
    destruct (Z.eqb_spec (status response) 401) as [E|_].
    { intros [= <-]. rewrite E. simpl. repeat split; try discriminate.
      intros [? [=]]. }
    destruct (Z.eqb_spec (status response) 403) as [E|_].
    { rewrite E. destruct (includes (text response) "quotaExceeded");
        intros [= <-]; simpl; repeat split; try discriminate; intros [? [=]]. }
    destruct (Z.eqb_spec (status response) 404) as [E|_].
    { intros [= <-]. rewrite E. simpl. repeat split; try discriminate.
      intros [? [=]]. }
    destruct (negb _).
    { intros [= <-]. simpl. repeat split; try discriminate; try contradiction.
      intros [? [=]]. }
    destruct (Z.eqb_spec (status response) 204) as [E|_]; [discriminate|].
    intros Hparse. now apply JSON_parse_not_api in Hparse.
Qed.

End StatusMapping.

Lemma status_mapping_witness :
  exists e,
    fst (request (H := Demo.platform) Demo.key_only "/videos" no_options
           (Demo.idle [Demo.respond_with 500 (Demo.stringify Demo.upstream_error)]))
    = Throw (ThrownApi e) /\
    class e = IsYouTubeApiError /\
    statusCode e = Some 500 /\
    retryable e = false /\
    message e = "Backend Error".
Proof.
  destruct (@status_mapping Demo.platform Demo.key_only "/videos" no_options
              (Demo.idle [Demo.respond_with 500 (Demo.stringify Demo.upstream_error)])
              [("key", VStr "AIza-key")]
              (Demo.respond_with 500 (Demo.stringify Demo.upstream_error)) []
              eq_refl eq_refl)
    as (_ & _ & _ & _ & _ & Hother & _).
  destruct Hother as (Hresult & Hupstream);
    [simpl; lia | simpl; lia | simpl; lia | simpl; lia | reflexivity |].
  eexists. split; [exact Hresult|]. do 3 (split; [reflexivity|]).
  cbn [message].
  apply (Hupstream
           [("error", VObj [("code", VNum (Int 500)); ("message", VStr "Backend Error")])]
           [("code", VNum (Int 500)); ("message", VStr "Backend Error")]);
    [reflexivity | reflexivity | reflexivity | discriminate].
Defined.

(** ** C6: how a request is authenticated *)

(** The resolver turns an empty header into [undefined]: in the credentials
    it produces, a field is truthy exactly when it is there. *)
Lemma resolved_field_given (h : option string) :
  given (or_undefined h) = is_some (or_undefined h).
Proof. unfold or_undefined. destruct h as [[|c s]|]; reflexivity. Qed.

Lemma parseTenantCredentials_given (get : string -> option string) :
  given (accessToken (parseTenantCredentials get))
  = is_some (accessToken (parseTenantCredentials get)) /\
  given (apiKey (parseTenantCredentials get))
  = is_some (apiKey (parseTenantCredentials get)).
Proof. split; apply resolved_field_given. Qed.

Section Authentication.

Context `{Platform}.

(** C6, amended. A request built by the request helper [request], which
    every operation goes through but the caption download and the two
    caption uploads. With an access token (a non-empty one: the code tests
    the credential fields for truthiness, and the resolver turns an empty
    header into [undefined]) the request sent has the query of the caller's
    parameters alone, no [key] added, and the bearer header, unless the
    caller passes an [Authorization] header of its own; with an API key
    only, it has [key=<apiKey>] ahead of the caller's parameters, unless the
    caller passes a [key] parameter of its own, and no [Authorization]
    header but the caller's; no operation passes either. With neither
    credential, the call throws the authentication error and leaves the
    network as it was: nothing is sent. *)
Theorem request_authentication (credentials : TenantCredentials)
  (endpoint : string) (options : RequestOptions) (net : Net) :
  let run := request credentials endpoint options net in
  let own_query := filteredParams (spread [] (or_empty (params options))) in
  (given (accessToken credentials) = true ->
   exists token rq,
     accessToken credentials = Some token /\
     sent (snd run) = (sent net ++ [rq])%list /\
     req_url rq = url_of endpoint own_query /\
     (has_key "Authorization" (or_empty (headers options)) = false ->
      lookup "Authorization" (req_headers rq) = VStr ("Bearer " +++ token))) /\
  (given (accessToken credentials) = false ->
   given (apiKey credentials) = true ->
   exists key rq,
     apiKey credentials = Some key /\
     sent (snd run) = (sent net ++ [rq])%list /\
     (has_key "Authorization" (or_empty (headers options)) = false ->
      has_key "Authorization" (req_headers rq) = false) /\
     (has_key "key" (or_empty (params options)) = false ->
      req_url rq = url_of endpoint (("key", key) :: own_query))) /\
  (given (accessToken credentials) = false ->
   given (apiKey credentials) = false ->
   run = (Throw (ThrownApi
            {| name := "AuthenticationError";
               message := "No credentials provided. Include X-YouTube-Access-Token or X-YouTube-API-Key header.";
               statusCode := Some 401;
               code := "AUTHENTICATION_FAILED";
               retryable := false;
               class := IsAuthenticationError |}),
          net) /\
   sent (snd run) = sent net).
Proof.
  intros run own_query. subst run own_query.
  repeat match goal with |- _ /\ _ => split end.
  - intros Htoken.
    destruct (accessToken credentials) as [token|] eqn:Etoken; [|discriminate].
    exists token, (request_sent credentials [] endpoint options).
    split; [reflexivity|]. split.
    { apply request_sends. unfold getAuthParams. now rewrite Etoken, Htoken. }
    split; [reflexivity|]. intros Hheader.
    unfold request_sent; simpl. rewrite lookup_spread_fresh by exact Hheader.
    unfold getAuthHeaders. rewrite Etoken, Htoken. reflexivity.
  - intros Htoken Hapi.
    destruct (apiKey credentials) as [key|] eqn:Ekey; [|discriminate].
    exists key, (request_sent credentials [("key", VStr key)] endpoint options).
    split; [reflexivity|]. split.
    { apply request_sends. unfold getAuthParams. now rewrite Htoken, Ekey, Hapi. }
    split.
    + intros Hheader. unfold request_sent; simpl.
      rewrite has_key_spread_fresh by exact Hheader.
      unfold getAuthHeaders. rewrite Htoken. reflexivity.
    + intros Hkey. unfold request_sent; simpl. rewrite spread_cons_fresh by exact Hkey.
      reflexivity.
  - intros Htoken Hapi.
    assert (Hrun : request credentials endpoint options net
                   = (Throw (ThrownApi (AuthenticationError
                        "No credentials provided. Include X-YouTube-Access-Token or X-YouTube-API-Key header.")),
                      net)).
    { apply request_refused. unfold getAuthParams. now rewrite Htoken, Hapi. }
    rewrite Hrun. split; reflexivity.
Qed.

End Authentication.

Lemma request_authentication_witness :
  exists rq,
    sent (snd (request (H := Demo.platform) Demo.key_only "/videos"
                 (get_params [("part", VStr "snippet"); ("id", VStr "v1")])
                 (Demo.idle [])))
    = [rq] /\
    has_key "Authorization" (req_headers rq) = false /\
    req_url rq
    = "https://www.googleapis.com/youtube/v3/videos?key=AIza-key&part=snippet&id=v1".
Proof.
  destruct (@request_authentication Demo.platform Demo.key_only "/videos"
              (get_params [("part", VStr "snippet"); ("id", VStr "v1")])
              (Demo.idle []))
    as (_ & Hkey & _).
  destruct (Hkey eq_refl eq_refl) as (key & rq & Ekey & Hsent & Hheader & Hurl).
  exists rq. split; [exact Hsent|]. split; [exact (Hheader eq_refl)|].
  injection Ekey as <-. rewrite (Hurl eq_refl). reflexivity.
Defined.

(** C6, as stated, at the caption download and the caption upload, which
    build their requests with [fetch] themselves. Without credentials the
    download does not throw the authentication error: its request is sent
    and its text returned. With an API key only, the request of the
    download has no [key] parameter, and the upload has no [key] parameter
    and an [Authorization] header. *)
Lemma request_authentication_counterexample :
  fst (downloadCaption (H := Demo.platform) Demo.anonymous "cap1" None None
         (Demo.idle [Demo.respond_with 200 "WEBVTT"]))
  = Ok "WEBVTT" /\
  map req_url
    (sent (snd (downloadCaption (H := Demo.platform) Demo.anonymous "cap1" None None
                  (Demo.idle [Demo.respond_with 200 "WEBVTT"]))))
  = [ "https://www.googleapis.com/youtube/v3/captions/cap1?" ] /\
  map req_url
    (sent (snd (downloadCaption (H := Demo.platform) Demo.key_only "cap1" None None
                  (Demo.idle [Demo.respond_with 200 "WEBVTT"]))))
  = [ "https://www.googleapis.com/youtube/v3/captions/cap1?" ] /\
  map (fun rq => (req_url rq, req_headers rq))
    (sent (snd (insertCaption (H := Demo.platform) Demo.key_only "v1" Demo.subtitles
                  (Demo.idle [Demo.respond_with 200 "{}"]))))
  = [ ("https://www.googleapis.com/upload/youtube/v3/captions?uploadType=multipart&part=snippet",
       [ ("Authorization", VStr "Bearer undefined") ]) ].
Proof. repeat split. Qed.

(** ** C3: get-by-id operations *)

Section GetById.

Context `{Platform}.

Lemma respond_success (response : HttpResponse) :
  ok response = true -> status response <> 204 ->
  respond response = JSON_parse (text response).
Proof.
  intros Hok H204. unfold respond. unfold ok in *.
  destruct (Z.eqb_spec (status response) 429) as [E|_]; [rewrite E in Hok; discriminate|].
  destruct (Z.eqb_spec (status response) 401) as [E|_]; [rewrite E in Hok; discriminate|].
  destruct (Z.eqb_spec (status response) 403) as [E|_]; [rewrite E in Hok; discriminate|].
  destruct (Z.eqb_spec (status response) 404) as [E|_]; [rewrite E in Hok; discriminate|].
  rewrite Hok. simpl.
  destruct (Z.eqb_spec (status response) 204); [contradiction | reflexivity].
Qed.

Lemma respond_answer (response : HttpResponse) (v : jsval) :
  answers_with response v -> respond response = Ok v.
Proof.
  intros (Hok & H204 & Hparse & _).
  rewrite respond_success by assumption. unfold JSON_parse. now rewrite Hparse.
Qed.

Lemma read_list_value (v : jsval) :
  nullish v = false -> read_list v = Ok (as_list_response v).
Proof. destruct v; simpl; intros; try discriminate; reflexivity. Qed.

(** A list request that upstream answers: the parsed list comes back and
    the request is logged. *)
Lemma list_request (credentials : TenantCredentials) (endpoint : string)
  (options : RequestOptions) (net : Net) authParams response rest v
  {A : Type} (k : ListResponse.t jsval -> Async A) :
  getAuthParams credentials = Ok authParams ->
  upstream net = response :: rest ->
  answers_with response v ->
  (response <- request credentials endpoint options ;;
   list <- lift (read_list response) ;;
   k list) net
  = k (as_list_response v)
      {| upstream := rest;
         sent := sent net ++ [request_sent credentials authParams endpoint options] |}.
Proof.
  intros Hauth Hup Hans. unfold bind at 1.
  rewrite (request_answered _ _ _ _ _ _ _ Hauth Hup), (respond_answer _ _ Hans).
  unfold bind, lift. rewrite read_list_value by apply Hans. reflexivity.
Qed.

Lemma not_found_names (entityType id : string) :
  includes (message (NotFoundError entityType id)) entityType = true /\
  includes (message (NotFoundError entityType id)) id = true.
Proof.
  simpl. split.
  - apply includes_prefix.
  - apply (includes_append_r entityType), (includes_infix " with ID '").
Qed.

(** What [new NotFoundError(entityType, id)] builds. *)
Lemma NotFoundError_fields (entityType id : string) :
  NotFoundError entityType id = not_found entityType id.
Proof. reflexivity. Qed.

Lemma thrown_not_found (entityType id : string) :
  @Throw jsval (ThrownApi (NotFoundError entityType id))
  = Throw (ThrownApi (not_found entityType id)) /\
  class (not_found entityType id) = IsNotFoundError /\
  statusCode (not_found entityType id) = Some 404 /\
  includes (message (not_found entityType id)) entityType = true /\
  includes (message (not_found entityType id)) id = true.
Proof.
  split; [reflexivity|]. split; [reflexivity|]. split; [reflexivity|].
  apply not_found_names.
Qed.

Variable credentials : TenantCredentials.

Lemma getVideo_result (videoId : string) parts net authParams response rest v :
  getAuthParams credentials = Ok authParams ->
  upstream net = response :: rest ->
  answers_with response v ->
  found_or_not_found "Video" videoId (as_list_response v)
    (fst (getVideo credentials videoId parts net)).
Proof.
  intros Hauth Hup Hans. unfold getVideo, listVideos.
  unfold bind at 1. rewrite (list_request _ _ _ _ _ _ _ _ _ Hauth Hup Hans).
  unfold found_or_not_found, ret, throw, toPaginatedResponse;
    cbn -[includes NotFoundError not_found].
  destruct (match opt v "items" with VArr l => Some l | _ => None end) as [[|x l]|];
    cbn -[includes NotFoundError not_found]; try reflexivity;
    apply thrown_not_found.
Qed.

Lemma getChannel_result (channelId : string) parts net authParams response rest v :
  getAuthParams credentials = Ok authParams ->
  upstream net = response :: rest ->
  answers_with response v ->
  found_or_not_found "Channel" channelId (as_list_response v)
    (fst (getChannel credentials channelId parts net)).
Proof.
  intros Hauth Hup Hans. unfold getChannel, listChannels.
  unfold bind at 1. rewrite (list_request _ _ _ _ _ _ _ _ _ Hauth Hup Hans).
  unfold found_or_not_found, ret, throw, toPaginatedResponse;
    cbn -[includes NotFoundError not_found].
  destruct (match opt v "items" with VArr l => Some l | _ => None end) as [[|x l]|];
    cbn -[includes NotFoundError not_found]; try reflexivity;
    apply thrown_not_found.
Qed.

Lemma getPlaylist_result (playlistId : string) parts net authParams response rest v :
  getAuthParams credentials = Ok authParams ->
  upstream net = response :: rest ->
  answers_with response v ->
  found_or_not_found "Playlist" playlistId (as_list_response v)
    (fst (getPlaylist credentials playlistId parts net)).
Proof.
  intros Hauth Hup Hans. unfold getPlaylist.
  rewrite (list_request _ _ _ _ _ _ _ _ _ Hauth Hup Hans).
  unfold found_or_not_found, no_items, ret, throw; cbn -[includes NotFoundError not_found].
  destruct (match opt v "items" with VArr l => Some l | _ => None end) as [[|x l]|];
    cbn -[includes NotFoundError not_found]; try reflexivity;
    apply thrown_not_found.
Qed.

Lemma getCommentThread_result (commentThreadId : string) parts net authParams
  response rest v :
  getAuthParams credentials = Ok authParams ->
  upstream net = response :: rest ->
  answers_with response v ->
  found_or_not_found "CommentThread" commentThreadId (as_list_response v)
    (fst (getCommentThread credentials commentThreadId parts net)).
Proof.
  intros Hauth Hup Hans. unfold getCommentThread.
  rewrite (list_request _ _ _ _ _ _ _ _ _ Hauth Hup Hans).
  unfold found_or_not_found, no_items, ret, throw; cbn -[includes NotFoundError not_found].
  destruct (match opt v "items" with VArr l => Some l | _ => None end) as [[|x l]|];
    cbn -[includes NotFoundError not_found]; try reflexivity;
    apply thrown_not_found.
Qed.

(** C3. When upstream answers the list request of a get-by-id operation
    with a list whose [items] is empty or absent, the operation throws the
    not-found error (of the not-found kind, with status 404 and the code
    [NOT_FOUND], not retryable) whose message contains the entity type and
    the requested id; otherwise it returns the first item. *)
Theorem get_by_id (id : string) (parts : option (list string)) (net : Net)
  authParams response rest v :
  getAuthParams credentials = Ok authParams ->
  upstream net = response :: rest ->
  answers_with response v ->
  let list := as_list_response v in
  found_or_not_found "Video" id list (fst (getVideo credentials id parts net)) /\
  found_or_not_found "Channel" id list (fst (getChannel credentials id parts net)) /\
  found_or_not_found "Playlist" id list (fst (getPlaylist credentials id parts net)) /\
  found_or_not_found "CommentThread" id list
    (fst (getCommentThread credentials id parts net)).
Proof.
  intros Hauth Hup Hans list. subst list.
  repeat split;
    eauto using getVideo_result, getChannel_result, getPlaylist_result,
                getCommentThread_result.
Qed.

End GetById.

Lemma get_by_id_witness :
  (exists e,
     fst (getVideo (H := Demo.platform) Demo.key_only "v404" None
            (Demo.idle [Demo.respond_with 200 (Demo.stringify (Demo.list_of []))]))
     = Throw (ThrownApi e) /\
     class e = IsNotFoundError /\
     statusCode e = Some 404 /\
     message e = "Video with ID 'v404' not found") /\
  fst (getPlaylist (H := Demo.platform) Demo.key_only "p1" None
         (Demo.idle [Demo.respond_with 200 (Demo.stringify (Demo.list_of [Demo.playlist]))]))
  = Ok Demo.playlist.
Proof.
  assert (Hempty : answers_with (H := Demo.platform)
                     (Demo.respond_with 200 (Demo.stringify (Demo.list_of [])))
                     (Demo.list_of []))
    by (repeat split; discriminate).
  assert (Hone : answers_with (H := Demo.platform)
                   (Demo.respond_with 200 (Demo.stringify (Demo.list_of [Demo.playlist])))
                   (Demo.list_of [Demo.playlist]))
    by (repeat split; discriminate).
  destruct (@get_by_id Demo.platform Demo.key_only "v404" None
              (Demo.idle [Demo.respond_with 200 (Demo.stringify (Demo.list_of []))])
              [("key", VStr "AIza-key")] _ [] _ eq_refl eq_refl Hempty)
    as ((Hvideo & Hclass & Hstatus & _) & _).
  destruct (@get_by_id Demo.platform Demo.key_only "p1" None
              (Demo.idle [Demo.respond_with 200
                            (Demo.stringify (Demo.list_of [Demo.playlist]))])
              [("key", VStr "AIza-key")] _ [] _ eq_refl eq_refl Hone)
    as (_ & _ & Hplaylist & _).
  split; [|exact Hplaylist].
  exists (not_found "Video" "v404").
  split; [exact Hvideo|]. split; [exact Hclass|]. split; [exact Hstatus | reflexivity].
Defined.

(** ** C7: the error formatter *)

(** C7, as stated, at a thrown [Error] outside the taxonomy (what a failed
    [fetch] throws): the details carry its name, message and stack, and no
    code, status or retryable flag. *)
Lemma formatError_plain_error_counterexample :
  formatErrorForLogging (TypeError "fetch failed")
  = [ ("name", VStr "TypeError"); ("message", VStr "fetch failed"); ("stack", VUndef) ] /\
  has_key "code" (formatErrorForLogging (TypeError "fetch failed")) = false /\
  has_key "statusCode" (formatErrorForLogging (TypeError "fetch failed")) = false /\
  has_key "retryable" (formatErrorForLogging (TypeError "fetch failed")) = false.
Proof. repeat split. Qed.

(** C7, amended. [formatError] returns, for every thrown value, an error
    payload whose one text item serializes [{ error: message, details }].
    For an error of the taxonomy the message is ["Error: "] and its message,
    with [" (retryable)"] appended exactly when its retryable flag is set,
    and the details are its name, message, code, status and retryable flag,
    then the retry-after seconds of a rate-limit error or the field map of a
    validation error. For any other [Error] the message is ["Error: "] and
    its message, and the details are its name, message and stack. Any other
    value is stringified, in the message and as the only detail. *)
Theorem formatError_payload_shape `{Platform} (error : thrown) :
  formatError error
  = {| ToolResponse.content :=
         [ {| ToolResponse.type := "text";
              ToolResponse.text :=
                JSON_stringify_pretty
                  (VObj [ ("error", VStr (formatError_message error));
                          ("details", VObj (formatErrorForLogging error)) ]) |} ];
       ToolResponse.isError := Some true |} /\
  String.prefix "Error: " (formatError_message error) = true /\
  match error with
  | ThrownApi e =>
      formatError_message error
      = (if retryable e then "Error: " +++ message e +++ " (retryable)"
         else "Error: " +++ message e) /\
      formatErrorForLogging error
      = ([ ("name", VStr (name e));
           ("message", VStr (message e));
           ("code", VStr (code e));
           ("statusCode", of_opt_int (statusCode e));
           ("retryable", VBool (retryable e)) ]
         ++ match class e with
            | IsRateLimitError secs => [ ("retryAfterSeconds", VNum secs) ]
            | IsValidationError details => [ ("details", details_to_value details) ]
            | _ => []
            end)%list
  | ThrownError name message stack =>
      formatError_message error = "Error: " +++ message /\
      formatErrorForLogging error
      = [ ("name", VStr name); ("message", VStr message);
          ("stack", of_opt_string stack) ]
  | ThrownValue v =>
      formatError_message error = "Error: " +++ ToString v /\
      formatErrorForLogging error = [ ("error", VStr (ToString v)) ]
  end.
Proof.
  split; [reflexivity|]. split.
  - destruct error as [e|n m st|v]; simpl.
    + destruct (retryable e).
      * exact (prefix_append "Error: " (message e +++ " (retryable)")).
      * exact (prefix_append "Error: " (message e)).
    + exact (prefix_append "Error: " m).
    + exact (prefix_append "Error: " (ToString v)).
  - destruct error as [e| |]; [|split; reflexivity..].
    split.
    + simpl. destruct (retryable e); reflexivity.
    + simpl. destruct (class e); reflexivity.
Qed.

(** The suffix follows the flag of a taxonomy error, not [isRetryableError]:
    a network failure that [isRetryableError] accepts gets no suffix. *)
Remark network_failure_not_marked :
  isRetryableError (TypeError "network timeout") = true /\
  formatError_message (TypeError "network timeout") = "Error: network timeout".
Proof. split; reflexivity. Qed.

(** ** C8: markdown of a paginated envelope *)

Lemma header_lines_no_row (data : PaginatedResponse jsval) (entityType : string) :
  forallb (fun line => negb (starts_row line)) (header_lines data entityType) = true.
Proof.
  unfold header_lines, counts_line.
  destruct (totalResults data), (hasMore data && given (nextPageToken data));
    reflexivity.
Qed.

Lemma table_for_starts_row (entityType : string) (items : list jsval) :
  items <> [] -> starts_row (table_for entityType items) = true.
Proof.
  intros Hne. unfold table_for.
  repeat match goal with
         | |- context [if String.eqb ?a ?b then _ else _] =>
             destruct (String.eqb a b); [reflexivity|]
         end.
  destruct items as [|x items]; [contradiction|].
  unfold formatGenericTable, starts_row, row, join. simpl List.length. cbn iota.
  simpl String.concat.
  exact (prefix_append "| " _).
Qed.

Lemma table_for_entity_table (entityType : string) (items : list jsval) :
  entity_table entityType items (table_for entityType items).
Proof.
  unfold entity_table, is_table.
  repeat match goal with |- _ /\ _ => split end;
    try (intros ->; reflexivity).
  intros Hother item others ->. unfold table_for.
  repeat match goal with
         | |- context [if String.eqb ?a ?b then _ else _] =>
             destruct (String.eqb_spec a b) as [->|_];
             [exfalso; apply Hother; unfold entity_types; simpl; tauto|]
         end.
  reflexivity.
Qed.

(** C8. An envelope without items renders as the header lines and the
    notice ["_No items found._"], none of them a table row. An envelope with
    items renders as the same header lines (the title, the counts, the
    continuation note when there is more, each separated as the code pushes
    them) followed by the table of its entity type: the columns of that
    type and one row per item with that type's cells, or, for a type
    without a layout of its own, the columns of the first item's keys. *)
Theorem markdown_of_envelope (data : PaginatedResponse jsval) (entityType : string) :
  (items data = [] ->
   formatPaginatedAsMarkdown data entityType
   = join newline (header_lines data entityType ++ [ "_No items found._" ]) /\
   forallb (fun line => negb (starts_row line))
     (header_lines data entityType ++ [ "_No items found._" ]) = true) /\
  (items data <> [] ->
   formatPaginatedAsMarkdown data entityType
   = join newline (header_lines data entityType
                   ++ [ table_for entityType (items data) ]) /\
   starts_row (table_for entityType (items data)) = true /\
   includes (join newline (header_lines data entityType))
     ("**Showing:** " +++ Z_to_string (count data)) = true /\
   entity_table entityType (items data) (table_for entityType (items data))) /\
  header_lines data entityType
  = ([ "## " +++ capitalize entityType;
       EmptyString;
       match totalResults data with
       | Some total =>
           "**Total:** " +++ Z_to_string total +++ " | **Showing:** " +++
           Z_to_string (count data)
       | None => "**Showing:** " +++ Z_to_string (count data)
       end ]
     ++ match hasMore data, nextPageToken data with
        | true, Some token =>
            if is_empty token then []
            else [ "**More available:** Yes (nextPageToken: `" +++ token +++ "`)" ]
        | _, _ => []
        end
     ++ [ EmptyString ])%list.
Proof.
  unfold formatPaginatedAsMarkdown. split; [|split].
  - intros Hnil. rewrite Hnil. split; [reflexivity|].
    rewrite forallb_app, header_lines_no_row. reflexivity.
  - intros Hne. destruct (items data) as [|x l] eqn:Eitems; [contradiction|].
    split; [reflexivity|]. split; [|split].
    + apply table_for_starts_row. discriminate.
    + apply (includes_join _ _ (counts_line data)).
      * unfold header_lines. right; right; left. reflexivity.
      * unfold counts_line. destruct (totalResults data) as [total|].
        -- apply (includes_append_r "**Total:** "),
                 (includes_append_r (Z_to_string total)),
                 (includes_append_r " | ").
           apply includes_self.
        -- apply includes_self.
    + apply table_for_entity_table.
  - unfold header_lines, counts_line.
    destruct (totalResults data), (hasMore data), (nextPageToken data) as [[|c t]|];
      reflexivity.
Qed.

Lemma markdown_of_envelope_witness :
  formatPaginatedAsMarkdown
    {| items := []; count := 0; totalResults := Some 120; resultsPerPage := Some 25;
       hasMore := false; nextPageToken := None; prevPageToken := None |} "videos"
  = join newline [ "## Videos"; EmptyString; "**Total:** 120 | **Showing:** 0";
                   EmptyString; "_No items found._" ] /\
  formatPaginatedAsMarkdown
    {| items := [Demo.video]; count := 1; totalResults := None; resultsPerPage := None;
       hasMore := false; nextPageToken := None; prevPageToken := None |} "videos"
  = join newline [ "## Videos"; EmptyString; "**Showing:** 1"; EmptyString;
                   "| ID | Title | Channel | Views | Duration |";
                   "|---|---|---|---|---|";
                   "| v1 | First upload | - | - | - |" ].
Proof.
  destruct (markdown_of_envelope
              {| items := []; count := 0; totalResults := Some 120;
                 resultsPerPage := Some 25; hasMore := false; nextPageToken := None;
                 prevPageToken := None |} "videos") as (Hempty & _ & _).
  destruct (markdown_of_envelope
              {| items := [Demo.video]; count := 1; totalResults := None;
                 resultsPerPage := None; hasMore := false; nextPageToken := None;
                 prevPageToken := None |} "videos") as (_ & Hfull & Hheader).
  destruct (Hempty eq_refl) as [Htext _].
  destruct Hfull as (Hrendered & _ & _ & Htable); [discriminate|].
  destruct Htable as (Hvideos & _). specialize (Hvideos eq_refl).
  unfold is_table in Hvideos. cbn [items] in Hrendered, Hvideos.
  split; [rewrite Htext; reflexivity|].
  rewrite Hrendered, Hheader, Hvideos. reflexivity.
Defined.

(** ** C10: the caption uploads *)

Section CaptionUploads.

Context `{Platform}.
Variable credentials : TenantCredentials.

Lemma insertCaption_sends (videoId : string) (caption : CaptionInsertInput.t)
  (net : Net) :
  exists rq,
    sent (snd (insertCaption credentials videoId caption net)) = (sent net ++ [rq])%list /\
    is_upload rq /\
    req_method rq = Some "POST" /\
    req_headers rq = upload_headers credentials.
Proof.
  eexists. unfold insertCaption, bind, fetch.
  destruct (upstream net) as [|response rest]; simpl.
  - split; [reflexivity|]. split; [split; [reflexivity | do 2 eexists; reflexivity]|]. split; reflexivity.
  - destruct (negb (ok response)); simpl;
      (split; [reflexivity|]); (split; [split; [reflexivity | do 2 eexists; reflexivity]|]);
      split; reflexivity.
Qed.

Lemma updateCaption_sends (captionId : string) (updates : CaptionUpdateInput.t)
  (net : Net) :
  given (CaptionUpdateInput.captionData updates) = true ->
  exists rq,
    sent (snd (updateCaption credentials captionId updates net)) = (sent net ++ [rq])%list /\
    is_upload rq /\
    req_method rq = Some "PUT" /\
    req_headers rq = upload_headers credentials.
Proof.
  intros Hdata. eexists. unfold updateCaption. rewrite Hdata. unfold bind, fetch.
  destruct (upstream net) as [|response rest]; simpl.
  - split; [reflexivity|]. split; [split; [reflexivity | do 2 eexists; reflexivity]|]. split; reflexivity.
  - destruct (negb (ok response)); simpl;
      (split; [reflexivity|]); (split; [split; [reflexivity | do 2 eexists; reflexivity]|]);
      split; reflexivity.
Qed.

Lemma insertCaption_throws (videoId : string) (caption : CaptionInsertInput.t)
  (net : Net) (e : YouTubeApiError) :
  fst (insertCaption credentials videoId caption net) = Throw (ThrownApi e) ->
  class e = IsYouTubeApiError.
Proof.
  unfold insertCaption, bind, fetch, throw, lift.
  destruct (upstream net) as [|response rest]; simpl; [discriminate|].
  destruct (negb (ok response)); simpl.
  - now intros [= <-].
  - intros Hparse. now apply JSON_parse_not_api in Hparse.
Qed.

Lemma updateCaption_throws (captionId : string) (updates : CaptionUpdateInput.t)
  (net : Net) (e : YouTubeApiError) :
  given (CaptionUpdateInput.captionData updates) = true ->
  fst (updateCaption credentials captionId updates net) = Throw (ThrownApi e) ->
  class e = IsYouTubeApiError.
Proof.
  intros Hdata. unfold updateCaption. rewrite Hdata.
  unfold bind, fetch, throw, lift.
  destruct (upstream net) as [|response rest]; simpl; [discriminate|].
  destruct (negb (ok response)); simpl.
  - now intros [= <-].
  - intros Hparse. now apply JSON_parse_not_api in Hparse.
Qed.

(** C10. With credentials that have no access token, [insertCaption], and
    [updateCaption] when it is given caption data, always send their
    multipart upload, with the header [Authorization: Bearer undefined];
    they never throw the authentication error (an error of the taxonomy
    they throw is the generic one made from the response). With no API key
    either, [request] would have thrown the authentication error with
    nothing sent. *)
Theorem caption_uploads_skip_authentication (videoId captionId : string)
  (caption : CaptionInsertInput.t) (updates : CaptionUpdateInput.t) (net : Net) :
  accessToken credentials = None ->
  given (CaptionUpdateInput.captionData updates) = true ->
  let inserted := insertCaption credentials videoId caption net in
  let updated := updateCaption credentials captionId updates net in
  (exists rq,
     sent (snd inserted) = (sent net ++ [rq])%list /\ is_upload rq /\
     req_method rq = Some "POST" /\
     req_headers rq = [("Authorization", VStr "Bearer undefined")]) /\
  (exists rq,
     sent (snd updated) = (sent net ++ [rq])%list /\ is_upload rq /\
     req_method rq = Some "PUT" /\
     req_headers rq = [("Authorization", VStr "Bearer undefined")]) /\
  (forall e, fst inserted = Throw (ThrownApi e) \/ fst updated = Throw (ThrownApi e) ->
             class e = IsYouTubeApiError /\ class e <> IsAuthenticationError) /\
  (given (apiKey credentials) = false ->
   forall endpoint options,
     exists e, request credentials endpoint options net = (Throw (ThrownApi e), net) /\
               class e = IsAuthenticationError).
Proof.
  intros Htoken Hdata inserted updated. subst inserted updated.
  assert (Hheaders : upload_headers credentials
                     = [("Authorization", VStr "Bearer undefined")])
    by (unfold upload_headers; now rewrite Htoken).
  rewrite <- Hheaders.
  split; [apply insertCaption_sends|].
  split; [now apply updateCaption_sends|].
  split.
  - intros e [Hthrown|Hthrown].
    + apply insertCaption_throws in Hthrown. rewrite Hthrown. split; [reflexivity | discriminate].
    + apply updateCaption_throws in Hthrown; [|exact Hdata].
      rewrite Hthrown. split; [reflexivity | discriminate].
  - intros Hkey endpoint options. eexists. split.
    + apply request_refused. unfold getAuthParams. rewrite Htoken, Hkey. reflexivity.
    + reflexivity.
Qed.

End CaptionUploads.

Lemma caption_uploads_skip_authentication_witness :
  map req_headers
    (sent (snd (insertCaption (H := Demo.platform) Demo.key_only "v1" Demo.subtitles
                  (Demo.idle [Demo.respond_with 401 "Unauthorized"]))))
  = [ [("Authorization", VStr "Bearer undefined")] ].
Proof.
  destruct (@caption_uploads_skip_authentication Demo.platform Demo.key_only
              "v1" "c1" Demo.subtitles Demo.new_subtitles
              (Demo.idle [Demo.respond_with 401 "Unauthorized"]) eq_refl eq_refl)
    as ((rq & Hsent & _ & _ & Hheaders) & _).
  rewrite Hsent, <- Hheaders. reflexivity.
Defined.

(** ** C2: the update operations *)

Section UpdateProperties.

Context `{Platform}.
Variable credentials : TenantCredentials.

Lemma getVideo_found (videoId : string) parts net authParams response rest v
  current others :
  getAuthParams credentials = Ok authParams ->
  upstream net = response :: rest ->
  answers_with response v ->
  ListResponse.items (as_list_response v) = Some (current :: others) ->
  getVideo credentials videoId (Some parts) net
  = (Ok current,
     {| upstream := rest;
        sent := sent net ++
                [request_sent credentials authParams "/videos"
                   (get_params [("part", VStr (join "," parts));
                                ("id", VStr (join "," [videoId]))])] |}).
Proof.
  intros Hauth Hup Hans Hitems. unfold getVideo, listVideos.
  unfold bind at 1. rewrite (list_request _ _ _ _ _ _ _ _ _ Hauth Hup Hans).
  unfold ret, toPaginatedResponse. cbn [items]. rewrite Hitems. reflexivity.
Qed.

Lemma getPlaylist_found (playlistId : string) parts net authParams response rest v
  current others :
  getAuthParams credentials = Ok authParams ->
  upstream net = response :: rest ->
  answers_with response v ->
  ListResponse.items (as_list_response v) = Some (current :: others) ->
  getPlaylist credentials playlistId (Some parts) net
  = (Ok current,
     {| upstream := rest;
        sent := sent net ++
                [request_sent credentials authParams "/playlists"
                   (get_params [("part", VStr (join "," parts));
                                ("id", VStr playlistId)])] |}).
Proof.
  intros Hauth Hup Hans Hitems. unfold getPlaylist.
  rewrite (list_request _ _ _ _ _ _ _ _ _ Hauth Hup Hans).
  unfold no_items. rewrite Hitems. reflexivity.
Qed.

Lemma updateVideo_body_fields (videoId : string) (updates : VideoUpdateInput.t)
  (current : jsval) :
  video_fields_merged updates current (updateVideo_body videoId updates current).
Proof.
  destruct updates as [title description tags categoryId privacy embeddable stats kids
                         language].
  unfold video_fields_merged, updateVideo_body;
    cbn [VideoUpdateInput.title VideoUpdateInput.description
    VideoUpdateInput.tags VideoUpdateInput.categoryId VideoUpdateInput.privacyStatus
    VideoUpdateInput.embeddable VideoUpdateInput.publicStatsViewable
    VideoUpdateInput.madeForKids VideoUpdateInput.defaultLanguage].
  destruct title, description, tags, categoryId, language;
    destruct privacy as [[]|], embeddable, stats, kids;
    cbn; repeat split.
Qed.

Lemma updatePlaylist_body_fields (playlistId : string) (updates : PlaylistUpdateInput.t)
  (current : jsval) :
  playlist_fields_merged updates current
    (updatePlaylist_body playlistId updates current).
Proof.
  destruct updates as [title description privacy language].
  destruct title, description, language; destruct privacy as [[]|];
    cbn; repeat split.
Qed.

(** C2, amended. When upstream answers the first request with a list whose
    first item is [current], [updateVideo] and [updatePlaylist] send two
    requests, the fetch of the current state and then a PUT whose body
    carries, field by field, the caller's value when supplied and the
    fetched one when omitted: for a playlist its title, description,
    default language and privacy status; for a video its title,
    description, tags, category and default language, and its four status
    fields when the caller supplies at least one of them, the body having
    no status otherwise. *)
Theorem update_merges_fetched_state (id : string)
  (video_updates : VideoUpdateInput.t) (playlist_updates : PlaylistUpdateInput.t)
  (net : Net) authParams response rest v current others :
  getAuthParams credentials = Ok authParams ->
  upstream net = response :: rest ->
  answers_with response v ->
  ListResponse.items (as_list_response v) = Some (current :: others) ->
  let video_body := updateVideo_body id video_updates current in
  let playlist_body := updatePlaylist_body id playlist_updates current in
  let sends endpoint options := request_sent credentials authParams endpoint options in
  (sent (snd (updateVideo credentials id video_updates net))
   = (sent net
      ++ [ sends "/videos" (get_params [("part", VStr "snippet,status"); ("id", VStr id)]);
           sends "/videos" (put_json [("part", VStr "snippet,status")] video_body) ])%list /\
   req_body (sends "/videos" (put_json [("part", VStr "snippet,status")] video_body))
   = Some (TextBody (JSON_stringify video_body)) /\
   video_fields_merged video_updates current video_body) /\
  (sent (snd (updatePlaylist credentials id playlist_updates net))
   = (sent net
      ++ [ sends "/playlists"
             (get_params [("part", VStr "snippet,status"); ("id", VStr id)]);
           sends "/playlists"
             (put_json [("part", VStr "snippet,status")] playlist_body) ])%list /\
   req_body (sends "/playlists" (put_json [("part", VStr "snippet,status")] playlist_body))
   = Some (TextBody (JSON_stringify playlist_body)) /\
   playlist_fields_merged playlist_updates current playlist_body).
Proof.
  intros Hauth Hup Hans Hitems video_body playlist_body sends.
  subst video_body playlist_body sends. split; split.
  - unfold updateVideo. unfold bind at 1.
    rewrite (getVideo_found _ _ _ _ _ _ _ _ _ Hauth Hup Hans Hitems).
    rewrite (request_sends _ _ _ _ _ Hauth). cbn [sent].
    rewrite <- app_assoc. reflexivity.
  - split; [reflexivity | apply updateVideo_body_fields].
  - unfold updatePlaylist. unfold bind at 1.
    rewrite (getPlaylist_found _ _ _ _ _ _ _ _ _ Hauth Hup Hans Hitems).
    rewrite (request_sends _ _ _ _ _ Hauth). cbn [sent].
    rewrite <- app_assoc. reflexivity.
  - split; [reflexivity | apply updatePlaylist_body_fields].
Qed.

End UpdateProperties.

(** C2, as stated, at an update that supplies no field. The video fetched
    has a privacy status and the body [updateVideo] sends has no status at
    all, so the omitted field does not carry the fetched value;
    [updateChannel] sends its PUT without any fetch before it. *)
Lemma update_round_trip_counterexample :
  opt (opt Demo.video "status") "privacyStatus" = VStr "public" /\
  opt (opt (updateVideo_body "v1" Demo.no_video_updates Demo.video) "status")
    "privacyStatus" = VUndef /\
  map req_body
    (sent (snd (updateVideo (H := Demo.platform) Demo.oauth "v1" Demo.no_video_updates
                  Demo.lists_video)))
  = [ None;
      Some (TextBody (Demo.stringify
        (VObj [ ("id", VStr "v1");
                ("snippet", VObj [ ("title", VStr "First upload");
                                   ("description", VStr "Hello");
                                   ("categoryId", VStr "22") ]) ]))) ] /\
  map req_method
    (sent (snd (updateChannel (H := Demo.platform) Demo.oauth "c1" Demo.no_channel_updates
                  Demo.lists_video)))
  = [ Some "PUT" ].
Proof. repeat split. Qed.

Lemma update_merges_fetched_state_witness :
  map req_method
    (sent (snd (updatePlaylist (H := Demo.platform) Demo.oauth "p1" (Demo.retitle "Top ten")
                  (Demo.idle [ Demo.respond_with 200
                                 (Demo.stringify (Demo.list_of [Demo.playlist])) ]))))
  = [ None; Some "PUT" ] /\
  opt (opt (updatePlaylist_body "p1" (Demo.retitle "Top ten") Demo.playlist) "snippet")
    "title" = VStr "Top ten" /\
  opt (opt (updatePlaylist_body "p1" (Demo.retitle "Top ten") Demo.playlist) "snippet")
    "description" = VStr "Best of".
Proof.
  assert (Hans : answers_with (H := Demo.platform)
                   (Demo.respond_with 200 (Demo.stringify (Demo.list_of [Demo.playlist])))
                   (Demo.list_of [Demo.playlist]))
    by (repeat split; discriminate).
  destruct (@update_merges_fetched_state Demo.platform Demo.oauth "p1"
              Demo.no_video_updates (Demo.retitle "Top ten")
              (Demo.idle [ Demo.respond_with 200
                             (Demo.stringify (Demo.list_of [Demo.playlist])) ])
              [] _ [] _ Demo.playlist [] eq_refl eq_refl Hans eq_refl)
    as (_ & Hsent & _ & Htitle & Hdescription & _).
  split; [rewrite Hsent; reflexivity|].
  split; [exact Htitle | exact Hdescription].
Defined.

(* ================================================================== *)
(** * Further properties of the code *)
(* ================================================================== *)

(** ** Credentials and settings *)

Lemma getAuthParams_validated (credentials : TenantCredentials) :
  validateCredentials credentials = Ok tt ->
  exists authParams, getAuthParams credentials = Ok authParams.
Proof.
  unfold validateCredentials, getAuthParams.
  destruct (given (accessToken credentials)), (given (apiKey credentials));
    simpl; intros Hv; try discriminate; eauto.
Qed.

Lemma getAuthParams_unvalidated (credentials : TenantCredentials) :
  validateCredentials credentials <> Ok tt ->
  exists e, getAuthParams credentials = Throw (ThrownApi e) /\
            class e = IsAuthenticationError.
Proof.
  unfold validateCredentials, getAuthParams.
  destruct (given (accessToken credentials)), (given (apiKey credentials));
    simpl; intros Hv; try (now elim Hv). eexists; split; reflexivity.
Qed.

(** X1. The validator and the request helper agree on what credentials
    are: with credentials [validateCredentials] accepts, [request] never
    stops at authentication and sends its request; with credentials it
    rejects, [request] throws the authentication error and sends nothing. *)
Theorem validated_credentials_authenticate `{Platform}
  (credentials : TenantCredentials) (endpoint : string) (options : RequestOptions)
  (net : Net) :
  (validateCredentials credentials = Ok tt ->
   exists authParams,
     getAuthParams credentials = Ok authParams /\
     sent (snd (request credentials endpoint options net))
     = (sent net ++ [request_sent credentials authParams endpoint options])%list) /\
  (validateCredentials credentials <> Ok tt ->
   exists e,
     request credentials endpoint options net = (Throw (ThrownApi e), net) /\
     class e = IsAuthenticationError).
Proof.
  split; intros Hv.
  - destruct (getAuthParams_validated _ Hv) as [authParams Hauth].
    exists authParams. split; [exact Hauth | now apply request_sends].
  - destruct (getAuthParams_unvalidated _ Hv) as (e & Hauth & Hclass).
    exists e. split; [now apply request_refused | exact Hclass].
Qed.

Lemma validated_credentials_authenticate_witness :
  List.length
    (sent (snd (request (H := Demo.platform) Demo.key_only "/videos" no_options
                  (Demo.idle [])))) = 1%nat /\
  exists e,
    request (H := Demo.platform) Demo.anonymous "/videos" no_options (Demo.idle [])
    = (Throw (ThrownApi e), Demo.idle []) /\
    class e = IsAuthenticationError.
Proof.
  destruct (@validated_credentials_authenticate Demo.platform Demo.key_only "/videos"
              no_options (Demo.idle [])) as [Hsends _].
  destruct (@validated_credentials_authenticate Demo.platform Demo.anonymous "/videos"
              no_options (Demo.idle [])) as [_ Hrefused].
  destruct (Hsends eq_refl) as (authParams & _ & Hsent).
  destruct Hrefused as (e & Hrun & Hclass); [discriminate|].
  split; [rewrite Hsent; reflexivity|].
  exists e. split; [exact Hrun | exact Hclass].
Defined.

(** X2. Credentials resolved from request headers pass the validator
    exactly when one of the two headers is there and not empty; a resolved
    field is never the empty string, and a non-empty header is kept as it
    is. *)
Theorem resolved_credentials_validated (get : string -> option string) :
  (validateCredentials (parseTenantCredentials get) = Ok tt <->
   given (get "X-YouTube-Access-Token") = true \/
   given (get "X-YouTube-API-Key") = true) /\
  accessToken (parseTenantCredentials get) <> Some EmptyString /\
  apiKey (parseTenantCredentials get) <> Some EmptyString /\
  (forall token, token <> EmptyString ->
     get "X-YouTube-Access-Token" = Some token ->
     accessToken (parseTenantCredentials get) = Some token) /\
  (forall key, key <> EmptyString ->
     get "X-YouTube-API-Key" = Some key ->
     apiKey (parseTenantCredentials get) = Some key).
Proof.
  unfold validateCredentials, parseTenantCredentials, or_undefined; simpl.
  destruct (get "X-YouTube-Access-Token") as [[|c s]|];
    destruct (get "X-YouTube-API-Key") as [[|d t]|]; simpl;
    repeat split; try discriminate; try tauto; try (intros [|]; discriminate);
    try (intros ? Hne [= <-]; try reflexivity; now elim Hne);
    try (intros ? ? [=]).
Qed.

Lemma resolved_credentials_validated_witness :
  accessToken
    (parseTenantCredentials
       (fun h => if String.eqb h "X-YouTube-Access-Token" then Some "ya29.token"
                 else Some EmptyString))
  = Some "ya29.token" /\
  apiKey
    (parseTenantCredentials
       (fun h => if String.eqb h "X-YouTube-Access-Token" then Some "ya29.token"
                 else Some EmptyString))
  = None.
Proof.
  destruct (resolved_credentials_validated
              (fun h => if String.eqb h "X-YouTube-Access-Token" then Some "ya29.token"
                        else Some EmptyString))
    as (_ & _ & _ & Htoken & _).
  split; [apply Htoken; [discriminate | reflexivity] | reflexivity].
Defined.

(** X3. A numeric setting is always a number: [getEnvNumber] with a numeric
    default never returns [NaN]; it returns the default when the variable is
    not a string (unset, or a binding) and when its text does not start with
    a number. *)
Theorem getEnvNumber_is_a_number (env : Env.t) (key : Env.key) (d : Z) :
  (exists n, getEnvNumber env key (Int d) = Int n) /\
  ((forall s, Env.get env key <> VStr s) -> getEnvNumber env key (Int d) = Int d) /\
  (forall s, Env.get env key = VStr s -> parseInt10 s = NaN ->
             getEnvNumber env key (Int d) = Int d) /\
  (forall s n, Env.get env key = VStr s -> parseInt10 s = Int n ->
               getEnvNumber env key (Int d) = Int n).
Proof.
  unfold getEnvNumber. repeat split.
  - destruct (Env.get env key); eauto. destruct (parseInt10 s); eauto.
  - intros Hnot. destruct (Env.get env key); try reflexivity. now elim (Hnot s).
  - intros s -> ->. reflexivity.
  - intros s n -> ->. reflexivity.
Qed.

Lemma getEnvNumber_is_a_number_witness :
  getMaxPageSize (Env.mk VUndef VUndef (VStr "100") VUndef VUndef) = Int 100 /\
  getDefaultPageSize (Env.mk VUndef (VStr "many") (VStr "100") VUndef VUndef) = Int 25 /\
  getCharacterLimit (Env.mk VUndef (VStr "many") (VStr "100") VUndef VUndef) = Int 50000.
Proof.
  destruct (getEnvNumber_is_a_number
              (Env.mk VUndef (VStr "many") (VStr "100") VUndef VUndef)
              Env.max_page_size 50) as (_ & _ & _ & Hparsed).
  destruct (getEnvNumber_is_a_number
              (Env.mk VUndef (VStr "many") (VStr "100") VUndef VUndef)
              Env.default_page_size 25) as (_ & _ & Hnan & _).
  destruct (getEnvNumber_is_a_number
              (Env.mk VUndef (VStr "many") (VStr "100") VUndef VUndef)
              Env.character_limit 50000) as (_ & Hunset & _).
  split; [exact (Hparsed "100" 100 eq_refl eq_refl)|].
  split; [exact (Hnan "many" eq_refl eq_refl)|].
  apply Hunset. intros s. discriminate.
Defined.

(** ** The query of a request *)

Lemma filteredParams_In (allParams : list (string * jsval)) (k s : string) :
  In (k, s) (filteredParams allParams) <->
  exists v, In (k, v) allParams /\ v <> VUndef /\ s = ToString v.
Proof.
  unfold filteredParams. rewrite in_map_iff. split.
  - intros ([k' v] & Heq & Hin). apply filter_In in Hin. destruct Hin as [Hin Hdef].
    simpl in *. injection Heq as <- <-. exists v. repeat split; try assumption.
    intros ->. discriminate.
  - intros (v & Hin & Hdef & ->). exists (k, v). split; [reflexivity|].
    apply filter_In. split; [exact Hin|]. simpl. destruct v; try reflexivity. now elim Hdef.
Qed.

(** X4. The query [request] hands to [URLSearchParams] has an entry for
    exactly the parameters whose value is not [undefined], each converted
    with [String]; [null] is not left out, nor is [false] or [0], and the
    order of the parameters is kept. *)
Theorem query_omits_undefined (allParams : list (string * jsval)) :
  (forall k s, In (k, s) (filteredParams allParams) <->
               exists v, In (k, v) allParams /\ v <> VUndef /\ s = ToString v) /\
  map fst (filteredParams allParams)
  = map fst (filter (fun kv => negb (match snd kv with VUndef => true | _ => false end))
               allParams) /\
  (forall k, filteredParams [ (k, VNull); (k, VBool false); (k, VNum (Int 0)); (k, VUndef) ]
             = [ (k, "null"); (k, "false"); (k, "0") ]).
Proof.
  split; [intros k s; apply filteredParams_In|]. split; [|reflexivity].
  unfold filteredParams. rewrite map_map. simpl.
  induction allParams as [|[k v] rest IH]; [reflexivity|].
  simpl. destruct v; simpl; rewrite ?IH; try reflexivity.
Qed.

(** ** Truncation *)

Lemma substring_negative_end (s : string) (n : Z) : n <= 0 -> substring s 0 n = EmptyString.
Proof.
  intros Hn. unfold substring, clamp_index.
  replace (Z.min (Z.max 0 0) (Z.of_nat (String.length s))) with 0 by lia.
  replace (Z.min (Z.max n 0) (Z.of_nat (String.length s))) with 0 by lia.
  reflexivity.
Qed.

Lemma truncate_long (str : string) (maxLength : Z) :
  3 <= maxLength -> maxLength < Z.of_nat (String.length str) ->
  truncate str maxLength = take (Z.to_nat (maxLength - 3)) str +++ "..." /\
  Z.of_nat (String.length (truncate str maxLength)) = maxLength.
Proof.
  intros Hmax Hlen. unfold truncate.
  assert (Hgt : (Z.of_nat (String.length str) <=? maxLength) = false)
    by (apply Z.leb_gt; lia).
  rewrite Hgt, substring_from_start by lia. split; [reflexivity|].
  rewrite length_append, length_take by lia. simpl. lia.
Qed.

(** X5. [truncate] never returns more than [max(maxLength, 3)] code units
    and, with room for the ellipsis, truncating twice is truncating once.
    Below 3 the budget is not kept: a longer string becomes ["..."]
    whatever the maximum. *)
Theorem truncate_bounded_idempotent (str : string) (maxLength : Z) :
  Z.of_nat (String.length (truncate str maxLength)) <= Z.max maxLength 3 /\
  (3 <= maxLength ->
   truncate (truncate str maxLength) maxLength = truncate str maxLength) /\
  (maxLength < 3 -> maxLength < Z.of_nat (String.length str) ->
   truncate str maxLength = "...").
Proof.
  assert (Hsmall : maxLength < 3 -> maxLength < Z.of_nat (String.length str) ->
                   truncate str maxLength = "...").
  { intros Hmax Hlen. unfold truncate.
    assert (Hgt : (Z.of_nat (String.length str) <=? maxLength) = false)
      by (apply Z.leb_gt; lia).
    rewrite Hgt, substring_negative_end by lia. reflexivity. }
  destruct (Z_le_gt_dec (Z.of_nat (String.length str)) maxLength) as [Hfits|Hlong].
  - assert (Hsame : truncate str maxLength = str).
    { unfold truncate. apply Z.leb_le in Hfits. now rewrite Hfits. }
    rewrite Hsame. repeat split; try lia. intros _. exact Hsame.
  - destruct (Z_le_gt_dec 3 maxLength) as [Hroom|Hnone].
    + destruct (truncate_long str maxLength Hroom) as [_ Hlen]; [lia|].
      repeat split; try lia.
      intros _. unfold truncate at 1.
      assert (Hle : (Z.of_nat (String.length (truncate str maxLength)) <=? maxLength) = true)
        by (apply Z.leb_le; lia).
      now rewrite Hle.
    + rewrite Hsmall by lia. repeat split; try lia. simpl. lia.
Qed.

Lemma truncate_bounded_idempotent_witness :
  truncate (truncate "The quick brown fox jumps over the lazy dog" 10) 10
  = truncate "The quick brown fox jumps over the lazy dog" 10 /\
  truncate "title" 2 = "...".
Proof.
  destruct (truncate_bounded_idempotent
              "The quick brown fox jumps over the lazy dog" 10) as (_ & Hidem & _).
  destruct (truncate_bounded_idempotent "title" 2) as (_ & _ & Hsmall).
  split; [apply Hidem; lia | apply Hsmall; simpl; lia].
Defined.

(** ** Effects of the operations *)

Section OperationEffects.

Context `{Platform}.
Variable credentials : TenantCredentials.

(** A list operation touches the network through its one [request]. *)
Lemma list_operation_net {A : Type} (endpoint : string) (options : RequestOptions)
  (k : ListResponse.t jsval -> outcome A) (net : Net) :
  snd ((response <- request credentials endpoint options ;;
        list <- lift (read_list response) ;;
        lift (k list)) net)
  = snd (request credentials endpoint options net).
Proof.
  unfold bind, lift. destruct (request credentials endpoint options net) as [[v|e] net'];
    [|reflexivity].
  simpl. destruct (read_list v); reflexivity.
Qed.

Lemma request_sends_at_most_one (endpoint : string) (options : RequestOptions)
  (net : Net) :
  exists new, sent (snd (request credentials endpoint options net)) = (sent net ++ new)%list /\
              (List.length new <= 1)%nat.
Proof.
  destruct (getAuthParams credentials) as [authParams|e] eqn:Hauth.
  - eexists. split; [exact (request_sends _ _ _ _ _ Hauth) | simpl; lia].
  - exists []. rewrite (request_refused _ _ _ _ _ Hauth). simpl.
    rewrite app_nil_r. split; [reflexivity | lia].
Qed.

(** X6. [testConnection] never throws. It probes [/channels] with an access
    token and [/videoCategories] without, sends one request at most, and
    reports [connected] exactly when the probe returned; otherwise its
    message is the message of what the probe threw. *)
Theorem testConnection_never_throws (net : Net) :
  let probe :=
    if given (accessToken credentials)
    then request credentials "/channels"
           (get_params [ ("part", VStr "id"); ("mine", VBool true) ])
    else request credentials "/videoCategories"
           (get_params [ ("part", VStr "snippet"); ("regionCode", VStr "US") ]) in
  exists result,
    testConnection credentials net = (Ok result, snd (probe net)) /\
    (ConnectionStatus.connected result = true <-> exists v, fst (probe net) = Ok v) /\
    (forall error, fst (probe net) = Throw error ->
       ConnectionStatus.connected result = false /\
       ConnectionStatus.message result = message_or error "Connection failed") /\
    exists new, sent (snd (probe net)) = (sent net ++ new)%list /\
                (List.length new <= 1)%nat.
Proof.
  intros probe.
  assert (Hshape :
    exists result,
      testConnection credentials net = (Ok result, snd (probe net)) /\
      match fst (probe net) with
      | Ok _ => ConnectionStatus.connected result = true
      | Throw error =>
          ConnectionStatus.connected result = false /\
          ConnectionStatus.message result = message_or error "Connection failed"
      end).
  { subst probe. unfold testConnection, try_catch, bind, ret.
    destruct (given (accessToken credentials));
      match goal with
      | |- context [request ?c ?e ?o net] =>
          destruct (request c e o net) as [[v|e0] net']
      end;
      eexists; (split; [reflexivity|]); simpl; auto. }
  destruct Hshape as (result & Hrun & Hres). exists result.
  split; [exact Hrun|]. split; [|split].
  - destruct (fst (probe net)) as [v|e]; split.
    + eauto.
    + intros _. exact Hres.
    + intros Hc. destruct Hres as [Hf _]. congruence.
    + intros (v & [=]).
  - intros error Herr. rewrite Herr in Hres. exact Hres.
  - subst probe. destruct (given (accessToken credentials));
      apply request_sends_at_most_one.
Qed.

End OperationEffects.

Lemma testConnection_never_throws_witness :
  fst (testConnection (H := Demo.platform) Demo.key_only
         (Demo.idle [Demo.respond_with 403 "quotaExceeded"]))
  = Ok {| ConnectionStatus.connected := false;
          ConnectionStatus.message := "YouTube API quota exceeded." |}.
Proof.
  destruct (@testConnection_never_throws Demo.platform Demo.key_only
              (Demo.idle [Demo.respond_with 403 "quotaExceeded"]))
    as (result & Hrun & _ & Hfailed & _).
  destruct (Hfailed (ThrownApi (QuotaExceededError "YouTube API quota exceeded.")) eq_refl)
    as [Hconnected Hmessage].
  rewrite Hrun. simpl. destruct result as [connected message]. simpl in *.
  now rewrite Hconnected, Hmessage.
Defined.

Section ResponseEdges.

Context `{Platform}.
Variable credentials : TenantCredentials.

Lemma respond_no_content (response : HttpResponse) :
  status response = 204 -> respond response = Ok VUndef.
Proof. intros H204. unfold respond, ok. now rewrite H204. Qed.

Lemma list_request_no_content (endpoint : string) (options : RequestOptions)
  (net : Net) authParams response rest {A : Type}
  (k : ListResponse.t jsval -> Async A) :
  getAuthParams credentials = Ok authParams ->
  upstream net = response :: rest ->
  status response = 204 ->
  fst ((response <- request credentials endpoint options ;;
        list <- lift (read_list response) ;;
        k list) net)
  = Throw (TypeError "Cannot read properties of undefined (reading 'items')").
Proof.
  intros Hauth Hup H204. unfold bind at 1.
  rewrite (request_answered _ _ _ _ _ _ _ Hauth Hup), (respond_no_content _ H204).
  reflexivity.
Qed.

(** X7. A 204 answer breaks the operations that read a list: [request]
    returns [undefined] for it and reading [items] then throws a
    [TypeError], so they do not return an empty page; [deleteVideo], which
    ignores what [request] returns, succeeds. *)
Theorem no_content_breaks_list_operations (id : string) (parts : option (list string))
  (net : Net) authParams response rest :
  getAuthParams credentials = Ok authParams ->
  upstream net = response :: rest ->
  status response = 204 ->
  throws_TypeError (fst (listVideos credentials [id] parts net)) /\
  throws_TypeError (fst (getVideo credentials id parts net)) /\
  throws_TypeError (fst (listChannels credentials [id] parts net)) /\
  throws_TypeError (fst (getPlaylist credentials id parts net)) /\
  throws_TypeError (fst (getCommentThread credentials id parts net)) /\
  throws_TypeError (fst (getMyChannel credentials parts net)) /\
  throws_TypeError (fst (listCaptions credentials id parts net)) /\
  throws_TypeError (fst (getVideoRating credentials [id] net)) /\
  fst (deleteVideo credentials id net) = Ok tt.
Proof.
  intros Hauth Hup H204. unfold throws_TypeError.
  repeat match goal with |- _ /\ _ => split end.
  - eexists. unfold listVideos.
    now rewrite (list_request_no_content _ _ _ _ _ _ _ Hauth Hup H204).
  - eexists. unfold getVideo, listVideos. unfold bind at 1.
    destruct ((response0 <- request credentials "/videos" _ ;; _) net) as [o net'] eqn:Hrun.
    apply (f_equal fst) in Hrun.
    rewrite (list_request_no_content _ _ _ _ _ _ _ Hauth Hup H204) in Hrun.
    simpl in Hrun. subst o. reflexivity.
  - eexists. unfold listChannels.
    now rewrite (list_request_no_content _ _ _ _ _ _ _ Hauth Hup H204).
  - eexists. unfold getPlaylist.
    now rewrite (list_request_no_content _ _ _ _ _ _ _ Hauth Hup H204).
  - eexists. unfold getCommentThread.
    now rewrite (list_request_no_content _ _ _ _ _ _ _ Hauth Hup H204).
  - eexists. unfold getMyChannel.
    now rewrite (list_request_no_content _ _ _ _ _ _ _ Hauth Hup H204).
  - eexists. unfold listCaptions.
    now rewrite (list_request_no_content _ _ _ _ _ _ _ Hauth Hup H204).
  - eexists. unfold getVideoRating.
    now rewrite (list_request_no_content _ _ _ _ _ _ _ Hauth Hup H204).
  - unfold deleteVideo, bind.
    rewrite (request_answered _ _ _ _ _ _ _ Hauth Hup), (respond_no_content _ H204).
    reflexivity.
Qed.

End ResponseEdges.

Lemma no_content_breaks_list_operations_witness :
  fst (listCaptions (H := Demo.platform) Demo.oauth "v1" None
         (Demo.idle [Demo.respond_with 204 EmptyString]))
  = Throw (TypeError "Cannot read properties of undefined (reading 'items')") /\
  fst (deleteVideo (H := Demo.platform) Demo.oauth "v1"
         (Demo.idle [Demo.respond_with 204 EmptyString]))
  = Ok tt.
Proof.
  destruct (@no_content_breaks_list_operations Demo.platform Demo.oauth "v1" None
              (Demo.idle [Demo.respond_with 204 EmptyString]) [] _ []
              eq_refl eq_refl eq_refl)
    as (_ & _ & _ & _ & _ & _ & (message & Hcaptions) & _ & Hdelete).
  split; [|exact Hdelete].
  rewrite Hcaptions. revert Hcaptions. simpl. intros [= <-]. reflexivity.
Defined.

(** ** Read-then-write updates *)

Section UpdateSteps.

Context `{Platform}.
Variable credentials : TenantCredentials.

Lemma getVideo_net (videoId : string) (parts : list string) (net : Net) :
  snd (getVideo credentials videoId (Some parts) net)
  = snd (request credentials "/videos"
           (get_params [ ("part", VStr (join "," parts));
                         ("id", VStr (join "," [videoId])) ]) net).
Proof.
  unfold getVideo, listVideos, bind, lift, ret, throw. simpl.
  destruct (request credentials "/videos" _ net) as [[v|e] net']; [|reflexivity].
  simpl. destruct (read_list v) as [list|e]; [|reflexivity].
  simpl. destruct (Nat.eqb _ 0); reflexivity.
Qed.

Lemma getPlaylist_net (playlistId : string) (parts : list string) (net : Net) :
  snd (getPlaylist credentials playlistId (Some parts) net)
  = snd (request credentials "/playlists"
           (get_params [ ("part", VStr (join "," parts));
                         ("id", VStr playlistId) ]) net).
Proof.
  unfold getPlaylist, bind, lift, ret, throw. simpl.
  destruct (request credentials "/playlists" _ net) as [[v|e] net']; [|reflexivity].
  simpl. destruct (read_list v) as [list|e]; [|reflexivity].
  simpl. destruct (no_items list); reflexivity.
Qed.

(** X8. An update whose read fails stops there: when the fetch of the
    current state throws (authentication, an error status, no such
    resource), [updateVideo] and [updatePlaylist] throw the same error and
    the network has seen the one read request at most; no PUT is sent. *)
Theorem update_stops_after_failed_read (id : string)
  (video_updates : VideoUpdateInput.t) (playlist_updates : PlaylistUpdateInput.t)
  (net : Net) :
  (forall e,
     fst (getVideo credentials id (Some ["snippet"; "status"]) net) = Throw e ->
     updateVideo credentials id video_updates net
     = (Throw e,
        snd (request credentials "/videos"
               (get_params [ ("part", VStr "snippet,status"); ("id", VStr id) ]) net))) /\
  (forall e,
     fst (getPlaylist credentials id (Some ["snippet"; "status"]) net) = Throw e ->
     updatePlaylist credentials id playlist_updates net
     = (Throw e,
        snd (request credentials "/playlists"
               (get_params [ ("part", VStr "snippet,status"); ("id", VStr id) ]) net))).
Proof.
  split; intros e Hread.
  - unfold updateVideo, bind.
    pose proof (getVideo_net id ["snippet"; "status"] net) as Hnet.
    destruct (getVideo credentials id (Some ["snippet"; "status"]) net) as [o net'].
    simpl in Hread, Hnet. subst o net'. reflexivity.
  - unfold updatePlaylist, bind.
    pose proof (getPlaylist_net id ["snippet"; "status"] net) as Hnet.
    destruct (getPlaylist credentials id (Some ["snippet"; "status"]) net) as [o net'].
    simpl in Hread, Hnet. subst o net'. reflexivity.
Qed.

(** X9. An update whose read succeeds gives the outcome of its write and
    nothing of what it read: the result of [updateVideo] and of
    [updatePlaylist] is what [request] makes of the response to the PUT, an
    error of the write included, and both responses are used up. *)
Theorem update_surfaces_the_write (id : string)
  (video_updates : VideoUpdateInput.t) (playlist_updates : PlaylistUpdateInput.t)
  (net : Net) authParams response written rest v current others :
  getAuthParams credentials = Ok authParams ->
  upstream net = response :: written :: rest ->
  answers_with response v ->
  ListResponse.items (as_list_response v) = Some (current :: others) ->
  fst (updateVideo credentials id video_updates net) = respond written /\
  fst (updatePlaylist credentials id playlist_updates net) = respond written /\
  upstream (snd (updateVideo credentials id video_updates net)) = rest /\
  upstream (snd (updatePlaylist credentials id playlist_updates net)) = rest.
Proof.
  intros Hauth Hup Hans Hitems.
  assert (Hvideo : exists options net',
            updateVideo credentials id video_updates net
            = request credentials "/videos" options net' /\
            upstream net' = written :: rest).
  { do 2 eexists. unfold updateVideo. unfold bind at 1.
    rewrite (getVideo_found _ _ _ _ _ _ _ _ _ _ Hauth Hup Hans Hitems).
    split; reflexivity. }
  assert (Hplaylist : exists options net',
            updatePlaylist credentials id playlist_updates net
            = request credentials "/playlists" options net' /\
            upstream net' = written :: rest).
  { do 2 eexists. unfold updatePlaylist. unfold bind at 1.
    rewrite (getPlaylist_found _ _ _ _ _ _ _ _ _ _ Hauth Hup Hans Hitems).
    split; reflexivity. }
  destruct Hvideo as (vo & vnet & -> & Hvrest).
  destruct Hplaylist as (po & pnet & -> & Hprest).
  rewrite (request_answered _ _ _ _ _ _ _ Hauth Hvrest).
  rewrite (request_answered _ _ _ _ _ _ _ Hauth Hprest).
  repeat split.
Qed.

(** X10. [updateCaption] without caption data ([undefined] or the empty
    string) is an ordinary authenticated call: it is the JSON PUT of
    [{ id }], with [snippet.isDraft] when a draft flag is given, through
    [request]; with no credentials it throws the authentication error and
    sends nothing, where the upload path would have sent. *)
Theorem updateCaption_metadata_only (captionId : string)
  (updates : CaptionUpdateInput.t) (net : Net) :
  given (CaptionUpdateInput.captionData updates) = false ->
  let metadata :=
    VObj (( "id", VStr captionId)
          :: match CaptionUpdateInput.isDraft updates with
             | Some isDraft => [ ("snippet", VObj [ ("isDraft", VBool isDraft) ]) ]
             | None => []
             end) in
  updateCaption credentials captionId updates net
  = request credentials "/captions" (put_json [ ("part", VStr "snippet") ] metadata) net /\
  (validateCredentials credentials <> Ok tt ->
   exists e, updateCaption credentials captionId updates net = (Throw (ThrownApi e), net) /\
             class e = IsAuthenticationError).
Proof.
  intros Hdata metadata. subst metadata.
  assert (Hrun : updateCaption credentials captionId updates net
                 = request credentials "/captions"
                     (put_json [ ("part", VStr "snippet") ]
                        (VObj (( "id", VStr captionId)
                               :: match CaptionUpdateInput.isDraft updates with
                                  | Some isDraft =>
                                      [ ("snippet", VObj [ ("isDraft", VBool isDraft) ]) ]
                                  | None => []
                                  end))) net).
  { unfold updateCaption. rewrite Hdata.
    destruct (CaptionUpdateInput.isDraft updates); reflexivity. }
  split; [exact Hrun|].
  intros Hv. destruct (getAuthParams_unvalidated _ Hv) as (e & Hauth & Hclass).
  exists e. split; [|exact Hclass]. rewrite Hrun. now apply request_refused.
Qed.

End UpdateSteps.

Lemma update_stops_after_failed_read_witness :
  map req_method
    (sent (snd (updateVideo (H := Demo.platform) Demo.oauth "v404" Demo.no_video_updates
                  (Demo.idle [ Demo.respond_with 200 (Demo.stringify (Demo.list_of []));
                               Demo.respond_with 200 "{}" ]))))
  = [ None ] /\
  fst (updateVideo (H := Demo.platform) Demo.oauth "v404" Demo.no_video_updates
         (Demo.idle [ Demo.respond_with 200 (Demo.stringify (Demo.list_of []));
                      Demo.respond_with 200 "{}" ]))
  = Throw (ThrownApi (NotFoundError "Video" "v404")).
Proof.
  destruct (@update_stops_after_failed_read Demo.platform Demo.oauth "v404"
              Demo.no_video_updates (Demo.retitle "x")
              (Demo.idle [ Demo.respond_with 200 (Demo.stringify (Demo.list_of []));
                           Demo.respond_with 200 "{}" ]))
    as [Hvideo _].
  rewrite (Hvideo (ThrownApi (NotFoundError "Video" "v404")) eq_refl).
  split; reflexivity.
Defined.

Lemma update_surfaces_the_write_witness :
  fst (updatePlaylist (H := Demo.platform) Demo.oauth "p1" (Demo.retitle "Top ten")
         (Demo.idle [ Demo.respond_with 200 (Demo.stringify (Demo.list_of [Demo.playlist]));
                      Demo.respond_with 403 "quotaExceeded" ]))
  = Throw (ThrownApi (QuotaExceededError "YouTube API quota exceeded.")).
Proof.
  assert (Hans : answers_with (H := Demo.platform)
                   (Demo.respond_with 200 (Demo.stringify (Demo.list_of [Demo.playlist])))
                   (Demo.list_of [Demo.playlist]))
    by (repeat split; discriminate).
  destruct (@update_surfaces_the_write Demo.platform Demo.oauth "p1"
              Demo.no_video_updates (Demo.retitle "Top ten")
              (Demo.idle [ Demo.respond_with 200
                             (Demo.stringify (Demo.list_of [Demo.playlist]));
                           Demo.respond_with 403 "quotaExceeded" ])
              [] _ _ [] _ Demo.playlist [] eq_refl eq_refl Hans eq_refl)
    as (_ & Hplaylist & _).
  rewrite Hplaylist. reflexivity.
Defined.

Lemma updateCaption_metadata_only_witness :
  updateCaption (H := Demo.platform) Demo.anonymous "c1"
    (CaptionUpdateInput.mk (Some true) (Some EmptyString)) (Demo.idle [])
  = request (H := Demo.platform) Demo.anonymous "/captions"
      (put_json (H := Demo.platform) [ ("part", VStr "snippet") ]
         (VObj [ ("id", VStr "c1"); ("snippet", VObj [ ("isDraft", VBool true) ]) ]))
      (Demo.idle []) /\
  sent (snd (updateCaption (H := Demo.platform) Demo.anonymous "c1"
               (CaptionUpdateInput.mk (Some true) (Some EmptyString)) (Demo.idle [])))
  = [].
Proof.
  destruct (@updateCaption_metadata_only Demo.platform Demo.anonymous "c1"
              (CaptionUpdateInput.mk (Some true) (Some EmptyString)) (Demo.idle [])
              eq_refl) as [Hrun Hrefused].
  split; [exact Hrun|].
  destruct Hrefused as (e & Hthrown & _); [discriminate|].
  rewrite Hthrown. reflexivity.
Defined.

(** ** Operations beside the request helper *)

Section Bypasses.

Context `{Platform}.
Variable credentials : TenantCredentials.

(** X11. [downloadCaption] goes around the request helper. It always sends
    its one request, whatever the credentials; the query holds [tfmt] and
    [tlang] only, so an API key is never attached, and the header is the
    bearer one only with an access token. The text of a 2xx response is
    returned as it is; any other status, 401, 403, 404 and 429 included,
    becomes the generic error with that status, never retryable. *)
Theorem downloadCaption_unmapped (captionId : string) (format language : option string)
  (net : Net) :
  sent (snd (downloadCaption credentials captionId format language net))
  = (sent net ++ [downloadCaption_sent credentials captionId format language])%list /\
  (forall k s,
     In (k, s) (filteredParams (downloadCaption_params format language)) ->
     k = "tfmt" \/ k = "tlang") /\
  has_key "Authorization"
    (req_headers (downloadCaption_sent credentials captionId format language))
  = given (accessToken credentials) /\
  (forall response rest,
     upstream net = response :: rest ->
     fst (downloadCaption credentials captionId format language net)
     = if ok response then Ok (text response)
       else Throw (ThrownApi
              {| name := "YouTubeApiError";
                 message := "Failed to download caption: " +++ Z_to_string (status response);
                 statusCode := Some (status response);
                 code := "YOUTUBE_ERROR";
                 retryable := false;
                 class := IsYouTubeApiError |})).
Proof.
  repeat match goal with |- _ /\ _ => split end.
  - unfold downloadCaption, bind, fetch.
    destruct (upstream net) as [|response rest]; [reflexivity|].
    simpl. destruct (negb (ok response)); reflexivity.
  - intros k s Hin. unfold downloadCaption_params in Hin.
    destruct format as [[|c f]|], language as [[|d l]|]; simpl in Hin;
      repeat match goal with
             | H : _ \/ _ |- _ => destruct H
             | H : (_, _) = (_, _) |- _ => injection H as <- <-
             | H : False |- _ => contradiction
             end; auto.
  - unfold downloadCaption_sent, getAuthHeaders. simpl.
    destruct (given (accessToken credentials)); reflexivity.
  - intros response rest Hup. unfold downloadCaption, bind, fetch. rewrite Hup.
    simpl. destruct (ok response); reflexivity.
Qed.

Lemma respond_error_class (response : HttpResponse) (e : YouTubeApiError) :
  respond response = Throw (ThrownApi e) ->
  retryable e = (status response =? 429) /\
  forall details, class e <> IsValidationError details.
Proof.
  unfold respond.
  destruct (Z.eqb_spec (status response) 429) as [E|_].
  { intros [= <-]. split; [reflexivity | discriminate]. }
  destruct (Z.eqb_spec (status response) 401) as [E|_].
  { intros [= <-]. split; [reflexivity | discriminate]. }
  destruct (Z.eqb_spec (status response) 403) as [E|_].
  { destruct (includes (text response) "quotaExceeded"); intros [= <-];
      (split; [reflexivity | discriminate]). }
  destruct (Z.eqb_spec (status response) 404) as [E|_].
  { intros [= <-]. split; [reflexivity | discriminate]. }
  destruct (negb (ok response)).
  { intros [= <-]. split; [reflexivity | discriminate]. }
  destruct (Z.eqb_spec (status response) 204) as [E|_]; [discriminate|].
  intros Hparse. now apply JSON_parse_not_api in Hparse.
Qed.

(** X12. For an error of the taxonomy that [request] throws on a response,
    [isRetryableError] holds exactly when the status was 429, and the error
    is never a validation error: nothing in the client raises one. *)
Theorem request_errors_retryable (endpoint : string) (options : RequestOptions)
  (net : Net) authParams response rest (e : YouTubeApiError) :
  getAuthParams credentials = Ok authParams ->
  upstream net = response :: rest ->
  fst (request credentials endpoint options net) = Throw (ThrownApi e) ->
  isRetryableError (ThrownApi e) = (status response =? 429) /\
  forall details, class e <> IsValidationError details.
Proof.
  intros Hauth Hup. rewrite (request_answered _ _ _ _ _ _ _ Hauth Hup). simpl.
  apply respond_error_class.
Qed.

(** X13. [getMyChannel] returns the first channel upstream lists for the
    caller, and when there is none throws the not-found error for the
    entity [Channel] with the placeholder id [mine]. *)
Theorem getMyChannel_found_or_not (parts : option (list string)) (net : Net)
  authParams response rest v :
  getAuthParams credentials = Ok authParams ->
  upstream net = response :: rest ->
  answers_with response v ->
  found_or_not_found "Channel" "mine" (as_list_response v)
    (fst (getMyChannel credentials parts net)) /\
  message (NotFoundError "Channel" "mine") = "Channel with ID 'mine' not found".
Proof.
  intros Hauth Hup Hans. split; [|reflexivity]. unfold getMyChannel.
  rewrite (list_request _ _ _ _ _ _ _ _ _ Hauth Hup Hans).
  unfold found_or_not_found, no_items, ret, throw; cbn -[includes NotFoundError not_found].
  destruct (match opt v "items" with VArr l => Some l | _ => None end) as [[|x l]|];
    cbn -[includes NotFoundError not_found]; try reflexivity;
    apply thrown_not_found.
Qed.

End Bypasses.

Lemma request_errors_retryable_witness :
  isRetryableError
    (ThrownApi (RateLimitError "Rate limit exceeded" (Int 60))) = true.
Proof.
  destruct (@request_errors_retryable Demo.platform Demo.key_only "/videos" no_options
              (Demo.idle [Demo.respond_with 429 EmptyString]) [("key", VStr "AIza-key")]
              (Demo.respond_with 429 EmptyString) []
              (RateLimitError "Rate limit exceeded" (Int 60))
              eq_refl eq_refl eq_refl) as [Hretry _].
  exact Hretry.
Defined.

Lemma getMyChannel_found_or_not_witness :
  fst (getMyChannel (H := Demo.platform) Demo.oauth None
         (Demo.idle [Demo.respond_with 200 (Demo.stringify (Demo.list_of []))]))
  = Throw (ThrownApi (NotFoundError "Channel" "mine")).
Proof.
  assert (Hempty : answers_with (H := Demo.platform)
                     (Demo.respond_with 200 (Demo.stringify (Demo.list_of [])))
                     (Demo.list_of []))
    by (repeat split; discriminate).
  destruct (@getMyChannel_found_or_not Demo.platform Demo.oauth None
              (Demo.idle [Demo.respond_with 200 (Demo.stringify (Demo.list_of []))])
              [] _ [] _ eq_refl eq_refl Hempty) as [[Hthrown _] _].
  exact Hthrown.
Defined.

Lemma downloadCaption_unmapped_witness :
  exists e,
    fst (downloadCaption (H := Demo.platform) Demo.key_only "cap1" (Some "srt") None
           (Demo.idle [Demo.respond_with 429 "slow down"]))
    = Throw (ThrownApi e) /\
    class e = IsYouTubeApiError /\ retryable e = false /\ statusCode e = Some 429.
Proof.
  destruct (@downloadCaption_unmapped Demo.platform Demo.key_only "cap1" (Some "srt") None
              (Demo.idle [Demo.respond_with 429 "slow down"]))
    as (_ & _ & _ & Hresult).
  eexists. split; [exact (Hresult _ [] eq_refl)|]. repeat split.
Defined.

(** ** Queries and bodies *)

(** X14. [listCommentThreads] sends one filter at most: the video id when
    given, else the channel id, else the related-channel id, an empty string
    counting as not given; with none of them the request goes out
    unfiltered. *)
Theorem listCommentThreads_one_filter (params : CommentThreadListParams.t) :
  filter (mentions thread_filters) (filteredParams (listCommentThreads_params params))
  = first_given
      [ ("videoId", CommentThreadListParams.videoId params);
        ("channelId", CommentThreadListParams.channelId params);
        ("allThreadsRelatedToChannelId",
          CommentThreadListParams.allThreadsRelatedToChannelId params) ] /\
  (List.length
     (filter (mentions thread_filters)
        (filteredParams (listCommentThreads_params params))) <= 1)%nat.
Proof.
  destruct params as [maxResults pageToken videoId channelId related order terms status].
  unfold listCommentThreads_params; cbn [CommentThreadListParams.maxResults
    CommentThreadListParams.pageToken CommentThreadListParams.videoId
    CommentThreadListParams.channelId
    CommentThreadListParams.allThreadsRelatedToChannelId CommentThreadListParams.order
    CommentThreadListParams.searchTerms CommentThreadListParams.moderationStatus].
  destruct pageToken, order, terms, status;
    destruct videoId as [[|a v]|], channelId as [[|b c]|], related as [[|d r]|];
    (split; [reflexivity | simpl; lia]).
Qed.

(** X15. [listActivities] sends [mine=true] when [mine] is true and then no
    channel id; otherwise the channel id when it is given and not empty;
    otherwise neither. *)
Theorem listActivities_one_filter (params : ActivityListParams.t) :
  filter (mentions activity_filters) (filteredParams (listActivities_params params))
  = match ActivityListParams.mine params with
    | Some true => [ ("mine", "true") ]
    | _ => first_given [ ("channelId", ActivityListParams.channelId params) ]
    end.
Proof.
  destruct params as [maxResults pageToken channelId mine after before region].
  unfold listActivities_params; cbn [ActivityListParams.maxResults
    ActivityListParams.pageToken ActivityListParams.channelId ActivityListParams.mine
    ActivityListParams.publishedAfter ActivityListParams.publishedBefore
    ActivityListParams.regionCode].
  destruct pageToken, after, before, region;
    destruct mine as [[|]|], channelId as [[|b c]|]; reflexivity.
Qed.

Section Queries.

Context `{Platform}.
Variable credentials : TenantCredentials.

(** X16. [listChannelSubscribers] does not use its channel id: whatever the
    id, the one request it sends asks for [mySubscribers=true] and has no
    [channelId] parameter. *)
Theorem listChannelSubscribers_ignores_channel (channelId other : string)
  (params : option PaginationParams.t) (parts : option (list string)) (net : Net)
  authParams :
  getAuthParams credentials = Ok authParams ->
  let query :=
    [ ("part", VStr (join "," (default ["snippet"; "subscriberSnippet"] parts)));
      ("mySubscribers", VBool true);
      ("maxResults",
        page_size (PaginationParams.maxResults (default PaginationParams.none params)));
      ("pageToken",
        of_opt_string (PaginationParams.pageToken (default PaginationParams.none params))) ] in
  sent (snd (listChannelSubscribers credentials channelId params parts net))
  = (sent net ++ [request_sent credentials authParams "/subscriptions" (get_params query)])%list /\
  has_key "channelId" query = false /\
  listChannelSubscribers credentials channelId params parts net
  = listChannelSubscribers credentials other params parts net.
Proof.
  intros Hauth query. subst query. split; [|split; reflexivity].
  unfold listChannelSubscribers.
  rewrite (list_operation_net credentials "/subscriptions" _
             (fun list => Ok (toPaginatedResponse list)) net).
  now apply request_sends.
Qed.

End Queries.

(** X17. [searchVideos] searches with the type [video] whatever type its
    caller asks for, and changes no other parameter; its query always says
    [part=snippet]. *)
Theorem searchVideos_forces_type `{Platform} (credentials : TenantCredentials)
  (params : SearchParams.t) :
  let forced := search_params (SearchParams.with_type params "video") in
  searchVideos credentials params
  = search credentials (SearchParams.with_type params "video") /\
  In ("type", "video") (filteredParams forced) /\
  In ("part", "snippet") (filteredParams forced) /\
  (forall v, In ("type", v) (filteredParams forced) -> v = "video") /\
  (forall k, k <> "type" -> lookup k forced = lookup k (search_params params)).
Proof.
  intros forced. subst forced. split; [reflexivity|].
  split; [|split; [|split]].
  - apply filteredParams_In. exists (VStr "video").
    split; [simpl; tauto | split; [discriminate | reflexivity]].
  - apply filteredParams_In. exists (VStr "snippet").
    split; [simpl; tauto | split; [discriminate | reflexivity]].
  - intros v Hin. apply filteredParams_In in Hin. destruct Hin as (v' & Hin & _ & ->).
    simpl in Hin.
    repeat (destruct Hin as [Hin|Hin]; [try discriminate Hin|]);
      try contradiction.
    now injection Hin as <-.
  - intros k Hk. unfold search_params. simpl.
    destruct (String.eqb_spec k "type"); [contradiction | reflexivity].
Qed.

Lemma listChannelSubscribers_ignores_channel_witness :
  map req_url
    (sent (snd (listChannelSubscribers (H := Demo.platform) Demo.oauth "UC-someone" None
                  None (Demo.idle []))))
  = [ "https://www.googleapis.com/youtube/v3/subscriptions?part=snippet,subscriberSnippet&mySubscribers=true&maxResults=25" ].
Proof.
  destruct (@listChannelSubscribers_ignores_channel Demo.platform Demo.oauth
              "UC-someone" "mine" None None (Demo.idle []) [] eq_refl)
    as (Hsent & _ & _).
  rewrite Hsent. reflexivity.
Defined.

(** X18. [addVideoToPlaylist] sends a position exactly when it is given
    one, position 0 included, next to the playlist and the video it was
    given. *)
Theorem addVideoToPlaylist_position (playlistId videoId : string) (position : option Z) :
  let snippet := opt (addVideoToPlaylist_body playlistId videoId position) "snippet" in
  opt snippet "position" = of_opt_int position /\
  (opt snippet "position" = VUndef <-> position = None) /\
  opt snippet "playlistId" = VStr playlistId /\
  opt snippet "resourceId"
  = VObj [ ("kind", VStr "youtube#video"); ("videoId", VStr videoId) ].
Proof.
  destruct position as [p|]; cbn; repeat split; try discriminate; reflexivity.
Qed.

(** X19. [reportVideoAbuse] treats an empty secondary reason or comment as
    none: the body has the property only for a non-empty text, and always
    has the video and the reason. *)
Theorem reportVideoAbuse_optional_fields (videoId reasonId : string)
  (secondaryReasonId comments : option string) :
  let body := reportVideoAbuse_body videoId reasonId secondaryReasonId comments in
  body = reportVideoAbuse_body videoId reasonId (or_undefined secondaryReasonId)
           (or_undefined comments) /\
  opt body "videoId" = VStr videoId /\
  opt body "reasonId" = VStr reasonId /\
  opt body "secondaryReasonId" = of_opt_string (or_undefined secondaryReasonId) /\
  opt body "comments" = of_opt_string (or_undefined comments).
Proof.
  destruct secondaryReasonId as [[|a s]|], comments as [[|b c]|]; cbn; repeat split.
Qed.

(** X20. A channel section is sent with [contentDetails] exactly when the
    input has a playlist list or a channel list, an empty list included;
    the body of an update leads with the section id and the body of an
    insert has none. *)
Theorem channelSection_contentDetails (id : option string) (input : ChannelSectionInput.t) :
  let body := channelSection_body id input in
  opt body "contentDetails"
  = (if is_some (ChannelSectionInput.playlistIds input)
        || is_some (ChannelSectionInput.channelIds input)
     then VObj [ ("playlists", of_opt_tags (ChannelSectionInput.playlistIds input));
                 ("channels", of_opt_tags (ChannelSectionInput.channelIds input)) ]
     else VUndef) /\
  opt body "id" = of_opt_string id /\
  opt (opt body "snippet") "type" = VStr (ChannelSectionInput.type input) /\
  (ChannelSectionInput.playlistIds input = Some [] ->
   opt (opt body "contentDetails") "playlists" = VArr []).
Proof.
  destruct input as [type title position playlists channels].
  destruct id, playlists as [[|p ps]|], channels; cbn; repeat split; try discriminate.
Qed.

Lemma channelSection_contentDetails_witness :
  opt (opt (channelSection_body None
              (ChannelSectionInput.mk "multipleplaylists" None None (Some []) None))
         "contentDetails") "playlists"
  = VArr [].
Proof.
  destruct (channelSection_contentDetails None
              (ChannelSectionInput.mk "multipleplaylists" None None (Some []) None))
    as (_ & _ & _ & Hempty).
  exact (Hempty eq_refl).
Defined.

(** ** Rendering *)

Lemma as_paginated_value (page : PaginatedResponse jsval) :
  as_paginated (paginated_value page) = page.
Proof.
  destruct page as [items count total perPage more next prev].
  destruct total, perPage, next, prev; reflexivity.
Qed.

(** X21. A paginated envelope is always rendered as one: in markdown
    [formatResponse] gives an envelope the paginated rendering, whatever it
    holds, and not the rendering of a plain object; the answer is not marked
    as an error. This is what becomes of every page [toPaginatedResponse]
    makes. *)
Theorem formatResponse_of_envelope `{Platform} (page : PaginatedResponse jsval)
  (entityType : string) :
  isPaginatedResponse (paginated_value page) = true /\
  as_paginated (paginated_value page) = page /\
  formatResponse (paginated_value page) markdown entityType
  = text_response (formatPaginatedAsMarkdown page entityType) None /\
  formatResponse (paginated_value page) json entityType
  = text_response (JSON_stringify_pretty (paginated_value page)) None.
Proof.
  split; [reflexivity|]. split; [apply as_paginated_value|]. split; [|reflexivity].
  unfold formatResponse, formatAsMarkdown.
  change (isPaginatedResponse (paginated_value page)) with true. cbv iota.
  now rewrite as_paginated_value.
Qed.

Lemma flat_map_entry_lines_defined `{Platform} (data : list (string * jsval)) :
  flat_map entry_lines (filter (fun entry => negb (nullish (snd entry))) data)
  = flat_map entry_lines data.
Proof.
  induction data as [|[k v] rest IH]; [reflexivity|].
  destruct v; simpl; rewrite ?IH; reflexivity.
Qed.

(** X22. The rendering of a single object leaves out the properties that
    are [null] or [undefined]: it is the rendering of the object without
    them, and an object with nothing else renders as its title alone. *)
Theorem formatObjectAsMarkdown_skips_nullish `{Platform} (data : list (string * jsval))
  (entityType : string) :
  formatObjectAsMarkdown data entityType
  = formatObjectAsMarkdown (filter (fun entry => negb (nullish (snd entry))) data)
      entityType /\
  (forallb (fun entry => nullish (snd entry)) data = true ->
   formatObjectAsMarkdown data entityType
   = join newline [ "## " +++ capitalize (strip_final_s entityType); EmptyString ]).
Proof.
  unfold formatObjectAsMarkdown. split.
  - now rewrite flat_map_entry_lines_defined.
  - intros Hall. f_equal. f_equal.
    induction data as [|[k v] rest IH]; [reflexivity|].
    simpl in Hall. apply andb_prop in Hall. destruct Hall as [Hv Hrest].
    destruct v; try discriminate; simpl; now apply IH.
Qed.

Lemma formatObjectAsMarkdown_skips_nullish_witness :
  formatObjectAsMarkdown (H := Demo.platform)
    [ ("etag", VNull); ("snippet", VUndef) ] "channels"
  = join newline [ "## Channel"; EmptyString ].
Proof.
  destruct (@formatObjectAsMarkdown_skips_nullish Demo.platform
              [ ("etag", VNull); ("snippet", VUndef) ] "channels") as [_ Hall].
  exact (Hall eq_refl).
Defined.

(** ** Tool handlers *)

Section ToolProperties.

Context `{Platform}.
Variable credentials : TenantCredentials.

(** X23. The handlers of [youtube_get_channel] and [youtube_list_channels]
    never throw: they return the formatted result of the client call when it
    returns and the formatted error when it throws, they add no request of
    their own, and their answer is marked as an error exactly when the
    client call threw. *)
Theorem channel_tools_never_throw (channelId : string) (channelIds parts : list string)
  (format : ResponseFormat) (net : Net) :
  (exists response,
     youtube_get_channel credentials channelId parts format net
     = (Ok response, snd (getChannel credentials channelId (Some parts) net)) /\
     response
     = match fst (getChannel credentials channelId (Some parts) net) with
       | Ok channel => formatResponse channel format "channel"
       | Throw error => formatError error
       end /\
     (ToolResponse.isError response = Some true <->
      exists error, fst (getChannel credentials channelId (Some parts) net) = Throw error)) /\
  (exists response,
     youtube_list_channels credentials channelIds parts format net
     = (Ok response, snd (listChannels credentials channelIds (Some parts) net)) /\
     response
     = match fst (listChannels credentials channelIds (Some parts) net) with
       | Ok result => formatResponse (paginated_value result) format "channels"
       | Throw error => formatError error
       end /\
     (ToolResponse.isError response = Some true <->
      exists error, fst (listChannels credentials channelIds (Some parts) net) = Throw error)).
Proof.
  split.
  - unfold youtube_get_channel, try_catch, bind, ret.
    destruct (getChannel credentials channelId (Some parts) net) as [[channel|error] net'];
      eexists; (split; [reflexivity|]); (split; [reflexivity|]); simpl; split.
    + destruct format; discriminate.
    + intros (error & [=]).
    + eauto.
    + reflexivity.
  - unfold youtube_list_channels, try_catch, bind, ret.
    destruct (listChannels credentials channelIds (Some parts) net) as [[result|error] net'];
      eexists; (split; [reflexivity|]); (split; [reflexivity|]); simpl; split.
    + destruct format; discriminate.
    + intros (error & [=]).
    + eauto.
    + reflexivity.
Qed.

(** X24. The handler of [youtube_get_channel_by_username] never throws
    either. For a username upstream knows no channel of, it answers with an
    error payload of its own, [{ error: "Channel not found for username:
    ..." }], which is not the formatted not-found error of the taxonomy: the
    client call did not throw. Otherwise it formats the first channel, or
    the error the client threw. *)
Theorem username_tool_not_found (username : string) (parts : list string)
  (format : ResponseFormat) (net : Net) :
  exists response,
    youtube_get_channel_by_username credentials username parts format net
    = (Ok response,
       snd (listChannelsByUsername credentials username (Some parts) net)) /\
    response
    = match fst (listChannelsByUsername credentials username (Some parts) net) with
      | Ok result =>
          match items result with
          | [] =>
              text_response
                (JSON_stringify_pretty
                   (VObj [ ("error",
                            VStr ("Channel not found for username: " +++ username)) ]))
                (Some true)
          | channel :: _ => formatResponse channel format "channel"
          end
      | Throw error => formatError error
      end.
Proof.
  unfold youtube_get_channel_by_username, try_catch, bind, ret.
  destruct (listChannelsByUsername credentials username (Some parts) net)
    as [[result|error] net']; [|eexists; split; reflexivity].
  destruct result as [[|channel others] count total perPage more next prev];
    eexists; split; reflexivity.
Qed.

End ToolProperties.

(** ** Lists without an envelope and the generic table *)

Section PlainLists.

Context `{Platform}.
Variable credentials : TenantCredentials.

(** X25. [listCaptions] and [getVideoRating] return the items of the
    answered list as they are, and the empty list when upstream leaves
    [items] out; an empty result is not an error for them. *)
Theorem plain_lists_default_to_empty (id : string) (parts : option (list string))
  (net : Net) authParams response rest v :
  getAuthParams credentials = Ok authParams ->
  upstream net = response :: rest ->
  answers_with response v ->
  let listed := default [] (ListResponse.items (as_list_response v)) in
  fst (listCaptions credentials id parts net) = Ok listed /\
  fst (getVideoRating credentials [id] net) = Ok listed /\
  (opt v "items" = VUndef -> listed = []).
Proof.
  intros Hauth Hup Hans listed. subst listed. repeat split.
  - unfold listCaptions. now rewrite (list_request _ _ _ _ _ _ _ _ _ Hauth Hup Hans).
  - unfold getVideoRating. now rewrite (list_request _ _ _ _ _ _ _ _ _ Hauth Hup Hans).
  - intros Habsent. simpl. now rewrite Habsent.
Qed.

End PlainLists.

Lemma plain_lists_default_to_empty_witness :
  fst (listCaptions (H := Demo.platform) Demo.key_only "v1" None
         (Demo.idle [Demo.respond_with 200 "{}"]))
  = Ok [].
Proof.
  assert (Hans : answers_with (H := Demo.platform) (Demo.respond_with 200 "{}") (VObj []))
    by (repeat split; discriminate).
  destruct (@plain_lists_default_to_empty Demo.platform Demo.key_only "v1" None
              (Demo.idle [Demo.respond_with 200 "{}"]) [("key", VStr "AIza-key")] _ [] _
              eq_refl eq_refl Hans) as (Hcaptions & _ & Hempty).
  rewrite Hcaptions. rewrite (Hempty eq_refl). reflexivity.
Defined.

Lemma lookup_restricted (keys : list string) (k : string) (fields : list (string * jsval)) :
  In k keys ->
  lookup k (filter (fun entry => existsb (String.eqb (fst entry)) keys) fields)
  = lookup k fields.
Proof.
  intros Hin. induction fields as [|[k' v] rest IH]; [reflexivity|].
  simpl. destruct (existsb (String.eqb k') keys) eqn:Hkept; simpl.
  - now rewrite IH.
  - destruct (String.eqb_spec k k') as [->|_]; [|exact IH].
    assert (Hex : existsb (String.eqb k') keys = true)
      by (apply existsb_exists; exists k'; split; [exact Hin | apply String.eqb_refl]).
    congruence.
Qed.

Lemma opt_restricted (keys : list string) (k : string) (record : jsval) :
  In k keys -> opt (restrict keys record) k = opt record k.
Proof.
  intros Hin. destruct record; try reflexivity. simpl. now apply lookup_restricted.
Qed.

Lemma formatGenericTable_restricted (item : jsval) (others : list jsval) :
  formatGenericTable (item :: others)
  = formatGenericTable
      (item :: map (restrict (firstn 5 (Object_keys item))) others).
Proof.
  unfold formatGenericTable. cbn [List.length Nat.eqb first].
  do 2 f_equal. cbn [map]. f_equal. rewrite map_map.
  apply map_ext_in. intros record _. f_equal.
  apply map_ext_in. intros k Hk. now rewrite opt_restricted.
Qed.

(** X26. The generic table of a list of objects takes its columns from the
    first object alone, five at most: what the other objects have under
    other keys is never rendered (the table is the table of the objects cut
    down to those keys), and an object without one of the columns, or with
    [null] there, shows ["-"]. *)
Theorem generic_table_columns (fields : list (string * jsval))
  (others : list (list (string * jsval))) :
  let keys := firstn 5 (map fst fields) in
  (List.length keys <= 5)%nat /\
  formatGenericTable (VObj fields :: map VObj others)
  = formatGenericTable (VObj fields :: map (restrict keys) (map VObj others)) /\
  (forall record k, In k keys -> nullish (lookup k record) = true ->
     ToString (coalesce (opt (VObj record) k) dash) = "-").
Proof.
  intros keys. split; [apply firstn_le_length|]. split.
  - apply (formatGenericTable_restricted (VObj fields)).
  - intros record k _ Hnull. unfold coalesce, opt. now rewrite Hnull.
Qed.

Lemma generic_table_columns_witness :
  formatGenericTable
    [ VObj [ ("id", VStr "a") ]; VObj [ ("secret", VStr "x"); ("id", VNull) ] ]
  = join newline [ "| id |"; "|---|"; "| a |"; "| - |" ].
Proof.
  destruct (generic_table_columns [ ("id", VStr "a") ]
              [ [ ("secret", VStr "x"); ("id", VNull) ] ]) as (_ & Hcut & _).
  cbn [map] in Hcut. rewrite Hcut. reflexivity.
Defined.

Lemma searchVideos_forces_type_witness :
  lookup "q"
    (search_params
       (SearchParams.with_type
          (SearchParams.mk None None (Some "cats") (Some "channel") None None None None
             None None None None None None None None None None None None None None None
             None) "video"))
  = VStr "cats".
Proof.
  destruct (@searchVideos_forces_type Demo.platform Demo.key_only
              (SearchParams.mk None None (Some "cats") (Some "channel") None None None None
                 None None None None None None None None None None None None None None None
                 None)) as (_ & _ & _ & _ & Hothers).
  rewrite (Hothers "q"); [reflexivity | discriminate].
Defined.
